(** * Event knowledge dashboard: the data transformations, embedded and verified

    The development follows the Python sources module by module:
    - [Py]: the fragment of Python the sources rely on (JSON values as
      [json.load] returns them, truthiness, [dict.get], iteration,
      [float()], exceptions as an error monad);
    - [Pandas]: the normalized row, and a data frame that remembers whether
      it has columns and the dtype of its [date] column;
    - [UtilsData]: utils_data.py;
    - [GraphModule]: graph_module.py;
    - [GeoModule]: geo_module.py ([_aggregate_by_location]);
    - [TimelineModule]: timeline_module.py.

    Python floats are idealised as rationals ([Q]): sums and means are the
    exact ones.  What belongs to third-party libraries and is not decided by
    the sources (the text of a parsed date, calendar bucketing, betweenness
    and eigenvector centrality, the iteration order of a [set]) is a field
    of a type class, so that every statement holds for each behaviour of
    the library. *)

From Stdlib Require Import String Ascii ZArith QArith Bool Arith Lia List.
From Stdlib Require Import Permutation Sorted.
Import ListNotations.

Local Open Scope string_scope.
Local Open Scope list_scope.
Local Open Scope nat_scope.

(* ================================================================= *)
(** ** Python values and exceptions *)

Module Py.

(** The exception classes the modelled code can meet; [LibraryError] stands
    for the exception classes of third-party libraries. *)
Inductive exn : Set :=
| KeyError
| AttributeError
| TypeError
| ValueError
| LibraryError.

(** A computation either returns or raises. *)
Inductive result (A : Type) : Type :=
| Ok (a : A)
| Raise (e : exn).
Arguments Ok {A} a.
Arguments Raise {A} e.

Definition bind {A B : Type} (c : result A) (k : A -> result B) : result B :=
  match c with
  | Ok a => k a
  | Raise e => Raise e
  end.

Declare Scope py_scope.
Delimit Scope py_scope with py.
Notation "x <- c ;; k" := (bind c (fun x => k))
  (at level 61, c at next level, right associativity) : py_scope.

Local Open Scope py_scope.

(** [for x in l: ...] with a body that may raise, collecting results. *)
Fixpoint mapM {A B : Type} (f : A -> result B) (l : list A) : result (list B) :=
  match l with
  | [] => Ok []
  | x :: t => y <- f x ;; ys <- mapM f t ;; Ok (y :: ys)
  end.

(** What [json.load] produces.  A [VDict] lists the items of the loaded
    dict in insertion order; its keys are strings and [dict_get] reads the
    first binding of a key. *)
#[local] Unset Elimination Schemes.
Inductive value : Type :=
| VNone
| VBool (b : bool)
| VInt (z : Z)
| VFloat (q : Q)
| VStr (s : string)
| VList (l : list value)
| VDict (kv : list (string * value)).
#[local] Set Elimination Schemes.

Fixpoint dict_get (kv : list (string * value)) (k : string) : option value :=
  match kv with
  | [] => None
  | (k', v) :: t => if String.eqb k' k then Some v else dict_get t k
  end.

Definition dict_mem (kv : list (string * value)) (k : string) : bool :=
  match dict_get kv k with Some _ => true | None => false end.

(** [bool(v)] *)
Definition truthy (v : value) : bool :=
  match v with
  | VNone => false
  | VBool b => b
  | VInt z => negb (Z.eqb z 0)
  | VFloat q => negb (Qeq_bool q 0)
  | VStr s => negb (String.eqb s "")
  | VList l => match l with [] => false | _ => true end
  | VDict kv => match kv with [] => false | _ => true end
  end.

(** [a or b] *)
Definition py_or (a b : value) : value := if truthy a then a else b.

(** [isinstance(v, dict)] *)
Definition is_dict (v : value) : bool :=
  match v with VDict _ => true | _ => false end.

(** [v.get(k, default)]: only a dict has the method. *)
Definition py_get (v : value) (k : string) (default : value) : result value :=
  match v with
  | VDict kv => Ok (match dict_get kv k with Some x => x | None => default end)
  | _ => Raise AttributeError
  end.

(** [v[k]] where [v] is expected to be a dict. *)
Definition py_getitem (v : value) (k : value) : result value :=
  match v, k with
  | VDict kv, VStr s =>
      match dict_get kv s with Some x => Ok x | None => Raise KeyError end
  | VDict _, (VList _ | VDict _) => Raise TypeError
  | VDict _, _ => Raise KeyError
  | _, _ => Raise TypeError
  end.

(** [v == s] for a string literal [s]. *)
Definition eq_str (v : value) (s : string) : bool :=
  match v with VStr s' => String.eqb s' s | _ => false end.

(** [k in d] for a dict [d]: unhashable keys raise, and since the keys of
    a loaded dict are strings only a string can be found. *)
Definition py_in_dict (k : value) (kv : list (string * value)) : result bool :=
  match k with
  | VStr s => Ok (dict_mem kv s)
  | VList _ | VDict _ => Raise TypeError
  | _ => Ok false
  end.

Fixpoint chars (s : string) : list value :=
  match s with
  | EmptyString => []
  | String c t => VStr (String c EmptyString) :: chars t
  end.

(** [for x in v]: lists give their elements, strings their characters,
    dicts their keys; nothing else is iterable. *)
Definition py_iter (v : value) : result (list value) :=
  match v with
  | VList l => Ok l
  | VStr s => Ok (chars s)
  | VDict kv => Ok (map (fun p => VStr (fst p)) kv)
  | _ => Raise TypeError
  end.

(** [v.items()] *)
Definition py_items (v : value) : result (list (string * value)) :=
  match v with
  | VDict kv => Ok kv
  | _ => Raise AttributeError
  end.

(** The builtins whose result is decided by the text of a string. *)
Class Builtins : Type := {
  (** [float(s)] for a string [s]; [None] stands for [ValueError]. *)
  float_of_str : string -> option Q
}.

(** [float(v)] *)
Definition py_float `{Builtins} (v : value) : result Q :=
  match v with
  | VInt z => Ok (inject_Z z)
  | VFloat q => Ok q
  | VBool b => Ok (if b then 1%Q else 0%Q)
  | VStr s => match float_of_str s with Some q => Ok q | None => Raise ValueError end
  | VNone | VList _ | VDict _ => Raise TypeError
  end.

(** [sum(l)] *)
Definition py_sum (l : list Q) : Q := fold_left Qplus l 0%Q.

(** [sum(l)/len(l) if l else 0.0] *)
Definition mean_or_zero (l : list Q) : Q :=
  match l with
  | [] => 0%Q
  | _ => (py_sum l / inject_Z (Z.of_nat (List.length l)))%Q
  end.

(** [l[:n]] *)
Definition slice_to {A : Type} (n : Z) (l : list A) : list A :=
  if (n <? 0)%Z
  then firstn (Z.to_nat (Z.max 0 (Z.of_nat (List.length l) + n))) l
  else firstn (Z.to_nat n) l.

(** A stable sort, as [sorted] and [list.sort] are: [x] goes before the
    first element it is not after.  [leb x h] reads: [x] may precede [h]. *)
Fixpoint insert_sorted {A : Type} (leb : A -> A -> bool) (x : A) (l : list A) : list A :=
  match l with
  | [] => [x]
  | h :: t => if leb x h then x :: h :: t else h :: insert_sorted leb x t
  end.

Definition sorted_by {A : Type} (leb : A -> A -> bool) (l : list A) : list A :=
  fold_right (insert_sorted leb) [] l.

(** [sorted(l)] on strings. *)
Definition py_sorted (l : list string) : list string := sorted_by String.leb l.

(** [itertools.combinations(l, 2)] *)
Fixpoint combinations2 {A : Type} (l : list A) : list (A * A) :=
  match l with
  | [] => []
  | x :: t => map (pair x) t ++ combinations2 t
  end.

(** The distinct elements of [l], in order of first appearance. *)
Fixpoint unique {A : Type} (eq_dec : forall x y : A, {x = y} + {x <> y})
    (l : list A) : list A :=
  match l with
  | [] => []
  | x :: t => x :: filter (fun y => if eq_dec x y then false else true) (unique eq_dec t)
  end.

(** [a > b] on numbers. *)
Definition Qgt_bool (a b : Q) : bool := negb (Qle_bool a b).

(** [l[i] = v], for [i] in range. *)
Fixpoint set_nth {A : Type} (i : nat) (v : A) (l : list A) : list A :=
  match l, i with
  | [], _ => []
  | _ :: t, O => v :: t
  | h :: t, S j => h :: set_nth j v t
  end.

(** [sep.join(l)] *)
Definition join (sep : string) (l : list string) : string := String.concat sep l.

(** The order in which a [set] of strings built from a list is iterated:
    CPython leaves it to the hashes of the elements.  Each element comes
    once. *)
Class SetOrder : Type := {
  set_iter : list string -> list string;
  set_iter_NoDup : forall l, NoDup (set_iter l);
  set_iter_In : forall l x, In x (set_iter l) <-> In x l
}.

(** The methods of [str] whose result is decided by the Unicode tables. *)
Class StrMethods : Type := {
  (** [s.lower()] *)
  lower : string -> string;
  (** [s.strip()] *)
  strip : string -> string
}.

(** [sub in s] on strings: [sub] occurs in [s]. *)
Fixpoint py_in_str (sub s : string) : bool :=
  if String.prefix sub s then true
  else match s with
       | EmptyString => false
       | String _ t => py_in_str sub t
       end.

(** [int(x)] on a number: truncation toward zero. *)
Definition py_int (x : Q) : Z := Z.quot (Qnum x) (Z.pos (Qden x)).

(** A dict with string keys, as the list of its items in insertion order. *)
Fixpoint assoc_get {V : Type} (d : list (string * V)) (k : string) : option V :=
  match d with
  | [] => None
  | (k', v) :: t => if String.eqb k' k then Some v else assoc_get t k
  end.

(** [d[k] = v]: the value of a present key is replaced where it is, a new
    key goes last. *)
Fixpoint assoc_set {V : Type} (d : list (string * V)) (k : string) (v : V)
  : list (string * V) :=
  match d with
  | [] => [(k, v)]
  | (k', v') :: t =>
      if String.eqb k' k then (k', v) :: t else (k', v') :: assoc_set t k v
  end.

End Py.

Export Py.
Local Open Scope py_scope.

(* ================================================================= *)
(** ** Rows and data frames *)

Module Pandas.

(** The value of [datetime.strptime(s, "%d/%m/%Y")]: a day, at midnight. *)
Record datetime : Set := {
  year : Z;
  month : Z;
  day : Z
}.

(** One record appended by [build_dataframe], columns as keys.  [V] is the
    type of the cells that hold text: [value] right after loading, [string]
    for the normalized rows the analytical modules are specified on.
    A [date] of [None] is Python's [None] (or pandas' [NaT]). *)
Record Row (V : Type) : Type := {
  event_title : V;
  event_location : V;
  date : option datetime;
  entity_names : list V;
  entity_tags : list V;
  sentiment : Q;
  event_types : list V;
  raw : value
}.
Arguments event_title {V} _.
Arguments event_location {V} _.
Arguments date {V} _.
Arguments entity_names {V} _.
Arguments entity_tags {V} _.
Arguments sentiment {V} _.
Arguments event_types {V} _.
Arguments raw {V} _.

(** The dtype pandas gives the [date] column: [datetime64[ns]] supports
    the [.dt] accessor, [object] does not. *)
Inductive dtype : Set :=
| Datetime64
| Object.

(** A frame built from row records.  [pd.DataFrame([])] has no rows and no
    columns at all; a frame built from at least one record has the eight
    columns, and keeps them (and the dtype of [date]) when rows are
    filtered out. *)
Inductive DataFrame (V : Type) : Type :=
| NoColumns
| Frame (date_dtype : dtype) (rows : list (Row V)).
Arguments NoColumns {V}.
Arguments Frame {V} date_dtype rows.

Definition has_date {V : Type} (r : Row V) : bool :=
  match date r with Some _ => true | None => false end.

(** [pd.DataFrame(rows)]: the [date] column is inferred as datetime when a
    date is there to infer it from, and stays [object] when every cell is
    [None]. *)
Definition from_records {V : Type} (rows : list (Row V)) : DataFrame V :=
  match rows with
  | [] => NoColumns
  | _ => Frame (if existsb has_date rows then Datetime64 else Object) rows
  end.

(** [df.dropna(subset=["date"]).reset_index(drop=True)]: the column must
    exist. *)
Definition dropna_date {V : Type} (df : DataFrame V) : result (DataFrame V) :=
  match df with
  | NoColumns => Raise KeyError
  | Frame dt rows => Ok (Frame dt (filter has_date rows))
  end.

(** [df.iterrows()], without the index. *)
Definition iterrows {V : Type} (df : DataFrame V) : list (Row V) :=
  match df with
  | NoColumns => []
  | Frame _ rows => rows
  end.

(** [len(df)] *)
Definition len {V : Type} (df : DataFrame V) : nat := List.length (iterrows df).

(** [df.empty] *)
Definition empty {V : Type} (df : DataFrame V) : bool :=
  match iterrows df with [] => true | _ => false end.

(** [Series.mean()] of a non-empty group. *)
Definition mean (l : list Q) : Q :=
  (py_sum l / inject_Z (Z.of_nat (List.length l)))%Q.

Definition datetime_eq_dec (a b : datetime) : {a = b} + {a <> b}.
Proof. decide equality; apply Z.eq_dec. Defined.

(** Chronological order. *)
Definition datetime_leb (a b : datetime) : bool :=
  if (year a <? year b)%Z then true
  else if (year b <? year a)%Z then false
  else if (month a <? month b)%Z then true
  else if (month b <? month a)%Z then false
  else (day a <=? day b)%Z.

(** [Series.sort_values(ascending=False)] on a series of counts, as
    [value_counts] applies it: the counts come in descending order, and pandas
    leaves the order of equal counts to the sorting algorithm. *)
Class SortValues : Type := {
  sort_counts : list (string * Z) -> list (string * Z);
  sort_counts_perm : forall l, Permutation (sort_counts l) l;
  sort_counts_desc :
    forall l, StronglySorted (fun x y => (snd y <= snd x)%Z) (sort_counts l)
}.

(** [Series.value_counts()]: each distinct value with the number of its
    occurrences. *)
Definition value_counts `{SortValues} (l : list string) : list (string * Z) :=
  sort_counts (map (fun v => (v, Z.of_nat (count_occ string_dec l v)))
                   (unique string_dec l)).

End Pandas.

(* ================================================================= *)
(** ** utils_data.py *)

Module UtilsData.

Import Pandas.

(** [datetime.strptime]: [None] stands for the [ValueError] of a text that
    does not match the format or names no calendar day. *)
Class DatetimeLib : Type := {
  strptime : string -> string -> option datetime
}.

Section WithLibraries.
Context `{Builtins} `{DatetimeLib}.

Definition flatten_events (events_json : value) : result (list value) :=
  groups <- py_iter events_json ;;
  flat <- mapM py_iter groups ;;
  Ok (concat flat).

(** [datetime.strptime(v, fmt)] on a loaded value. *)
Definition py_strptime (v : value) (fmt : string) : result datetime :=
  match v with
  | VStr s => match strptime s fmt with Some d => Ok d | None => Raise ValueError end
  | _ => Raise TypeError
  end.

(** The body of the [try] of [parse_event_date]. *)
Definition parse_event_date_try (d : value) : result (option datetime) :=
  kind <- py_get d "kind" VNone ;;
  if eq_str kind "single" then
    s <- py_getitem d (VStr "date") ;;
    t <- py_strptime s "%d/%m/%Y" ;;
    Ok (Some t)
  else if eq_str kind "range" then
    s <- py_getitem d (VStr "end") ;;
    t <- py_strptime s "%d/%m/%Y" ;;
    Ok (Some t)
  else Ok None.

(** [except Exception: return None] *)
Definition parse_event_date (d : value) : option datetime :=
  match parse_event_date_try d with
  | Ok r => r
  | Raise _ => None
  end.

Definition taxonomy_sentiment_lookup
    (taxonomy : value) (category : string) (label : value) : result Q :=
  node <- py_get taxonomy category (VDict []) ;;
  exact <- match node with
           | VDict kv => py_in_dict label kv
           | _ => Ok false
           end ;;
  if exact then
    item <- py_getitem node label ;;
    s <- py_get item "sentiment" (VInt 0) ;;
    py_float s
  else
    fallback <- match node with
                | VDict kv =>
                    if dict_mem kv "other"
                    then o <- py_getitem node (VStr "other") ;; Ok (is_dict o)
                    else Ok false
                | _ => Ok false
                end ;;
    if fallback then
      o <- py_getitem node (VStr "other") ;;
      s <- py_get o "sentiment" (VInt 0) ;;
      py_float s
    else Ok 0%Q.

Definition event_sentiment (event taxonomy : value) : result Q :=
  ec0 <- py_get event "event_classifications" (VDict []) ;;
  items <- py_items (py_or ec0 (VDict [])) ;;
  sentiments <- mapM (fun cl : string * value =>
                        labels <- py_iter (snd cl) ;;
                        mapM (taxonomy_sentiment_lookup taxonomy (fst cl)) labels)
                     items ;;
  Ok (mean_or_zero (concat sentiments)).

Definition extract_event_types (event : value) : result (list value) :=
  ec0 <- py_get event "event_classifications" (VDict []) ;;
  items <- py_items (py_or ec0 (VDict [])) ;;
  out <- mapM (fun cl : string * value => py_iter (snd cl)) items ;;
  Ok (concat out).

(** [[e.get(k) for e in entities if e.get(k)]] *)
Definition truthy_fields (k : string) (entities : list value) : result (list value) :=
  vs <- mapM (fun e => py_get e k VNone) entities ;;
  Ok (filter truthy vs).

(** The record [build_dataframe] appends for one event. *)
Definition row_of_event (taxonomy ev : value) : result (Row value) :=
  d1 <- py_get ev "event_date_occured" VNone ;;
  d2 <- py_get ev "event_date_occurred" VNone ;;
  let date_obj := parse_event_date (py_or (py_or d1 d2) (VDict [])) in
  ents0 <- py_get ev "entities" (VList []) ;;
  let entities := py_or ents0 (VList []) in
  title <- py_get ev "event_title" (VStr "") ;;
  location <- py_get ev "event_location" (VStr "") ;;
  es <- py_iter entities ;;
  names <- truthy_fields "name" es ;;
  tags <- truthy_fields "tag" es ;;
  s <- event_sentiment ev taxonomy ;;
  types <- extract_event_types ev ;;
  Ok {| event_title := title;
        event_location := location;
        date := date_obj;
        entity_names := names;
        entity_tags := tags;
        sentiment := s;
        event_types := types;
        raw := ev |}.

Definition build_dataframe (events_json taxonomy : value) : result (DataFrame value) :=
  flat <- flatten_events events_json ;;
  rows <- mapM (row_of_event taxonomy) flat ;;
  dropna_date (from_records rows).

End WithLibraries.

End UtilsData.

(* ================================================================= *)
(** ** graph_module.py *)

Module GraphModule.

Import Pandas.

(** The attribute dict of an edge.  [mean_sentiment] is [None] until the
    key is set by the last loop of the builder. *)
Record EdgeData : Type := {
  weight : Z;
  sentiments : list Q;
  event_types : list string;
  event_titles : list string;
  mean_sentiment : option Q
}.

(** An [nx.Graph]: the nodes in insertion order, and one entry per
    undirected edge, under the endpoints it was created with.  The entry
    plays the role of the attribute dict that [G[a][b]] and [G[b][a]]
    share. *)
Record Graph : Type := {
  nodes : list string;
  edges : list ((string * string) * EdgeData)
}.

Definition empty_graph : Graph := {| nodes := []; edges := [] |}.

(** [len(G)] *)
Definition order (G : Graph) : nat := List.length (nodes G).

Definition has_node (G : Graph) (n : string) : bool :=
  existsb (String.eqb n) (nodes G).

Definition add_node (G : Graph) (n : string) : Graph :=
  if has_node G n then G
  else {| nodes := nodes G ++ [n]; edges := edges G |}.

(** The entry [((u, v), _)] is the edge between [a] and [b]. *)
Definition same_edge (a b : string) (uv : string * string) : bool :=
  (String.eqb a (fst uv) && String.eqb b (snd uv))
  || (String.eqb a (snd uv) && String.eqb b (fst uv)).

Fixpoint edge_lookup (es : list ((string * string) * EdgeData)) (a b : string)
  : option EdgeData :=
  match es with
  | [] => None
  | (uv, d) :: t => if same_edge a b uv then Some d else edge_lookup t a b
  end.

Definition has_edge (G : Graph) (a b : string) : bool :=
  match edge_lookup (edges G) a b with Some _ => true | None => false end.

(** In-place change of the attribute dict [G[a][b]]. *)
Fixpoint edge_update (f : EdgeData -> EdgeData)
    (es : list ((string * string) * EdgeData)) (a b : string)
  : list ((string * string) * EdgeData) :=
  match es with
  | [] => []
  | (uv, d) :: t =>
      if same_edge a b uv then (uv, f d) :: t
      else (uv, d) :: edge_update f t a b
  end.

(** [G.add_edge(a, b, weight=.., sentiments=.., event_types=..,
    event_titles=..)]: both endpoints become nodes, and the attributes are
    set on the edge, which is created when absent. *)
Definition add_edge (G : Graph) (a b : string)
    (w : Z) (s : list Q) (ty ti : list string) : Graph :=
  let G' := add_node (add_node G a) b in
  {| nodes := nodes G';
     edges :=
       if has_edge G a b
       then edge_update (fun d => {| weight := w; sentiments := s;
                                     event_types := ty; event_titles := ti;
                                     mean_sentiment := mean_sentiment d |})
                        (edges G) a b
       else edges G ++ [((a, b), {| weight := w; sentiments := s;
                                    event_types := ty; event_titles := ti;
                                    mean_sentiment := None |})] |}.

(** The body of the loop over [combinations(sorted(set(ents)), 2)]. *)
Definition add_pair (row : Row string) (G : Graph) (ab : string * string) : Graph :=
  let (a, b) := ab in
  if has_edge G a b then
    {| nodes := nodes G;
       edges := edge_update
                  (fun d => {| weight := weight d + 1;
                               sentiments := sentiments d ++ [sentiment row];
                               event_types := event_types d ++ Pandas.event_types row;
                               event_titles := event_titles d ++ [event_title row];
                               mean_sentiment := mean_sentiment d |})
                  (edges G) a b |}
  else
    add_edge G a b 1 [sentiment row] (Pandas.event_types row) [event_title row].

Section Builder.
Context `{SetOrder}.

(** The body of the loop over the rows. *)
Definition add_row (G : Graph) (row : Row string) : Graph :=
  let ents := entity_names row in
  if (match ents with [] => true | _ => false end) || (List.length ents <? 2)
  then G
  else
    let G1 := fold_left (fun G name => if has_node G name then G else add_node G name)
                        (set_iter ents) G in
    fold_left (add_pair row) (combinations2 (py_sorted (set_iter ents))) G1.

(** The body of the last loop: [data["mean_sentiment"] = ...]. *)
Definition set_mean (d : EdgeData) : EdgeData :=
  {| weight := weight d;
     sentiments := sentiments d;
     event_types := event_types d;
     event_titles := event_titles d;
     mean_sentiment := Some (mean_or_zero (sentiments d)) |}.

Definition build_cooccurrence_graph (df : DataFrame string) : Graph :=
  let G := fold_left add_row (iterrows df) empty_graph in
  {| nodes := nodes G;
     edges := map (fun e => (fst e, set_mean (snd e))) (edges G) |}.

End Builder.

(** The centrality measures of networkx, as dicts from node to score.
    The eigenvector iteration may raise. *)
Class Networkx : Type := {
  degree_centrality : Graph -> list (string * Q);
  betweenness_centrality : Graph -> list (string * Q);
  eigenvector_centrality : Graph -> Z -> result (list (string * Q))
}.

(** [G.degree(n)]: the edges at [n], a self-loop counting twice. *)
Definition degree_of (G : Graph) (n : string) : Z :=
  fold_left (fun acc e =>
               (acc + (if String.eqb n (fst (fst e)) then 1 else 0)
                    + (if String.eqb n (snd (fst e)) then 1 else 0))%Z)
            (edges G) 0%Z.

(** [d.get(n, 0)] on a dict of scores. *)
Fixpoint score_get (d : list (string * Q)) (n : string) : Q :=
  match d with
  | [] => 0%Q
  | (k, v) :: t => if String.eqb k n then v else score_get t n
  end.

(** One record of the ranking table. *)
Record CentralityRow : Type := {
  entity : string;
  degree : Q;
  betweenness : Q;
  eigenvector : Q;
  degree_raw : Z
}.

Section Ranker.
Context `{Networkx}.

Definition top_centralities_table (G : Graph) (top_n : Z) : list CentralityRow :=
  if order G =? 0 then []
  else
    let deg := degree_centrality G in
    let btw := betweenness_centrality G in
    let evc := match eigenvector_centrality G 1000 with
               | Ok m => m
               | Raise _ => map (fun n => (n, 0%Q)) (nodes G)
               end in
    let rows := map (fun n => {| entity := n;
                                 degree := score_get deg n;
                                 betweenness := score_get btw n;
                                 eigenvector := score_get evc n;
                                 degree_raw := degree_of G n |})
                    (nodes G) in
    slice_to top_n
      (sorted_by (fun x h => Qle_bool (degree h) (degree x)) rows).

(** The default of [top_n]. *)
Definition default_top_n : Z := 15.

End Ranker.

End GraphModule.

(* ================================================================= *)
(** ** geo_module.py *)

Module GeoModule.

Import Pandas.

(** One row of the frame [_aggregate_by_location] returns. *)
Record LocationAggregate : Type := {
  event_location : string;
  n_events : Z;
  avg_sentiment : Q;
  titles_preview : string;
  top_types : string
}.

(** The keys of a [groupby]: the distinct values, in ascending order. *)
Definition group_keys (l : list string) : list string :=
  py_sorted (unique string_dec l).

(** The [top_types] cell of a location whose exploded rows carry [types]:
    the counts per type come in the order of the keys, are sorted by count
    in descending order by a stable sort, and the first three are joined.
    A location without any type has no cell, which [fillna] turns into the
    empty text. *)
Definition top_types_of (types : list string) : string :=
  let counts := map (fun t => (t, Z.of_nat (count_occ string_dec types t)))
                    (group_keys types) in
  let ranked := sorted_by (fun x h => (snd h <=? snd x)%Z) counts in
  join ", " (map fst (firstn 3 ranked)).

Definition _aggregate_by_location (fdf : DataFrame string)
  : result (list LocationAggregate) :=
  match fdf with
  | NoColumns => Raise KeyError
  | Frame _ rows =>
      Ok (map (fun k =>
                 let g := filter (fun r => String.eqb (Pandas.event_location r) k) rows in
                 {| event_location := k;
                    n_events := Z.of_nat (List.length g);
                    avg_sentiment := mean (map sentiment g);
                    titles_preview := join "<br>" (firstn 12 (map event_title g));
                    top_types := top_types_of (concat (map event_types g)) |})
              (group_keys (map Pandas.event_location rows)))
  end.

(** [_color_by_sentiment]; [None] is Python's [None]. *)
Definition _color_by_sentiment (avg_sentiment : option Q) (neg_thresh pos_thresh : Q)
  : string :=
  match avg_sentiment with
  | None => "gray"
  | Some a =>
      if Qgt_bool a pos_thresh then "green"
      else if Qgt_bool neg_thresh a then "red"
      else "gray"
  end.

(** The palette of [_color_by_taxonomy], in the order of the dict. *)
Definition palette : list (string * string) :=
  [ ("Treaty", "#2ecc71"); ("Sanctions", "#e74c3c"); ("Protest", "#e67e22");
    ("Attack", "#c0392b"); ("Negotiation", "#27ae60"); ("Aid", "#1abc9c");
    ("Diplomacy", "#3498db"); ("Trade", "#9b59b6") ].

(** The loop of [_color_by_taxonomy] over the items of a palette. *)
Fixpoint first_color `{StrMethods} (items : list (string * string))
    (top_types default : string) : string :=
  match items with
  | [] => default
  | (label, color) :: t =>
      if py_in_str (lower label) (lower top_types) then color
      else first_color t top_types default
  end.

Definition _color_by_taxonomy `{StrMethods} (top_types : string) : string :=
  first_color palette top_types "#95a5a6".

(** [geocode_location_cached(geo, loc, cache)]: the returned coordinates
    and the cache after the call.  [geo] stands for [geo.geocode], which
    finds a place, finds none, or raises. *)
Definition geocode_location_cached
    (geo : string -> result (option (Q * Q))) (loc : string)
    (cache : list (string * (Q * Q)))
  : option (Q * Q) * list (string * (Q * Q)) :=
  if String.eqb loc "" then (None, cache)
  else
    match assoc_get cache loc with
    | Some c => (Some c, cache)
    | None =>
        match geo loc with
        | Ok (Some c) => (Some c, assoc_set cache loc c)
        | Ok None => (None, cache)
        | Raise _ => (None, cache)
        end
    end.

(** [_scale_radius] of [build_folium_map], with the variables it closes
    over as arguments. *)
Definition _scale_radius (min_radius max_radius n_min n_max n : Z) : Z :=
  if (n_max =? n_min)%Z then ((min_radius + max_radius) / 2)%Z
  else py_int (inject_Z min_radius
               + inject_Z ((n - n_min) * (max_radius - min_radius))
                 / inject_Z (n_max - n_min))%Q.

(** The formatting of numbers in f-strings. *)
Class Formatting : Type := {
  (** [f"{n}"] for an int *)
  format_int : Z -> string;
  (** [f"{x:.2f}"] for a float *)
  format_2f : Q -> string
}.

(** What [folium.CircleMarker] is given. *)
Record CircleMarker : Type := {
  location : Q * Q;
  radius : Z;
  color : string;
  fill_color : string;
  popup : string
}.

(** What [_add_legend_html] puts on the map. *)
Inductive Legend : Type :=
| SentimentLegend (neg_t pos_t : Q)
| TaxonomyLegend.

Definition _add_legend_html (color_mode : string) (sentiment_thresholds : Q * Q)
  : Legend :=
  if String.eqb color_mode "sentiment"
  then SentimentLegend (fst sentiment_thresholds) (snd sentiment_thresholds)
  else TaxonomyLegend.

(** The map: where it is centred, the markers of its cluster in the order
    they are added, and its legend. *)
Record FoliumMap : Type := {
  center : Q * Q;
  markers : list CircleMarker;
  legend : option Legend
}.

(** The text the popup shows for a location without types: the eight bytes
    the source has there. *)
Definition no_types : string :=
  String (ascii_of_nat 195) (String (ascii_of_nat 162)
  (String (ascii_of_nat 226) (String (ascii_of_nat 130) (String (ascii_of_nat 172)
  (String (ascii_of_nat 226) (String (ascii_of_nat 128) (String (ascii_of_nat 157)
  EmptyString))))))).

(** [Series.min()] and [Series.max()] of a column of counts that is not
    empty. *)
Definition column_min (l : list Z) : Z :=
  match l with [] => 0%Z | h :: t => fold_left Z.min t h end.

Definition column_max (l : list Z) : Z :=
  match l with [] => 0%Z | h :: t => fold_left Z.max t h end.

(** [agg.loc[loc]] on the frame indexed by location. *)
Definition agg_loc (agg : list LocationAggregate) (loc : string)
  : option LocationAggregate :=
  find (fun a => String.eqb (event_location a) loc) agg.

Section FoliumMap.
Context `{StrMethods} `{Formatting}.

Definition build_folium_map (fdf : DataFrame string)
    (coords : list (string * Q * Q)) (color_mode : string)
    (sentiment_thresholds : Q * Q) (min_radius max_radius : Z) (add_legend : bool)
  : result FoliumMap :=
  let mean_latlon :=
    match coords with
    | [] => (20%Q, 0%Q)
    | _ => ((py_sum (map (fun c => snd (fst c)) coords)
             / inject_Z (Z.of_nat (List.length coords)))%Q,
            (py_sum (map snd coords)
             / inject_Z (Z.of_nat (List.length coords)))%Q)
    end in
  agg <- _aggregate_by_location fdf ;;
  let n_min := match agg with [] => 1%Z | _ => column_min (map n_events agg) end in
  let n_max := match agg with [] => 1%Z | _ => column_max (map n_events agg) end in
  let neg_t := fst sentiment_thresholds in
  let pos_t := snd sentiment_thresholds in
  let cluster :=
    flat_map (fun c =>
                let loc := fst (fst c) in
                match agg_loc agg loc with
                | None => []
                | Some row =>
                    let n := n_events row in
                    let avg_s := avg_sentiment row in
                    let col := if String.eqb color_mode "taxonomy"
                               then _color_by_taxonomy (top_types row)
                               else _color_by_sentiment (Some avg_s) neg_t pos_t in
                    [ {| location := (snd (fst c), snd c);
                         radius := _scale_radius min_radius max_radius n_min n_max n;
                         color := col;
                         fill_color := col;
                         popup := "<b>" ++ loc ++ "</b><br>"
                                  ++ "Events: " ++ format_int n ++ "<br>"
                                  ++ "Avg sentiment: " ++ format_2f avg_s ++ "<br>"
                                  ++ "Top types: "
                                  ++ (if String.eqb (top_types row) "" then no_types
                                      else top_types row)
                                  ++ "<br><br>"
                                  ++ titles_preview row |} ]
                end)
             coords in
  Ok {| center := mean_latlon;
        markers := cluster;
        legend := if add_legend
                  then Some (_add_legend_html color_mode sentiment_thresholds)
                  else None |}.

End FoliumMap.

End GeoModule.

(* ================================================================= *)
(** ** timeline_module.py *)

Module TimelineModule.

Import Pandas.

(** [Series.dt.to_period(granularity).dt.to_timestamp()] on one cell: the
    start of the period the day falls in. *)
Class PeriodLib : Type := {
  to_period_start : string -> datetime -> datetime
}.

Definition key_eq_dec (a b : datetime * string) : {a = b} + {a <> b}.
Proof. decide equality; [apply string_dec | apply datetime_eq_dec]. Defined.

(** The order of the keys of [groupby(["period", "event_types"])]. *)
Definition key_leb (a b : datetime * string) : bool :=
  if datetime_eq_dec (fst a) (fst b) then String.leb (snd a) (snd b)
  else datetime_leb (fst a) (fst b).

(** The cells of a column that are not null. *)
Definition somes {A : Type} (l : list (option A)) : list A :=
  flat_map (fun o => match o with Some a => [a] | None => [] end) l.

Section Timeline.
Context `{PeriodLib} `{SortValues}.

(** The frame with its new [period] column, as rows paired with the cell. *)
Definition _add_period (df : DataFrame string) (granularity : string)
  : result (list (Row string * option datetime)) :=
  match df with
  | NoColumns => Raise KeyError
  | Frame Object _ => Raise AttributeError
  | Frame Datetime64 rows =>
      Ok (map (fun r => (r, option_map (to_period_start granularity) (date r))) rows)
  end.

(** The keys of [groupby("period")]: null periods form no group. *)
Definition periods (dd : list (Row string * option datetime)) : list datetime :=
  sorted_by datetime_leb (unique datetime_eq_dec (somes (map snd dd))).

Definition in_period (p : datetime) (rp : Row string * option datetime) : bool :=
  match snd rp with
  | Some q => if datetime_eq_dec p q then true else false
  | None => false
  end.

Definition frequency (df : DataFrame string) (granularity : string)
  : result (list (datetime * Z)) :=
  dd <- _add_period df granularity ;;
  Ok (map (fun p => (p, Z.of_nat (List.length (filter (in_period p) dd))))
          (periods dd)).

Definition avg_sentiment (df : DataFrame string) (granularity : string)
  : result (list (datetime * Q)) :=
  dd <- _add_period df granularity ;;
  Ok (map (fun p => (p, mean (map (fun rp => sentiment (fst rp))
                                  (filter (in_period p) dd))))
          (periods dd)).

(** [dd.explode("event_types").dropna(subset=["event_types"])], keeping the
    two columns that are used: a row without types explodes into a null
    cell, which is dropped. *)
Definition explode_types (dd : list (Row string * option datetime))
  : list (option datetime * string) :=
  flat_map (fun rp => map (fun t => (snd rp, t)) (event_types (fst rp))) dd.

Definition type_frequencies (df : DataFrame string) (top_k : Z) (granularity : string)
  : result (list ((datetime * string) * Z)) :=
  dd <- _add_period df granularity ;;
  let ex := explode_types dd in
  let top := map fst (slice_to top_k (value_counts (map snd ex))) in
  let ex := filter (fun pt => existsb (String.eqb (snd pt)) top) ex in
  let keyed := flat_map (fun pt => match fst pt with
                                   | Some p => [(p, snd pt)]
                                   | None => []
                                   end) ex in
  Ok (map (fun k => (k, Z.of_nat (count_occ key_eq_dec keyed k)))
          (sorted_by key_leb (unique key_eq_dec keyed))).

(** The default of [top_k]. *)
Definition default_top_k : Z := 10.

End Timeline.

(** [mark_local_peaks(df, y)]: the rows of [df], each with its [is_peak]
    cell.  [range(1, len(dd) - 1)] is empty below three rows. *)
Definition mark_local_peaks {A : Type} (df : list A) (y : A -> Q) : list (A * bool) :=
  let dd := df in
  let col := map y dd in
  let n := List.length dd in
  let is_peak :=
    fold_left (fun flags i =>
                 if Qgt_bool (nth i col 0%Q) (nth (i - 1) col 0%Q)
                    && Qgt_bool (nth i col 0%Q) (nth (i + 1) col 0%Q)
                 then set_nth i true flags
                 else flags)
              (seq 1 (n - 2)) (repeat false n) in
  combine dd is_peak.

(** The bounds [start, end) of the window of position [i] among [n]
    values, as pandas' fixed window indexer computes them for a centred
    window: [end = i + 1 + (window - 1) // 2], [start = end - window], both
    clipped to [0, n]. *)
Definition clip (x : Z) (n : nat) : nat :=
  Z.to_nat (Z.min (Z.max x 0) (Z.of_nat n)).

Definition window_bounds (window : Z) (n i : nat) : nat * nat :=
  let e := (Z.of_nat i + 1 + (window - 1) / 2)%Z in
  (clip (e - window) n, clip e n).

(** [add_rolling_mean(df, y, window)]: the rows of [df], each with its
    [y_roll] cell; [None] is NaN, the cell of a window that holds fewer
    than [min_periods=1] values.  pandas refuses a negative window, and a
    window of 0 for being below [min_periods]. *)
Definition add_rolling_mean {A : Type} (df : list A) (y : A -> Q) (window : Z)
  : result (list (A * option Q)) :=
  if (window <? 1)%Z then Raise ValueError
  else
    let col := map y df in
    let n := List.length df in
    Ok (combine df
          (map (fun i =>
                  let (s, e) := window_bounds window n i in
                  match firstn (e - s) (skipn s col) with
                  | [] => None
                  | w => Some (mean w)
                  end)
               (seq 0 n))).

End TimelineModule.

(* ================================================================= *)
(** ** app.py *)

Module App.

Import Pandas GraphModule.

(** [G.remove_edges_from(pairs)]: pairs that are no edge are ignored. *)
Definition remove_edge (G : Graph) (uv : string * string) : Graph :=
  {| nodes := nodes G;
     edges := filter (fun e => negb (same_edge (fst uv) (snd uv) (fst e))) (edges G) |}.

Definition remove_edges_from (G : Graph) (pairs : list (string * string)) : Graph :=
  fold_left remove_edge pairs G.

(** [G.remove_nodes_from(ns)]: a node goes with the edges at it. *)
Definition remove_node (G : Graph) (n : string) : Graph :=
  {| nodes := filter (fun m => negb (String.eqb m n)) (nodes G);
     edges := filter (fun e => negb (String.eqb n (fst (fst e)))
                               && negb (String.eqb n (snd (fst e))))
                     (edges G) |}.

Definition remove_nodes_from (G : Graph) (ns : list string) : Graph :=
  fold_left remove_node ns G.

(** The statements of the graph tab between the builder and the ranking:
    the edges below the weight threshold go, then the nodes left without
    an edge. *)
Definition prune (G : Graph) (min_edge_w : Z) : Graph :=
  let to_remove := map fst (filter (fun e => (weight (snd e) <? min_edge_w)%Z) (edges G)) in
  let G1 := remove_edges_from G to_remove in
  remove_nodes_from G1 (filter (fun n => (degree_of G1 n =? 0)%Z) (nodes G1)).

Section Filters.
Context `{StrMethods}.

(** The mask of [apply_filters] on one row, for the values of the
    sidebar. *)
Definition keep_row (date_range : datetime * datetime) (sent_range : Q * Q)
    (type_filter : list string) (entity_query : string) (r : Row string) : bool :=
  let m := match date r with
           | Some d => datetime_leb (fst date_range) d && datetime_leb d (snd date_range)
           | None => false
           end in
  let m := m && (Qle_bool (fst sent_range) (sentiment r)
                 && Qle_bool (sentiment r) (snd sent_range)) in
  let m := match type_filter with
           | [] => m
           | _ => m && existsb (fun t => existsb (String.eqb t) (Pandas.event_types r))
                               type_filter
           end in
  if String.eqb (strip entity_query) "" then m
  else
    let q := lower (strip entity_query) in
    m && existsb (fun x => py_in_str q (lower x)) (entity_names r).

(** [apply_filters(df_in)]: the [.dt] accessor needs the [date] column and
    its datetime dtype. *)
Definition apply_filters (date_range : datetime * datetime) (sent_range : Q * Q)
    (type_filter : list string) (entity_query : string) (df_in : DataFrame string)
  : result (DataFrame string) :=
  match df_in with
  | NoColumns => Raise KeyError
  | Frame Object _ => Raise AttributeError
  | Frame Datetime64 rows =>
      Ok (Frame Datetime64
            (filter (keep_row date_range sent_range type_filter entity_query) rows))
  end.

End Filters.

(** [sorted({loc for loc in fdf["event_location"].fillna("").tolist() if loc})] *)
Definition unique_locations `{SetOrder} (fdf : DataFrame string) : list string :=
  py_sorted (set_iter (filter (fun loc => negb (String.eqb loc ""))
                              (map Pandas.event_location (iterrows fdf)))).

Section GeocodingTab.
Context `{SetOrder}.

(** The first loop of the map tab: the locations the cache already knows,
    with their coordinates. *)
Definition cached_coords (cache : list (string * (Q * Q))) (locs : list string)
  : list (string * Q * Q) :=
  flat_map (fun loc => match assoc_get cache loc with
                       | Some (lat, lon) => [(loc, lat, lon)]
                       | None => []
                       end) locs.

(** One turn of the geocoding loop on the coordinates and the cache. *)
Definition geocode_step (geo : string -> result (option (Q * Q)))
    (st : list (string * Q * Q) * list (string * (Q * Q))) (loc : string)
  : list (string * Q * Q) * list (string * (Q * Q)) :=
  match GeoModule.geocode_location_cached geo loc (snd st) with
  | (Some (lat, lon), cache') => (fst st ++ [(loc, lat, lon)], cache')
  | (None, cache') => (fst st, cache')
  end.

(** The statements of the map tab that fill [coords]: the cached
    locations, then, when the button was pressed, at most [max_new] of the
    others through the geocoder.  The progress bar, the pause between two
    requests and the writing of the cache file are left out; the result is
    [coords] and the cache as it is afterwards. *)
Definition geocode_tab (geo : string -> result (option (Q * Q)))
    (fdf : DataFrame string) (cache : list (string * (Q * Q)))
    (run_geo : bool) (max_new : Z)
  : list (string * Q * Q) * list (string * (Q * Q)) :=
  let locs := unique_locations fdf in
  let coords := cached_coords cache locs in
  if run_geo then
    let new_locs :=
      slice_to max_new
               (filter (fun loc => match assoc_get cache loc with
                                   | Some _ => false
                                   | None => true
                                   end) locs) in
    fold_left (geocode_step geo) new_locs (coords, cache)
  else (coords, cache).

End GeocodingTab.

End App.

(* ================================================================= *)
(** * Properties *)

(** ** Lists: sorting, distinct elements, slices *)

Section ListFacts.
Context {A : Type}.

Lemma insert_sorted_perm (leb : A -> A -> bool) (x : A) (l : list A) :
  Permutation (insert_sorted leb x l) (x :: l).
Proof.
  induction l as [|h t IH]; simpl.
  - apply Permutation_refl.
  - destruct (leb x h).
    + apply Permutation_refl.
    + eapply perm_trans; [apply perm_skip, IH | apply perm_swap].
Qed.

Lemma sorted_by_perm (leb : A -> A -> bool) (l : list A) :
  Permutation (sorted_by leb l) l.
Proof.
  induction l as [|h t IH]; simpl.
  - constructor.
  - eapply perm_trans; [apply insert_sorted_perm | apply perm_skip, IH].
Qed.

Lemma sorted_by_In (leb : A -> A -> bool) (l : list A) (x : A) :
  In x (sorted_by leb l) <-> In x l.
Proof.
  split; apply Permutation_in;
    [ apply sorted_by_perm | apply Permutation_sym, sorted_by_perm ].
Qed.

Lemma sorted_by_NoDup (leb : A -> A -> bool) (l : list A) :
  NoDup l -> NoDup (sorted_by leb l).
Proof.
  intro Hn. eapply Permutation_NoDup; [apply Permutation_sym, sorted_by_perm | exact Hn].
Qed.

Lemma sorted_by_length (leb : A -> A -> bool) (l : list A) :
  length (sorted_by leb l) = length l.
Proof. apply Permutation_length, sorted_by_perm. Qed.

(** With a total and transitive order, the stable sort sorts. *)
Section Order.
Variable leb : A -> A -> bool.
Hypothesis leb_total : forall x y, leb x y = true \/ leb y x = true.
Hypothesis leb_trans : forall x y z, leb x y = true -> leb y z = true -> leb x z = true.

Lemma insert_sorted_sorted (x : A) (l : list A) :
  StronglySorted (fun a b => leb a b = true) l ->
  StronglySorted (fun a b => leb a b = true) (insert_sorted leb x l).
Proof.
  induction l as [|h t IH]; simpl; intro Hs.
  - constructor; [constructor | constructor].
  - inversion Hs as [|? ? Ht Hh]; subst.
    destruct (leb x h) eqn:E.
    + constructor; [exact Hs|].
      constructor; [exact E|].
      rewrite Forall_forall in *. intros y Hy. eapply leb_trans; eauto.
    + constructor; [apply IH; exact Ht|].
      rewrite Forall_forall in *. intros y Hy.
      apply (Permutation_in _ (insert_sorted_perm leb x t)) in Hy.
      destruct Hy as [<-|Hy]; [|auto].
      destruct (leb_total x h) as [C|C]; [congruence | exact C].
Qed.

Lemma sorted_by_sorted (l : list A) :
  StronglySorted (fun a b => leb a b = true) (sorted_by leb l).
Proof.
  induction l as [|h t IH]; simpl.
  - constructor.
  - apply insert_sorted_sorted, IH.
Qed.

End Order.

Lemma StronglySorted_impl (R R' : A -> A -> Prop) (l : list A) :
  (forall x y, R x y -> R' x y) -> StronglySorted R l -> StronglySorted R' l.
Proof.
  intros HR Hs. induction Hs as [|h t Ht IH Hh]; constructor; auto.
  rewrite Forall_forall in *. auto.
Qed.

Lemma StronglySorted_app_inv (R : A -> A -> Prop) (l1 l2 : list A) :
  StronglySorted R (l1 ++ l2) ->
  forall x y, In x l1 -> In y l2 -> R x y.
Proof.
  induction l1 as [|h t IH]; simpl; intros Hs x y Hx Hy.
  - contradiction.
  - inversion Hs as [|? ? Ht Hh]; subst.
    destruct Hx as [<-|Hx].
    + rewrite Forall_forall in Hh. apply Hh, in_or_app. now right.
    + eapply IH; eauto.
Qed.

Lemma StronglySorted_firstn (R : A -> A -> Prop) (n : nat) (l : list A) :
  StronglySorted R l -> StronglySorted R (firstn n l).
Proof.
  revert n. induction l as [|h t IH]; intros [|n] Hs; simpl; try constructor.
  - inversion Hs; subst. now apply IH.
  - inversion Hs as [|? ? Ht Hh]; subst.
    rewrite Forall_forall in *. intros y Hy. apply Hh.
    rewrite <- (firstn_skipn n t). apply in_or_app. now left.
Qed.

Lemma In_firstn (n : nat) (l : list A) (x : A) : In x (firstn n l) -> In x l.
Proof.
  intro Hx. rewrite <- (firstn_skipn n l). apply in_or_app. now left.
Qed.

Lemma slice_to_incl (n : Z) (l : list A) (x : A) : In x (slice_to n l) -> In x l.
Proof. unfold slice_to. destruct (n <? 0)%Z; apply In_firstn. Qed.

Lemma slice_to_sorted (R : A -> A -> Prop) (n : Z) (l : list A) :
  StronglySorted R l -> StronglySorted R (slice_to n l).
Proof. unfold slice_to. destruct (n <? 0)%Z; apply StronglySorted_firstn. Qed.

Lemma slice_to_nat_length (n : nat) (l : list A) :
  length (slice_to (Z.of_nat n) l) = Nat.min n (length l).
Proof.
  unfold slice_to.
  destruct (Z.ltb_spec (Z.of_nat n) 0); [lia|].
  rewrite Nat2Z.id. apply length_firstn.
Qed.

Section Unique.
Variable eq_dec : forall x y : A, {x = y} + {x <> y}.

Lemma unique_In (l : list A) (x : A) : In x (unique eq_dec l) <-> In x l.
Proof.
  induction l as [|h t IH]; simpl; [tauto|].
  rewrite filter_In, IH.
  destruct (eq_dec h x) as [->|Hne]; intuition congruence.
Qed.

Lemma unique_NoDup (l : list A) : NoDup (unique eq_dec l).
Proof.
  induction l as [|h t IH]; simpl; constructor.
  - rewrite filter_In. intros [_ Hf]. destruct (eq_dec h h); [discriminate | congruence].
  - apply NoDup_filter, IH.
Qed.

End Unique.

End ListFacts.

(* ================================================================= *)
(** ** Instances of the library interfaces

    The statements below hold for every instance.  The instances given here
    make them run on concrete inputs. *)

Module Instances.

Import Pandas.

(** A set iterated in order of first insertion. *)
#[export] Instance first_seen_order : SetOrder := {
  set_iter := unique string_dec;
  set_iter_NoDup := unique_NoDup string_dec;
  set_iter_In := unique_In string_dec
}.

(** Counts sorted by a stable sort: equal counts keep their order. *)
Definition stable_sort_counts (l : list (string * Z)) : list (string * Z) :=
  sorted_by (fun x h => (snd h <=? snd x)%Z) l.

Lemma stable_sort_counts_desc (l : list (string * Z)) :
  StronglySorted (fun x y => (snd y <= snd x)%Z) (stable_sort_counts l).
Proof.
  apply StronglySorted_impl with
    (R := fun a b => (fun x h : string * Z => (snd h <=? snd x)%Z) a b = true).
  - intros x y. apply Z.leb_le.
  - apply sorted_by_sorted.
    + intros x y. rewrite !Z.leb_le. lia.
    + intros x y z. rewrite !Z.leb_le. lia.
Qed.

#[export] Instance stable_sort_values : SortValues := {
  sort_counts := stable_sort_counts;
  sort_counts_perm := sorted_by_perm _;
  sort_counts_desc := stable_sort_counts_desc
}.

(** Decimal digits. *)
Definition digit (c : ascii) : option Z :=
  let n := nat_of_ascii c in
  if (48 <=? n) && (n <=? 57) then Some (Z.of_nat (n - 48)) else None.

Fixpoint number (s : string) (acc : Z) : option Z :=
  match s with
  | EmptyString => Some acc
  | String c t => match digit c with
                  | Some d => number t (10 * acc + d)
                  | None => None
                  end
  end.

(** [s.split("/")] *)
Fixpoint split_slash (s cur : string) : list string :=
  match s with
  | EmptyString => [cur]
  | String c t =>
      if Ascii.eqb c "/" then cur :: split_slash t ""
      else split_slash t (cur ++ String c "")
  end.

Definition leap (y : Z) : bool :=
  ((y mod 4 =? 0) && negb (y mod 100 =? 0) || (y mod 400 =? 0))%Z.

Definition days_in_month (y m : Z) : Z :=
  if (m =? 2)%Z then (if leap y then 29 else 28)
  else if ((m =? 4) || (m =? 6) || (m =? 9) || (m =? 11))%Z then 30
  else 31.

(** [strptime] on the plain forms of ["%d/%m/%Y"]: one or two digits for
    the day and the month, four for the year, and a day of the calendar. *)
Definition strptime_dmy (s fmt : string) : option datetime :=
  if negb (String.eqb fmt "%d/%m/%Y") then None
  else
    match split_slash s "" with
    | [d; m; y] =>
        match number d 0, number m 0, number y 0 with
        | Some dd, Some mm, Some yy =>
            if (1 <=? String.length d)%nat && (String.length d <=? 2)%nat
               && (1 <=? String.length m)%nat && (String.length m <=? 2)%nat
               && (String.length y =? 4)%nat
               && (1 <=? yy)%Z && (1 <=? mm)%Z && (mm <=? 12)%Z
               && (1 <=? dd)%Z && (dd <=? days_in_month yy mm)%Z
            then Some {| year := yy; month := mm; day := dd |}
            else None
        | _, _, _ => None
        end
    | _ => None
    end.

#[export] Instance dmy_datetime : UtilsData.DatetimeLib := {
  UtilsData.strptime := strptime_dmy
}.

(** [float] on texts of decimal digits. *)
#[export] Instance digits_float : Builtins := {
  float_of_str := fun s =>
    match s with
    | EmptyString => None
    | _ => option_map inject_Z (number s 0)
    end
}.

(** Monthly buckets start on the first of the month; any other
    granularity is bucketed by day. *)
#[export] Instance month_or_day : TimelineModule.PeriodLib := {
  TimelineModule.to_period_start := fun g d =>
    if String.eqb g "M" then {| year := year d; month := month d; day := 1 |} else d
}.

(** A networkx whose power iteration never converges.  Degree centrality
    is the degree over the number of other nodes; betweenness is left at
    zero. *)
#[export] Instance never_converging : GraphModule.Networkx := {
  GraphModule.degree_centrality := fun G =>
    map (fun n => (n, if (GraphModule.order G <=? 1)%nat then 1%Q
                      else (inject_Z (GraphModule.degree_of G n)
                            / inject_Z (Z.of_nat (GraphModule.order G - 1)))%Q))
        (GraphModule.nodes G);
  GraphModule.betweenness_centrality := fun G =>
    map (fun n => (n, 0%Q)) (GraphModule.nodes G);
  GraphModule.eigenvector_centrality := fun _ _ => Raise LibraryError
}.

(** Text methods on ASCII: the letters A to Z are lowered, blanks are
    stripped. *)
Definition lower_char (c : ascii) : ascii :=
  let n := nat_of_ascii c in
  if (65 <=? n) && (n <=? 90) then ascii_of_nat (n + 32) else c.

Fixpoint lower_text (s : string) : string :=
  match s with
  | EmptyString => EmptyString
  | String c t => String (lower_char c) (lower_text t)
  end.

Definition is_blank (c : ascii) : bool :=
  let n := nat_of_ascii c in (n =? 32) || ((9 <=? n) && (n <=? 13)).

Fixpoint lstrip (s : string) : string :=
  match s with
  | EmptyString => EmptyString
  | String c t => if is_blank c then lstrip t else s
  end.

Fixpoint rstrip (s : string) : string :=
  match s with
  | EmptyString => EmptyString
  | String c t =>
      match rstrip t with
      | EmptyString => if is_blank c then EmptyString else String c EmptyString
      | t' => String c t'
      end
  end.

#[export] Instance ascii_text : StrMethods := {
  lower := lower_text;
  strip := fun s => rstrip (lstrip s)
}.

(** Decimal numerals. *)
Fixpoint numeral (fuel n : nat) (acc : string) : string :=
  match fuel with
  | O => acc
  | S f =>
      let acc' := String (ascii_of_nat (48 + n mod 10)) acc in
      if n / 10 =? 0 then acc' else numeral f (n / 10) acc'
  end.

Definition decimal (z : Z) : string :=
  if (z <? 0)%Z then "-" ++ numeral (S (Z.to_nat (- z))) (Z.to_nat (- z)) ""
  else numeral (S (Z.to_nat z)) (Z.to_nat z) "".

(** Two decimals of an exact number, rounded half away from zero. *)
Definition two_decimals (q : Q) : string :=
  let h := ((Z.abs (Qnum q) * 200 + Z.pos (Qden q)) / (2 * Z.pos (Qden q)))%Z in
  let frac := (h mod 100)%Z in
  (if Qle_bool 0 q then "" else "-")
  ++ decimal (h / 100) ++ "."
  ++ (if (frac <? 10)%Z then "0" else "") ++ decimal frac.

#[export] Instance plain_formatting : GeoModule.Formatting := {
  GeoModule.format_int := decimal;
  GeoModule.format_2f := two_decimals
}.

End Instances.

(* ================================================================= *)
(** ** utils_data.py: the resolver and the normalizer *)

Section UtilsDataFacts.
Import Pandas UtilsData.
Context `{Builtins} `{DatetimeLib}.

Lemma mapM_length {A B : Type} (f : A -> result B) (l : list A) (l' : list B) :
  mapM f l = Ok l' -> length l' = length l.
Proof.
  revert l'. induction l as [|x t IH]; simpl; intros l' E.
  - now inversion E.
  - destruct (f x); simpl in E; [|discriminate].
    destruct (mapM f t); simpl in E; [|discriminate].
    inversion E; subst. simpl. f_equal. now apply IH.
Qed.

Lemma mapM_Forall2 {A B : Type} (f : A -> result B) (l : list A) (l' : list B) :
  mapM f l = Ok l' -> Forall2 (fun x y => f x = Ok y) l l'.
Proof.
  revert l'. induction l as [|x t IH]; simpl; intros l' E.
  - inversion E. constructor.
  - destruct (f x) eqn:Ex; simpl in E; [|discriminate].
    destruct (mapM f t); simpl in E; [|discriminate].
    inversion E; subst. constructor; auto.
Qed.

(** *** The sentiment resolver *)

(** The sentiment a label record carries: [float(rec.get("sentiment", 0))]. *)
Definition recorded_sentiment (rec : list (string * value)) : result Q :=
  py_float (match dict_get rec "sentiment" with Some v => v | None => VInt 0 end).

(** The exact entry answers when it is a record. *)
Lemma lookup_exact (T N R : list (string * value)) (category label : string) :
  dict_get T category = Some (VDict N) ->
  dict_get N label = Some (VDict R) ->
  taxonomy_sentiment_lookup (VDict T) category (VStr label) = recorded_sentiment R.
Proof.
  intros HT HN. unfold taxonomy_sentiment_lookup, recorded_sentiment, dict_mem. simpl.
  rewrite HT. simpl. unfold dict_mem. rewrite HN. simpl. reflexivity.
Qed.

(** Without an exact entry, a record under ["other"] answers. *)
Lemma lookup_other (T N O : list (string * value)) (category label : string) :
  dict_get T category = Some (VDict N) ->
  dict_get N label = None ->
  dict_get N "other" = Some (VDict O) ->
  taxonomy_sentiment_lookup (VDict T) category (VStr label) = recorded_sentiment O.
Proof.
  intros HT HN HO. unfold taxonomy_sentiment_lookup, recorded_sentiment, dict_mem. simpl.
  rewrite HT. simpl. unfold dict_mem. rewrite HN. simpl. rewrite HO. simpl.
  reflexivity.
Qed.

(** A category that is missing, or is not a mapping, resolves to zero. *)
Lemma lookup_no_category (T : list (string * value)) (category label : string) :
  match dict_get T category with
  | None => True
  | Some node => is_dict node = false
  end ->
  taxonomy_sentiment_lookup (VDict T) category (VStr label) = Ok 0%Q.
Proof.
  unfold taxonomy_sentiment_lookup. simpl.
  destruct (dict_get T category) as [node|]; intro Hn.
  - destruct node; simpl in *; try discriminate; reflexivity.
  - reflexivity.
Qed.

(** A category with neither the label nor a record under ["other"]
    resolves to zero. *)
Lemma lookup_no_entry (T N : list (string * value)) (category label : string) :
  dict_get T category = Some (VDict N) ->
  dict_get N label = None ->
  match dict_get N "other" with
  | None => True
  | Some o => is_dict o = false
  end ->
  taxonomy_sentiment_lookup (VDict T) category (VStr label) = Ok 0%Q.
Proof.
  intros HT HN HO. unfold taxonomy_sentiment_lookup. simpl.
  rewrite HT. simpl. unfold dict_mem. rewrite HN. simpl.
  destruct (dict_get N "other") as [o|]; simpl; [|reflexivity].
  rewrite HO. reflexivity.
Qed.

Lemma lookup_empty_taxonomy :
  taxonomy_sentiment_lookup (VDict []) "X" (VStr "Y") = Ok 0%Q.
Proof. reflexivity. Qed.

(** C4. The resolver raises on a category whose entry for the label is not
    a record: with the taxonomy [{"X": {"Y": 5}}], resolving [("X", "Y")]
    ends in [AttributeError], where an entry under ["other"] that is not a
    record is skipped and resolves to zero. *)
Theorem lookup_label_not_record_raises :
  taxonomy_sentiment_lookup (VDict [("X", VDict [("Y", VInt 5)])]) "X" (VStr "Y")
    = Raise AttributeError
  /\ taxonomy_sentiment_lookup (VDict [("X", VDict [("other", VInt 5)])]) "X" (VStr "Y")
    = Ok 0%Q.
Proof. split; reflexivity. Qed.

(** A recorded sentiment that is no number raises as well. *)
Lemma lookup_null_sentiment_raises :
  taxonomy_sentiment_lookup
    (VDict [("X", VDict [("Y", VDict [("sentiment", VNone)])])]) "X" (VStr "Y")
    = Raise TypeError.
Proof. reflexivity. Qed.

(** *** Date resolution *)

(** The date of a descriptor, in the words of the specification: the text
    under [date] for the kind ["single"], the text under [end] for the kind
    ["range"], parsed as day/month/year; no date in every other case. *)
Definition text_date (field : option value) : option datetime :=
  match field with
  | Some (VStr s) => strptime s "%d/%m/%Y"
  | _ => None
  end.

Definition resolved_date (d : value) : option datetime :=
  match d with
  | VDict kv =>
      match dict_get kv "kind" with
      | Some (VStr k) =>
          if String.eqb k "single" then text_date (dict_get kv "date")
          else if String.eqb k "range" then text_date (dict_get kv "end")
          else None
      | _ => None
      end
  | _ => None
  end.

(** The descriptor [build_dataframe] hands to [parse_event_date]. *)
Definition date_descriptor (ev : value) : value :=
  match ev with
  | VDict kv =>
      py_or (py_or (match dict_get kv "event_date_occured" with Some v => v | None => VNone end)
                   (match dict_get kv "event_date_occurred" with Some v => v | None => VNone end))
            (VDict [])
  | _ => VDict []
  end.

Lemma parse_event_date_resolved (d : value) : parse_event_date d = resolved_date d.
Proof.
  unfold parse_event_date, parse_event_date_try, resolved_date, text_date.
  destruct d as [| | | | |l|kv]; try reflexivity. simpl.
  destruct (dict_get kv "kind") as [k|]; [|reflexivity].
  destruct k as [| | | |k| |]; try reflexivity. simpl.
  destruct (String.eqb k "single").
  - destruct (dict_get kv "date") as [v|]; [|reflexivity].
    destruct v; try reflexivity. simpl. destruct (strptime s _); reflexivity.
  - destruct (String.eqb k "range"); [|reflexivity].
    destruct (dict_get kv "end") as [v|]; [|reflexivity].
    destruct v; try reflexivity. simpl. destruct (strptime s _); reflexivity.
Qed.

Lemma row_of_event_date (taxonomy ev : value) (r : Row value) :
  row_of_event taxonomy ev = Ok r -> date r = parse_event_date (date_descriptor ev).
Proof.
  unfold row_of_event, date_descriptor.
  destruct ev as [| | | | |l|kv]; try discriminate. simpl.
  repeat match goal with
         | |- bind ?c _ = Ok _ -> _ => destruct c; simpl; [|discriminate]
         end.
  intro E. inversion E. reflexivity.
Qed.

Lemma filter_length_le {A : Type} (f : A -> bool) (l : list A) :
  length (filter f l) <= length l.
Proof. induction l; simpl; [|destruct (f a); simpl]; lia. Qed.

(** C5. Whenever the events can be turned into row records, and there is at
    least one: the date of each record is the one the specification
    describes (the [date] text of a ["single"] descriptor, the [end] text
    of a ["range"] descriptor whatever its [start], no date otherwise); the
    normalizer returns, its rows are exactly the records with a date, in
    order; so they are no more than the raw events and each has a date. *)
Theorem normalizer_date_resolution :
  forall (events taxonomy : value) (flat : list value) (rows : list (Row value)),
    flatten_events events = Ok flat ->
    mapM (row_of_event taxonomy) flat = Ok rows ->
    rows <> [] ->
    (forall d, parse_event_date d = resolved_date d)
    /\ (forall kv v, parse_event_date (VDict (("start", v) :: kv))
                     = parse_event_date (VDict kv))
    /\ Forall2 (fun ev r => date r = resolved_date (date_descriptor ev)) flat rows
    /\ exists df,
         build_dataframe events taxonomy = Ok df
         /\ iterrows df = filter has_date rows
         /\ len df <= length flat
         /\ Forall (fun r => date r <> None) (iterrows df).
Proof.
  intros events taxonomy flat rows Hflat Hrows Hne.
  split; [exact parse_event_date_resolved|].
  split; [intros kv v; rewrite !parse_event_date_resolved; reflexivity|].
  split.
  - apply mapM_Forall2 in Hrows.
    eapply Forall2_impl; [|exact Hrows].
    intros ev r Hr. rewrite <- parse_event_date_resolved.
    exact (row_of_event_date taxonomy ev r Hr).
  - unfold build_dataframe. rewrite Hflat. simpl. rewrite Hrows. simpl.
    destruct rows as [|r0 rows']; [congruence|].
    eexists. split; [reflexivity|]. cbn [iterrows len].
    split; [reflexivity|]. split.
    + rewrite <- (mapM_length _ _ _ Hrows). apply filter_length_le.
    + rewrite Forall_forall. intros r Hr. apply filter_In in Hr.
      destruct Hr as [_ Hd]. unfold has_date in Hd.
      destruct (date r); [discriminate | discriminate].
Qed.

(** C3. The normalizer raises on an empty event collection: the frame built
    from no record has no [date] column for [dropna] to look at. *)
Theorem build_dataframe_empty_raises :
  forall taxonomy : value,
    build_dataframe (VList []) taxonomy = Raise KeyError
    /\ build_dataframe (VList [VList []]) taxonomy = Raise KeyError.
Proof. intro taxonomy. split; reflexivity. Qed.

End UtilsDataFacts.

(* ================================================================= *)
(** ** graph_module.py: the edge store *)

Section EdgeStore.
Import Pandas GraphModule.

Lemma same_edge_iff (a b : string) (uv : string * string) :
  same_edge a b uv = true <->
  (a = fst uv /\ b = snd uv) \/ (a = snd uv /\ b = fst uv).
Proof.
  unfold same_edge. rewrite orb_true_iff, !andb_true_iff, !String.eqb_eq. tauto.
Qed.

Lemma same_edge_sym (a b : string) (uv : string * string) :
  same_edge a b uv = same_edge b a uv.
Proof.
  unfold same_edge. rewrite orb_comm. f_equal; apply andb_comm.
Qed.

Lemma same_edge_flip (a b u v : string) :
  same_edge a b (u, v) = same_edge u v (a, b).
Proof.
  unfold same_edge. simpl.
  rewrite (String.eqb_sym a u), (String.eqb_sym b v),
          (String.eqb_sym a v), (String.eqb_sym b u).
  f_equal. apply andb_comm.
Qed.

(** Two names for one edge match the same entries. *)
Lemma same_edge_congr (x y a b : string) (uv : string * string) :
  same_edge x y (a, b) = true -> same_edge x y uv = same_edge a b uv.
Proof.
  rewrite same_edge_iff. simpl. intros [[-> ->]|[-> ->]].
  - reflexivity.
  - apply same_edge_sym.
Qed.

Lemma same_edge_trans (x y a b : string) (uv : string * string) :
  same_edge a b uv = true -> same_edge x y uv = true -> same_edge x y (a, b) = true.
Proof.
  rewrite !same_edge_iff. simpl. intuition congruence.
Qed.

Lemma same_edge_self (uv : string * string) : same_edge (fst uv) (snd uv) uv = true.
Proof. apply same_edge_iff. now left. Qed.

Abbreviation store := (list ((string * string) * EdgeData)).

Lemma edge_lookup_congr (es : store) (x y a b : string) :
  same_edge x y (a, b) = true -> edge_lookup es x y = edge_lookup es a b.
Proof.
  intro E. induction es as [|[uv d] t IH]; simpl; [reflexivity|].
  rewrite (same_edge_congr _ _ _ _ uv E), IH. reflexivity.
Qed.

Lemma edge_lookup_update (f : EdgeData -> EdgeData) (es : store) (a b x y : string) :
  edge_lookup (edge_update f es a b) x y =
  if same_edge x y (a, b) then option_map f (edge_lookup es x y)
  else edge_lookup es x y.
Proof.
  induction es as [|[uv d] t IH]; simpl.
  - now destruct (same_edge x y (a, b)).
  - destruct (same_edge a b uv) eqn:Eab; simpl.
    + destruct (same_edge x y (a, b)) eqn:Exy.
      * rewrite (same_edge_congr _ _ _ _ uv Exy), Eab. reflexivity.
      * destruct (same_edge x y uv) eqn:Exu; [|reflexivity].
        rewrite (same_edge_trans _ _ _ _ _ Eab Exu) in Exy. discriminate.
    + rewrite IH. destruct (same_edge x y (a, b)) eqn:Exy.
      * rewrite (same_edge_congr _ _ _ _ uv Exy), Eab. reflexivity.
      * reflexivity.
Qed.

Lemma edge_lookup_app (es : store) (k : string * string) (d : EdgeData) (x y : string) :
  edge_lookup (es ++ [(k, d)]) x y =
  match edge_lookup es x y with
  | Some d' => Some d'
  | None => if same_edge x y k then Some d else None
  end.
Proof.
  induction es as [|[uv d0] t IH]; simpl; [reflexivity|].
  destruct (same_edge x y uv); [reflexivity | exact IH].
Qed.

Lemma edge_lookup_map (f : EdgeData -> EdgeData) (es : store) (x y : string) :
  edge_lookup (map (fun e => (fst e, f (snd e))) es) x y
  = option_map f (edge_lookup es x y).
Proof.
  induction es as [|[uv d] t IH]; simpl; [reflexivity|].
  destruct (same_edge x y uv); [reflexivity | exact IH].
Qed.

Lemma edge_lookup_None_In (es : store) (x y : string) :
  edge_lookup es x y = None ->
  forall uv d, In (uv, d) es -> same_edge x y uv = false.
Proof.
  induction es as [|[uv0 d0] t IH]; simpl; intros E uv d Hin; [contradiction|].
  destruct (same_edge x y uv0) eqn:E0; [discriminate|].
  destruct Hin as [Heq|Hin]; [inversion Heq; subst; exact E0 | eauto].
Qed.

(** No two entries are about the same edge. *)
Fixpoint keys_unique (es : store) : Prop :=
  match es with
  | [] => True
  | (uv, _) :: t => edge_lookup t (fst uv) (snd uv) = None /\ keys_unique t
  end.

(** Then each entry is the one a lookup of its endpoints finds. *)
Lemma keys_unique_lookup (es : store) :
  keys_unique es ->
  forall uv d, In (uv, d) es -> edge_lookup es (fst uv) (snd uv) = Some d.
Proof.
  induction es as [|[uv0 d0] t IH]; simpl; [intros _ uv d []|].
  intros [Hn Hu] uv d Hin.
  destruct Hin as [Heq|Hin].
  - inversion Heq; subst. now rewrite same_edge_self.
  - destruct (same_edge (fst uv) (snd uv) uv0) eqn:E; [|now apply IH].
    pose proof (edge_lookup_None_In _ _ _ Hn uv d Hin) as C.
    destruct uv as [u v], uv0 as [u0 v0]. simpl in *.
    rewrite same_edge_flip in C. congruence.
Qed.

Lemma keys_unique_update (f : EdgeData -> EdgeData) (es : store) (a b : string) :
  keys_unique es -> keys_unique (edge_update f es a b).
Proof.
  induction es as [|[uv d] t IH]; simpl; [tauto|]. intros [Hn Hu].
  destruct (same_edge a b uv); simpl; [tauto|].
  split; [|auto].
  rewrite edge_lookup_update, Hn. now destruct (same_edge _ _ _).
Qed.

Lemma keys_unique_app (es : store) (a b : string) (d : EdgeData) :
  keys_unique es -> edge_lookup es a b = None ->
  keys_unique (es ++ [((a, b), d)]).
Proof.
  induction es as [|[uv d0] t IH]; simpl; [tauto|]. intros [Hn Hu] E.
  destruct (same_edge a b uv) eqn:Eab; [discriminate|].
  split; [|auto].
  rewrite edge_lookup_app, Hn.
  destruct uv as [u v]. simpl. rewrite same_edge_flip, Eab. reflexivity.
Qed.

Lemma keys_unique_map (f : EdgeData -> EdgeData) (es : store) :
  keys_unique es -> keys_unique (map (fun e => (fst e, f (snd e))) es).
Proof.
  induction es as [|[uv d] t IH]; simpl; [tauto|]. intros [Hn Hu].
  split; [|auto]. now rewrite edge_lookup_map, Hn.
Qed.

(** A property of entries survives an in-place change that respects it. *)
Lemma Forall_edge_update (P : (string * string) * EdgeData -> Prop)
    (f : EdgeData -> EdgeData) (es : store) (a b : string) :
  (forall uv d, P (uv, d) -> P (uv, f d)) ->
  Forall P es -> Forall P (edge_update f es a b).
Proof.
  intros Hf. induction es as [|[uv d] t IH]; simpl; intro HF; [constructor|].
  inversion HF; subst.
  destruct (same_edge a b uv); constructor; auto.
Qed.

End EdgeStore.

(* ================================================================= *)
(** ** graph_module.py: one row of the builder *)

Section BuilderSteps.
Import Pandas GraphModule.

Lemma existsb_false_Forall {A : Type} (f : A -> bool) (l : list A) :
  existsb f l = false <-> Forall (fun p => f p = false) l.
Proof.
  induction l as [|h t IH]; simpl.
  - split; [constructor | reflexivity].
  - rewrite orb_false_iff, IH. split.
    + intros [? ?]. now constructor.
    + intro HF. inversion HF; subst. tauto.
Qed.

Lemma existsb_eqb_In (x : string) (l : list string) :
  existsb (String.eqb x) l = true <-> In x l.
Proof.
  rewrite existsb_exists. split.
  - intros [y [Hy E]]. apply String.eqb_eq in E. now subst.
  - intro Hx. exists x. split; [exact Hx | apply String.eqb_refl].
Qed.

(** *** Pairs *)

(** No two pairs of the list are about the same edge. *)
Fixpoint sym_nodup (ps : list (string * string)) : Prop :=
  match ps with
  | [] => True
  | p :: t => existsb (same_edge (fst p) (snd p)) t = false /\ sym_nodup t
  end.

Lemma sym_nodup_app (l1 l2 : list (string * string)) :
  sym_nodup l1 -> sym_nodup l2 ->
  (forall p, In p l1 -> existsb (same_edge (fst p) (snd p)) l2 = false) ->
  sym_nodup (l1 ++ l2).
Proof.
  induction l1 as [|p t IH]; simpl; intros H1 H2 Hx; [exact H2|].
  destruct H1 as [Hp Ht]. split.
  - rewrite existsb_app, Hp, (Hx p); auto.
  - apply IH; auto.
Qed.

Lemma combinations2_In (l : list string) (a b : string) :
  In (a, b) (combinations2 l) -> In a l /\ In b l.
Proof.
  induction l as [|h t IH]; simpl; [tauto|].
  rewrite in_app_iff, in_map_iff. intros [[y [E Hy]]|Hin].
  - inversion E; subst. auto.
  - destruct (IH Hin). auto.
Qed.

Lemma combinations2_distinct (l : list string) (a b : string) :
  NoDup l -> In (a, b) (combinations2 l) -> a <> b.
Proof.
  induction l as [|h t IH]; simpl; [tauto|]. intro Hn.
  inversion Hn as [|? ? Hh Ht]; subst.
  rewrite in_app_iff, in_map_iff. intros [[y [E Hy]]|Hin].
  - inversion E; subst. congruence.
  - auto.
Qed.

Lemma combinations2_sym_nodup (l : list string) :
  NoDup l -> sym_nodup (combinations2 l).
Proof.
  induction l as [|h t IH]; simpl; [tauto|]. intro Hn.
  inversion Hn as [|? ? Hh Ht]; subst.
  apply sym_nodup_app; [|auto|].
  - clear IH Hn. induction t as [|y t' IHt]; simpl; [tauto|].
    inversion Ht as [|? ? Hy Ht']; subst. split.
    + apply existsb_false_Forall, Forall_forall. intros p Hp.
      apply in_map_iff in Hp. destruct Hp as [z [<- Hz]].
      destruct (same_edge h y (h, z)) eqn:E; [|reflexivity].
      apply same_edge_iff in E. simpl in E.
      destruct E as [[_ ->]|[-> _]]; [contradiction | simpl in Hh; tauto].
    + apply IHt; auto. simpl in Hh. tauto.
  - intros p Hp. apply in_map_iff in Hp. destruct Hp as [y [<- Hy]]. simpl.
    apply existsb_false_Forall, Forall_forall. intros [a b] Hab.
    apply combinations2_In in Hab.
    destruct (same_edge h y (a, b)) eqn:E; [|reflexivity].
    apply same_edge_iff in E. simpl in E.
    destruct E as [[-> _]|[-> _]]; tauto.
Qed.

(** The pairs of a list cover each two distinct elements of it. *)
Lemma combinations2_cover (l : list string) (x y : string) :
  In x l -> In y l -> x <> y ->
  existsb (same_edge x y) (combinations2 l) = true.
Proof.
  induction l as [|h t IH]; simpl; [tauto|]. intros Hx Hy Hne.
  rewrite existsb_app, orb_true_iff.
  destruct Hx as [->|Hx], Hy as [->|Hy]; try congruence.
  - left. apply existsb_exists. exists (x, y). split.
    + apply in_map. exact Hy.
    + apply same_edge_iff. now left.
  - left. apply existsb_exists. exists (y, x). split.
    + apply in_map. exact Hx.
    + apply same_edge_iff. now right.
  - right. auto.
Qed.

Lemma combinations2_covered (l : list string) (x y : string) :
  existsb (same_edge x y) (combinations2 l) = true -> In x l /\ In y l.
Proof.
  rewrite existsb_exists. intros [[a b] [Hin E]].
  apply combinations2_In in Hin. apply same_edge_iff in E. simpl in E.
  destruct E as [[-> ->]|[-> ->]]; tauto.
Qed.

Lemma existsb_same_edge_congr (x y a b : string) (ps : list (string * string)) :
  same_edge x y (a, b) = true ->
  existsb (same_edge x y) ps = existsb (same_edge a b) ps.
Proof.
  intro E. induction ps as [|p t IH]; simpl; [reflexivity|].
  now rewrite IH, (same_edge_congr _ _ _ _ p E).
Qed.

(** *** One pair *)

(** The attribute dict of the edge after a row went over it. *)
Definition bumped (row : Row string) (o : option EdgeData) : EdgeData :=
  match o with
  | Some d => {| weight := weight d + 1;
                 sentiments := sentiments d ++ [sentiment row];
                 event_types := event_types d ++ Pandas.event_types row;
                 event_titles := event_titles d ++ [event_title row];
                 mean_sentiment := mean_sentiment d |}
  | None => {| weight := 1;
               sentiments := [sentiment row];
               event_types := Pandas.event_types row;
               event_titles := [event_title row];
               mean_sentiment := None |}
  end.

Lemma add_pair_lookup (row : Row string) (G : Graph) (a b x y : string) :
  edge_lookup (edges (add_pair row G (a, b))) x y =
  if same_edge x y (a, b)
  then Some (bumped row (edge_lookup (edges G) a b))
  else edge_lookup (edges G) x y.
Proof.
  unfold add_pair, add_edge, has_edge.
  destruct (edge_lookup (edges G) a b) as [d|] eqn:E; simpl.
  - rewrite edge_lookup_update.
    destruct (same_edge x y (a, b)) eqn:Exy; [|reflexivity].
    rewrite (edge_lookup_congr _ _ _ _ _ Exy), E. reflexivity.
  - rewrite edge_lookup_app.
    destruct (same_edge x y (a, b)) eqn:Exy.
    + rewrite (edge_lookup_congr _ _ _ _ _ Exy), E. reflexivity.
    + now destruct (edge_lookup (edges G) x y).
Qed.

Lemma has_node_In (G : Graph) (n : string) : has_node G n = true <-> In n (nodes G).
Proof. apply existsb_eqb_In. Qed.

Lemma add_node_In (G : Graph) (n m : string) :
  In m (nodes (add_node G n)) <-> In m (nodes G) \/ m = n.
Proof.
  unfold add_node. destruct (has_node G n) eqn:E; simpl.
  - apply has_node_In in E. split; [tauto|]. intros [?| ->]; auto.
  - rewrite in_app_iff. simpl. intuition congruence.
Qed.

Lemma add_node_NoDup (G : Graph) (n : string) :
  NoDup (nodes G) -> NoDup (nodes (add_node G n)).
Proof.
  unfold add_node. destruct (has_node G n) eqn:E; simpl; [tauto|]. intro Hn.
  apply NoDup_app; [exact Hn | constructor; [simpl; tauto | constructor] |].
  intros m Hm [<-|[]]. apply has_node_In in Hm. congruence.
Qed.

Lemma add_node_edges (G : Graph) (n : string) : edges (add_node G n) = edges G.
Proof. unfold add_node. now destruct (has_node G n). Qed.

Lemma add_node_present (G : Graph) (n : string) : In n (nodes G) -> add_node G n = G.
Proof. intro Hn. unfold add_node. apply has_node_In in Hn. now rewrite Hn. Qed.

Lemma add_pair_nodes (row : Row string) (G : Graph) (a b : string) :
  In a (nodes G) -> In b (nodes G) -> nodes (add_pair row G (a, b)) = nodes G.
Proof.
  intros Ha Hb. unfold add_pair, add_edge.
  destruct (has_edge G a b); simpl; [reflexivity|].
  now rewrite (add_node_present _ _ Ha), (add_node_present _ _ Hb).
Qed.

End BuilderSteps.

(* ================================================================= *)
(** ** graph_module.py: the builder *)

Section BuilderFacts.
Import Pandas GraphModule.
Context `{SetOrder}.

(** The pairs the builder goes through for a row. *)
Definition pairs_of (row : Row string) : list (string * string) :=
  combinations2 (py_sorted (set_iter (entity_names row))).

(** Both names are listed by the row. *)
Definition both_in (a b : string) (row : Row string) : bool :=
  existsb (String.eqb a) (entity_names row)
  && existsb (String.eqb b) (entity_names row).

(** The number of rows that list both names. *)
Definition cooccurrences (a b : string) (rows : list (Row string)) : Z :=
  Z.of_nat (length (filter (both_in a b) rows)).

(** What the builder keeps true of every entry of the edge store. *)
Definition edge_ok (e : (string * string) * EdgeData) : Prop :=
  fst (fst e) <> snd (fst e)
  /\ (1 <= weight (snd e))%Z
  /\ weight (snd e) = Z.of_nat (length (sentiments (snd e)))
  /\ weight (snd e) = Z.of_nat (length (event_titles (snd e))).

Lemma sorted_set_NoDup (ents : list string) : NoDup (py_sorted (set_iter ents)).
Proof. apply sorted_by_NoDup, set_iter_NoDup. Qed.

Lemma sorted_set_In (ents : list string) (x : string) :
  In x (py_sorted (set_iter ents)) <-> In x ents.
Proof. unfold py_sorted. rewrite sorted_by_In. apply set_iter_In. Qed.

Lemma pairs_of_both_in (row : Row string) (x y : string) :
  x <> y -> existsb (same_edge x y) (pairs_of row) = both_in x y row.
Proof.
  intro Hne. unfold pairs_of, both_in.
  destruct (existsb (same_edge x y) _) eqn:E.
  - apply combinations2_covered in E. rewrite !sorted_set_In in E.
    destruct E as [Hx Hy].
    apply existsb_eqb_In in Hx, Hy. now rewrite Hx, Hy.
  - destruct (existsb (String.eqb x) _) eqn:Ex; [|reflexivity].
    destruct (existsb (String.eqb y) _) eqn:Ey; [|reflexivity].
    apply existsb_eqb_In in Ex, Ey.
    rewrite (combinations2_cover _ x y) in E; [discriminate| | |exact Hne];
      now apply sorted_set_In.
Qed.

Lemma both_in_long (row : Row string) (x y : string) :
  x <> y -> both_in x y row = true -> 2 <= length (entity_names row).
Proof.
  unfold both_in. rewrite andb_true_iff, !existsb_eqb_In.
  destruct (entity_names row) as [|a [|b t]]; simpl; intros Hne [Hx Hy].
  - contradiction.
  - intuition congruence.
  - lia.
Qed.

Lemma fold_pairs_lookup (row : Row string) (ps : list (string * string)) :
  forall (G : Graph) (x y : string),
    sym_nodup ps ->
    edge_lookup (edges (fold_left (add_pair row) ps G)) x y =
    if existsb (same_edge x y) ps
    then Some (bumped row (edge_lookup (edges G) x y))
    else edge_lookup (edges G) x y.
Proof.
  induction ps as [|[a b] t IH]; intros G x y Hs; [reflexivity|].
  destruct Hs as [Hab Ht]. cbn [fold_left existsb fst snd] in *.
  rewrite (IH _ _ _ Ht), add_pair_lookup.
  destruct (same_edge x y (a, b)) eqn:E; cbn [orb]; [|reflexivity].
  rewrite (existsb_same_edge_congr _ _ _ _ _ E), Hab.
  now rewrite (edge_lookup_congr _ _ _ _ _ E).
Qed.

Lemma fold_pairs_nodes (row : Row string) (ps : list (string * string)) :
  forall G : Graph,
    (forall p, In p ps -> In (fst p) (nodes G) /\ In (snd p) (nodes G)) ->
    nodes (fold_left (add_pair row) ps G) = nodes G.
Proof.
  induction ps as [|[a b] t IH]; intros G Hp; [reflexivity|].
  destruct (Hp (a, b) (or_introl eq_refl)) as [Ha Hb]. cbn [fst snd] in Ha, Hb.
  cbn [fold_left].
  rewrite IH; rewrite (add_pair_nodes _ _ _ _ Ha Hb); [reflexivity|].
  intros p Hin. apply Hp. now right.
Qed.

Lemma add_pair_keys_unique (row : Row string) (G : Graph) (a b : string) :
  keys_unique (edges G) -> keys_unique (edges (add_pair row G (a, b))).
Proof.
  intro Hk. unfold add_pair, add_edge, has_edge.
  destruct (edge_lookup (edges G) a b) eqn:E; simpl.
  - now apply keys_unique_update.
  - now apply keys_unique_app.
Qed.

Lemma add_pair_ok (row : Row string) (G : Graph) (a b : string) :
  a <> b -> Forall edge_ok (edges G) -> Forall edge_ok (edges (add_pair row G (a, b))).
Proof.
  intros Hne Hok. unfold add_pair, add_edge.
  destruct (has_edge G a b); simpl.
  - apply Forall_edge_update; [|exact Hok].
    intros uv d (Hd & Hw & Hs & Ht). unfold edge_ok. simpl in *.
    rewrite !length_app. simpl. repeat split; [exact Hd | lia | lia | lia].
  - apply Forall_app. split; [exact Hok|].
    constructor; [|constructor]. unfold edge_ok. simpl. repeat split; [exact Hne | lia].
Qed.

Lemma fold_pairs_keys_unique (row : Row string) (ps : list (string * string)) :
  forall G : Graph,
    keys_unique (edges G) -> keys_unique (edges (fold_left (add_pair row) ps G)).
Proof.
  induction ps as [|[a b] t IH]; intros G Hk; [exact Hk|].
  cbn [fold_left]. apply IH, add_pair_keys_unique, Hk.
Qed.

Lemma fold_pairs_ok (row : Row string) (ps : list (string * string)) :
  forall G : Graph,
    (forall a b, In (a, b) ps -> a <> b) ->
    Forall edge_ok (edges G) ->
    Forall edge_ok (edges (fold_left (add_pair row) ps G)).
Proof.
  induction ps as [|[a b] t IH]; intros G Hd Hok; [exact Hok|].
  cbn [fold_left]. apply IH; [intros; apply Hd; now right|].
  apply add_pair_ok; [apply Hd; now left | exact Hok].
Qed.

(** *** The loop that makes the names of a row nodes *)

Definition ensure_nodes (names : list string) (G : Graph) : Graph :=
  fold_left (fun G name => if has_node G name then G else add_node G name) names G.

Lemma ensure_nodes_edges (names : list string) :
  forall G, edges (ensure_nodes names G) = edges G.
Proof.
  unfold ensure_nodes. induction names as [|n t IH]; simpl; intro G; [reflexivity|].
  rewrite IH. destruct (has_node G n); [reflexivity | apply add_node_edges].
Qed.

Lemma ensure_nodes_In (names : list string) :
  forall G m, In m (nodes (ensure_nodes names G)) <-> In m (nodes G) \/ In m names.
Proof.
  unfold ensure_nodes. induction names as [|n t IH]; simpl; intros G m; [tauto|].
  rewrite IH. destruct (has_node G n) eqn:E.
  - apply has_node_In in E. split; [tauto|]. intros [?|[<-|?]]; auto.
  - rewrite add_node_In. split; [intros [[?|?]|?] | intros [?|[?|?]]]; auto.
Qed.

Lemma ensure_nodes_NoDup (names : list string) :
  forall G, NoDup (nodes G) -> NoDup (nodes (ensure_nodes names G)).
Proof.
  unfold ensure_nodes. induction names as [|n t IH]; simpl; intros G Hn; [exact Hn|].
  apply IH. destruct (has_node G n); [exact Hn | now apply add_node_NoDup].
Qed.

(** *** One row *)

Lemma add_row_short (G : Graph) (row : Row string) :
  length (entity_names row) < 2 -> add_row G row = G.
Proof.
  intro Hl. unfold add_row.
  destruct (entity_names row) as [|a t]; [reflexivity|].
  destruct (Nat.ltb_spec (length (a :: t)) 2) as [_|C]; [reflexivity | lia].
Qed.

Lemma add_row_long (G : Graph) (row : Row string) :
  2 <= length (entity_names row) ->
  add_row G row
  = fold_left (add_pair row) (pairs_of row)
              (ensure_nodes (set_iter (entity_names row)) G).
Proof.
  intro Hl. unfold add_row, pairs_of, ensure_nodes.
  destruct (entity_names row) as [|a t]; [simpl in Hl; lia|].
  destruct (Nat.ltb_spec (length (a :: t)) 2) as [C|_]; [lia | reflexivity].
Qed.

Lemma pairs_of_distinct (row : Row string) (a b : string) :
  In (a, b) (pairs_of row) -> a <> b.
Proof. apply combinations2_distinct, sorted_set_NoDup. Qed.

Lemma add_row_lookup (G : Graph) (row : Row string) (x y : string) :
  x <> y ->
  edge_lookup (edges (add_row G row)) x y =
  if both_in x y row
  then Some (bumped row (edge_lookup (edges G) x y))
  else edge_lookup (edges G) x y.
Proof.
  intro Hne. destruct (Nat.lt_ge_cases (length (entity_names row)) 2) as [Hl|Hl].
  - rewrite (add_row_short _ _ Hl).
    destruct (both_in x y row) eqn:E; [|reflexivity].
    apply both_in_long in E; [lia | exact Hne].
  - rewrite (add_row_long _ _ Hl), fold_pairs_lookup.
    + now rewrite (pairs_of_both_in _ _ _ Hne), ensure_nodes_edges.
    + apply combinations2_sym_nodup, sorted_set_NoDup.
Qed.

Lemma add_row_nodes (G : Graph) (row : Row string) (n : string) :
  In n (nodes (add_row G row)) <->
  In n (nodes G) \/ (2 <= length (entity_names row) /\ In n (entity_names row)).
Proof.
  destruct (Nat.lt_ge_cases (length (entity_names row)) 2) as [Hl|Hl].
  - rewrite (add_row_short _ _ Hl). split; [tauto|]. intros [?|[? _]]; [tauto | lia].
  - rewrite (add_row_long _ _ Hl), fold_pairs_nodes.
    + rewrite ensure_nodes_In, set_iter_In. tauto.
    + intros [a b] Hp. apply combinations2_In in Hp.
      rewrite !sorted_set_In in Hp. simpl.
      rewrite !ensure_nodes_In, !set_iter_In. tauto.
Qed.

Lemma add_row_NoDup (G : Graph) (row : Row string) :
  NoDup (nodes G) -> NoDup (nodes (add_row G row)).
Proof.
  intro Hn. destruct (Nat.lt_ge_cases (length (entity_names row)) 2) as [Hl|Hl].
  - now rewrite (add_row_short _ _ Hl).
  - rewrite (add_row_long _ _ Hl), fold_pairs_nodes.
    + now apply ensure_nodes_NoDup.
    + intros [a b] Hp. apply combinations2_In in Hp.
      rewrite !sorted_set_In in Hp. simpl.
      rewrite !ensure_nodes_In, !set_iter_In. tauto.
Qed.

Lemma add_row_keys_unique (G : Graph) (row : Row string) :
  keys_unique (edges G) -> keys_unique (edges (add_row G row)).
Proof.
  intro Hk. destruct (Nat.lt_ge_cases (length (entity_names row)) 2) as [Hl|Hl].
  - now rewrite (add_row_short _ _ Hl).
  - rewrite (add_row_long _ _ Hl). apply fold_pairs_keys_unique.
    now rewrite ensure_nodes_edges.
Qed.

Lemma add_row_ok (G : Graph) (row : Row string) :
  Forall edge_ok (edges G) -> Forall edge_ok (edges (add_row G row)).
Proof.
  intro Hk. destruct (Nat.lt_ge_cases (length (entity_names row)) 2) as [Hl|Hl].
  - now rewrite (add_row_short _ _ Hl).
  - rewrite (add_row_long _ _ Hl). apply fold_pairs_ok.
    + apply pairs_of_distinct.
    + now rewrite ensure_nodes_edges.
Qed.

End BuilderFacts.

(* ================================================================= *)
(** ** graph_module.py: what the builder returns *)

Section BuilderClaims.
Import Pandas GraphModule.
Context `{SetOrder}.

(** What holds of the graph after the rows [done] went through the loop. *)
Definition invariant (G : Graph) (done : list (Row string)) : Prop :=
  NoDup (nodes G)
  /\ (forall n, In n (nodes G) <->
                exists r, In r done /\ 2 <= length (entity_names r)
                          /\ In n (entity_names r))
  /\ keys_unique (edges G)
  /\ Forall edge_ok (edges G)
  /\ (forall x y, x <> y ->
        match edge_lookup (edges G) x y with
        | Some d => weight d = cooccurrences x y done /\ (1 <= weight d)%Z
        | None => cooccurrences x y done = 0%Z
        end).

Lemma cooccurrences_snoc (x y : string) (done : list (Row string)) (r : Row string) :
  cooccurrences x y (done ++ [r])
  = (cooccurrences x y done + (if both_in x y r then 1 else 0))%Z.
Proof.
  unfold cooccurrences. rewrite filter_app, length_app. simpl.
  destruct (both_in x y r); simpl; lia.
Qed.

Lemma cooccurrences_names (x y : string) (rows : list (Row string)) :
  cooccurrences x y rows
  = Z.of_nat (length (filter
      (fun l => existsb (String.eqb x) l && existsb (String.eqb y) l)
      (map entity_names rows))).
Proof.
  unfold cooccurrences. f_equal.
  induction rows as [|r t IH]; simpl; [reflexivity|].
  unfold both_in at 1. destruct (_ && _); simpl; now rewrite IH.
Qed.

Lemma invariant_empty : invariant empty_graph [].
Proof.
  repeat split; simpl; try constructor; try tauto.
  intros [r [[] _]].
Qed.

Lemma invariant_step (G : Graph) (done : list (Row string)) (r : Row string) :
  invariant G done -> invariant (add_row G r) (done ++ [r]).
Proof.
  intros (Hn & Hm & Hk & Hok & Hw). repeat split.
  - now apply add_row_NoDup.
  - rewrite add_row_nodes, Hm. intros [[r' (Hr' & Hl & Hin)]|[Hl Hin]].
    + exists r'. rewrite in_app_iff. auto.
    + exists r. rewrite in_app_iff. simpl. auto.
  - rewrite add_row_nodes, Hm. intros [r' (Hr' & Hl & Hin)].
    apply in_app_iff in Hr'. destruct Hr' as [Hr'|[<-|[]]]; [left; eauto | right; auto].
  - now apply add_row_keys_unique.
  - now apply add_row_ok.
  - intros x y Hne. rewrite (add_row_lookup _ _ _ _ Hne), cooccurrences_snoc.
    specialize (Hw x y Hne).
    unfold cooccurrences in *.
    destruct (both_in x y r); destruct (edge_lookup (edges G) x y); simpl; lia.
Qed.

Lemma invariant_fold (rest : list (Row string)) :
  forall (G : Graph) (done : list (Row string)),
    invariant G done -> invariant (fold_left add_row rest G) (done ++ rest).
Proof.
  induction rest as [|r t IH]; simpl; intros G done Hi.
  - now rewrite app_nil_r.
  - replace (done ++ r :: t) with ((done ++ [r]) ++ t)
      by (rewrite <- app_assoc; reflexivity).
    apply IH, invariant_step, Hi.
Qed.

Lemma builder_invariant (df : DataFrame string) :
  invariant (fold_left add_row (iterrows df) empty_graph) (iterrows df).
Proof. apply (invariant_fold (iterrows df) empty_graph []), invariant_empty. Qed.

(** The entries of the returned graph are the accumulated ones, each with
    its mean set. *)
Lemma built_edge (df : DataFrame string) (uv : string * string) (d : EdgeData) :
  In (uv, d) (edges (build_cooccurrence_graph df)) ->
  exists d0, In (uv, d0) (edges (fold_left add_row (iterrows df) empty_graph))
             /\ d = set_mean d0.
Proof.
  unfold build_cooccurrence_graph. simpl. rewrite in_map_iff.
  intros [[uv0 d0] [E Hin]]. simpl in E. inversion E; subst. eauto.
Qed.

(** The nodes of the graph are the names of the rows that list at least
    two entries. *)
Lemma built_nodes (df : DataFrame string) (n : string) :
  In n (nodes (build_cooccurrence_graph df)) <->
  exists r, In r (iterrows df) /\ 2 <= length (entity_names r)
            /\ In n (entity_names r).
Proof. destruct (builder_invariant df) as (_ & Hm & _). apply Hm. Qed.

(** Without rows the graph is empty. *)
Lemma graph_of_no_rows (dt : dtype) :
  build_cooccurrence_graph NoColumns = empty_graph
  /\ build_cooccurrence_graph (Frame dt []) = empty_graph.
Proof. split; reflexivity. Qed.

(** A row that lists fewer than two entries leaves the graph as it is. *)
Lemma short_row_ignored (G : Graph) (row : Row string) :
  length (entity_names row) < 2 -> add_row G row = G.
Proof. apply add_row_short. Qed.

(** A row without two distinct names adds no edge. *)
Lemma no_pair_no_edge (G : Graph) (row : Row string) :
  (forall x y, In x (entity_names row) -> In y (entity_names row) -> x = y) ->
  edges (add_row G row) = edges G.
Proof.
  intro Hone. destruct (Nat.lt_ge_cases (length (entity_names row)) 2) as [Hl|Hl].
  - now rewrite (add_row_short _ _ Hl).
  - rewrite (add_row_long _ _ Hl). unfold pairs_of.
    pose proof (sorted_set_NoDup (entity_names row)) as Hn.
    pose proof (sorted_set_In (entity_names row)) as Hi.
    destruct (py_sorted (set_iter (entity_names row))) as [|a [|b t]].
    + simpl. apply ensure_nodes_edges.
    + simpl. apply ensure_nodes_edges.
    + exfalso. inversion Hn as [|? ? Ha _]; subst. apply Ha.
      rewrite (Hone a b); [now left | |]; apply Hi; simpl; auto.
Qed.

Lemma singleton_set (l : list string) (a : string) :
  NoDup l -> (forall x, In x l <-> x = a) -> l = [a].
Proof.
  intros Hn Hi. destruct l as [|h [|h' t]].
  - exfalso. apply (Hi a). reflexivity.
  - f_equal. apply Hi. now left.
  - exfalso. inversion Hn as [|? ? Hh _]; subst. apply Hh.
    rewrite (proj1 (Hi h) (or_introl eq_refl)),
            (proj1 (Hi h') (or_intror (or_introl eq_refl))). now left.
Qed.

(** The frame of one event that names the entity ["A"] twice. *)
Definition twice_A : DataFrame string :=
  Frame Datetime64
    [ {| event_title := "visit"; event_location := "Paris";
         date := Some {| year := 2021; month := 3; day := 5 |};
         entity_names := ["A"; "A"]; entity_tags := [];
         sentiment := 0%Q; Pandas.event_types := []; raw := VNone |} ].

(** C1. A row whose entity list names one entity twice passes the length
    test and makes that entity a node, without any edge: the graph of
    [twice_A] has the isolated node ["A"]. *)
Theorem duplicate_name_adds_isolated_node :
  build_cooccurrence_graph twice_A = {| nodes := ["A"]; edges := [] |}.
Proof.
  assert (E : set_iter ["A"; "A"] = ["A"]).
  { apply singleton_set; [apply set_iter_NoDup|].
    intro x. rewrite set_iter_In. simpl. intuition congruence. }
  unfold build_cooccurrence_graph, twice_A, add_row. simpl.
  rewrite E. reflexivity.
Qed.

End BuilderClaims.

Section BuilderTheorems.
Import Pandas GraphModule.
Context `{SetOrder}.

(** The arithmetic mean of a list of numbers. *)
Definition arithmetic_mean (l : list Q) : Q :=
  (fold_right Qplus 0 l / inject_Z (Z.of_nat (length l)))%Q.

Lemma fold_left_Qplus (l : list Q) (a : Q) :
  (fold_left Qplus l a == a + fold_right Qplus 0 l)%Q.
Proof.
  revert a. induction l as [|h t IH]; simpl; intro a.
  - ring.
  - rewrite IH. ring.
Qed.

Lemma py_sum_fold_right (l : list Q) : (py_sum l == fold_right Qplus 0 l)%Q.
Proof. unfold py_sum. rewrite fold_left_Qplus. ring. Qed.

Lemma mean_or_zero_mean (l : list Q) :
  l <> [] -> (mean_or_zero l == arithmetic_mean l)%Q.
Proof.
  intro Hne. unfold mean_or_zero, arithmetic_mean.
  destruct l as [|h t]; [congruence|].
  now rewrite py_sum_fold_right.
Qed.

Lemma built_lookup (df : DataFrame string) (x y : string) :
  edge_lookup (edges (build_cooccurrence_graph df)) x y
  = option_map set_mean
      (edge_lookup (edges (fold_left add_row (iterrows df) empty_graph)) x y).
Proof. unfold build_cooccurrence_graph. simpl. apply edge_lookup_map. Qed.

(** C7. Every edge of the returned graph joins two distinct names; its
    weight is at least 1 and is the length of its sentiments and of its
    event titles; its mean sentiment is set, to the arithmetic mean of its
    sentiments. *)
Theorem edge_attributes_consistent :
  forall (df : DataFrame string) (uv : string * string) (d : EdgeData),
    In (uv, d) (edges (build_cooccurrence_graph df)) ->
    fst uv <> snd uv
    /\ (1 <= weight d)%Z
    /\ weight d = Z.of_nat (length (sentiments d))
    /\ weight d = Z.of_nat (length (event_titles d))
    /\ exists m, mean_sentiment d = Some m
                 /\ (m == arithmetic_mean (sentiments d))%Q.
Proof.
  intros df uv d Hin.
  destruct (built_edge _ _ _ Hin) as [d0 [Hin0 ->]].
  destruct (builder_invariant df) as (_ & _ & _ & Hok & _).
  rewrite Forall_forall in Hok. destruct (Hok _ Hin0) as (Hd & Hw & Hs & Ht).
  simpl in *. repeat split; auto.
  eexists. split; [reflexivity|].
  apply mean_or_zero_mean. intro E. rewrite E in Hs. simpl in Hs. lia.
Qed.

(** C6. The weight of every edge is the number of rows that list both of
    its endpoints.  For three rows that list [A, B], [A, B] and [A, C],
    the nodes are A, B and C, each once; the edge between A and B has
    weight 2, the edge between A and C has weight 1, and B and C are not
    joined. *)
Theorem cooccurrence_weights :
  (forall (df : DataFrame string) (uv : string * string) (d : EdgeData),
      In (uv, d) (edges (build_cooccurrence_graph df)) ->
      weight d = cooccurrences (fst uv) (snd uv) (iterrows df))
  /\ (forall (dt : dtype) (rows : list (Row string)),
        map entity_names rows = [["A"; "B"]; ["A"; "B"]; ["A"; "C"]] ->
        let G := build_cooccurrence_graph (Frame dt rows) in
        NoDup (nodes G)
        /\ (forall n, In n (nodes G) <-> n = "A" \/ n = "B" \/ n = "C")
        /\ (exists d, edge_lookup (edges G) "A" "B" = Some d /\ weight d = 2%Z)
        /\ (exists d, edge_lookup (edges G) "A" "C" = Some d /\ weight d = 1%Z)
        /\ has_edge G "B" "C" = false).
Proof.
  split.
  - intros df uv d Hin.
    destruct (built_edge _ _ _ Hin) as [d0 [Hin0 ->]].
    destruct (builder_invariant df) as (_ & _ & Hk & Hok & Hw).
    rewrite Forall_forall in Hok. destruct (Hok _ Hin0) as (Hd & _).
    simpl in Hd. specialize (Hw _ _ Hd).
    rewrite (keys_unique_lookup _ Hk _ _ Hin0) in Hw. apply Hw.
  - intros dt rows E G.
    destruct (builder_invariant (Frame dt rows)) as (Hn & _ & _ & _ & Hw).
    simpl iterrows in Hw.
    assert (Hweight : forall x y (w : Z), x <> y ->
               cooccurrences x y rows = w ->
               match w with
               | Z0 => has_edge G x y = false
               | _ => exists d, edge_lookup (edges G) x y = Some d /\ weight d = w
               end).
    { intros x y w Hne Hc. specialize (Hw x y Hne). rewrite Hc in Hw.
      unfold G, has_edge. rewrite built_lookup. simpl iterrows.
      destruct (edge_lookup _ x y) as [d|].
      - destruct Hw as [Hw1 Hw2]. destruct w; [lia| |];
          (exists (set_mean d); split; [reflexivity | exact Hw1]).
      - now subst w. }
    assert (Hc : forall x y,
               cooccurrences x y rows
               = Z.of_nat (length (filter
                   (fun l => existsb (String.eqb x) l && existsb (String.eqb y) l)
                   [["A"; "B"]; ["A"; "B"]; ["A"; "C"]]))).
    { intros x y. rewrite <- E. apply cooccurrences_names. }
    split; [exact Hn|]. split; [|split; [|split]].
    + intro n. unfold G. rewrite built_nodes. simpl iterrows. split.
      * intros [r (Hr & _ & Hin)].
        apply (in_map entity_names) in Hr. rewrite E in Hr. simpl in Hr.
        destruct Hr as [Hr|[Hr|[Hr|[]]]]; rewrite <- Hr in Hin; simpl in Hin; intuition.
      * intro Hn3.
        assert (Hl : exists l, In l (map entity_names rows) /\ 2 <= length l /\ In n l).
        { rewrite E. destruct Hn3 as [-> | [-> | ->]].
          - exists ["A"; "B"]. simpl. auto.
          - exists ["A"; "B"]. simpl. auto.
          - exists ["A"; "C"]. simpl. auto 6. }
        destruct Hl as [l (Hl & Hlen & Hin)].
        apply in_map_iff in Hl. destruct Hl as [r [<- Hr]]. eauto.
    + apply (Hweight "A" "B" 2%Z); [discriminate | now rewrite Hc].
    + apply (Hweight "A" "C" 1%Z); [discriminate | now rewrite Hc].
    + apply (Hweight "B" "C" 0%Z); [discriminate | now rewrite Hc].
Qed.

End BuilderTheorems.

(* ================================================================= *)
(** ** graph_module.py: the centrality ranking *)

Section RankerFacts.
Import Pandas GraphModule.
Context `{Networkx}.

Lemma score_get_zeros (ns : list string) (n : string) :
  score_get (map (fun m => (m, 0%Q)) ns) n = 0%Q.
Proof.
  induction ns as [|h t IH]; simpl; [reflexivity|].
  destruct (String.eqb h n); [reflexivity | exact IH].
Qed.

Lemma by_degree_sorted (rows : list CentralityRow) :
  StronglySorted (fun r1 r2 => (degree r2 <= degree r1)%Q)
    (sorted_by (fun x h => Qle_bool (degree h) (degree x)) rows).
Proof.
  apply StronglySorted_impl with
    (R := fun a b => (fun x h => Qle_bool (degree h) (degree x)) a b = true).
  - intros x y. apply Qle_bool_iff.
  - apply sorted_by_sorted.
    + intros x y. rewrite !Qle_bool_iff.
      destruct (Qlt_le_dec (degree x) (degree y)) as [Hlt|Hle]; [right | left].
      * now apply Qlt_le_weak.
      * exact Hle.
    + intros x y z. rewrite !Qle_bool_iff. intros Hxy Hyz.
      eapply Qle_trans; eauto.
Qed.

(** The records of the table come from the nodes of the graph. *)
Lemma table_rows (G : Graph) (top_n : Z) (r : CentralityRow) :
  In r (top_centralities_table G top_n) ->
  exists n, In n (nodes G)
    /\ entity r = n
    /\ degree r = score_get (degree_centrality G) n
    /\ betweenness r = score_get (betweenness_centrality G) n
    /\ eigenvector r =
         score_get (match eigenvector_centrality G 1000 with
                    | Ok m => m
                    | Raise _ => map (fun n => (n, 0%Q)) (nodes G)
                    end) n
    /\ degree_raw r = degree_of G n.
Proof.
  unfold top_centralities_table. destruct (order G =? 0); [intros []|].
  intro Hin. apply slice_to_incl in Hin. apply sorted_by_In in Hin.
  apply in_map_iff in Hin. destruct Hin as [n [<- Hn]]. exists n. simpl. auto 10.
Qed.

Lemma slice_to_length {A : Type} (n : Z) (l : list A) :
  length (slice_to n l)
  = Z.to_nat (if (n <? 0)%Z then Z.max 0 (Z.of_nat (length l) + n)
              else Z.min n (Z.of_nat (length l))).
Proof.
  unfold slice_to. destruct (Z.ltb_spec n 0); rewrite length_firstn; lia.
Qed.

Lemma slice_to_all {A : Type} (n : Z) (l : list A) :
  (Z.of_nat (length l) <= n)%Z -> slice_to n l = l.
Proof.
  intro Hn. unfold slice_to. destruct (Z.ltb_spec n 0); [lia|].
  apply firstn_all2. lia.
Qed.

(** The records before the slice: one per node, sorted. *)
Definition ranked_rows (G : Graph) : list CentralityRow :=
  sorted_by (fun x h => Qle_bool (degree h) (degree x))
    (map (fun n => {| entity := n;
                      degree := score_get (degree_centrality G) n;
                      betweenness := score_get (betweenness_centrality G) n;
                      eigenvector :=
                        score_get (match eigenvector_centrality G 1000 with
                                   | Ok m => m
                                   | Raise _ => map (fun n => (n, 0%Q)) (nodes G)
                                   end) n;
                      degree_raw := degree_of G n |})
         (nodes G)).

Lemma table_ranked (G : Graph) (top_n : Z) :
  top_centralities_table G top_n = slice_to top_n (ranked_rows G).
Proof.
  unfold top_centralities_table, ranked_rows, order.
  destruct (nodes G) as [|n t] eqn:E; [|reflexivity].
  simpl. unfold slice_to. destruct (top_n <? 0)%Z; now rewrite firstn_nil.
Qed.

Lemma ranked_rows_entities (G : Graph) :
  Permutation (map entity (ranked_rows G)) (nodes G).
Proof.
  unfold ranked_rows.
  eapply perm_trans; [apply Permutation_map, sorted_by_perm|].
  rewrite map_map. simpl. rewrite map_id. apply Permutation_refl.
Qed.

Lemma ranked_rows_length (G : Graph) : length (ranked_rows G) = order G.
Proof.
  rewrite <- (length_map entity). apply Permutation_length, ranked_rows_entities.
Qed.

Lemma slice_to_firstn {A : Type} (n : Z) (l : list A) :
  exists k, slice_to n l = firstn k l.
Proof. unfold slice_to. destruct (n <? 0)%Z; eauto. Qed.

(** Whatever [top_n] is, the table is the beginning of the table of all
    the nodes. *)
Lemma table_prefix (G : Graph) (top_n : Z) :
  exists rest,
    top_centralities_table G (Z.of_nat (order G))
    = top_centralities_table G top_n ++ rest.
Proof.
  rewrite !table_ranked.
  rewrite (slice_to_all (Z.of_nat (order G)))
    by (rewrite ranked_rows_length; apply Z.le_refl).
  destruct (slice_to_firstn top_n (ranked_rows G)) as [k ->].
  exists (skipn k (ranked_rows G)). symmetry. apply firstn_skipn.
Qed.

(** A node without a record has no higher score than a node with one. *)
Lemma left_out_not_higher (G : Graph) (top_n : Z) (r : CentralityRow) (n : string) :
  In r (top_centralities_table G top_n) ->
  In n (nodes G) ->
  ~ In n (map entity (top_centralities_table G top_n)) ->
  (score_get (degree_centrality G) n <= degree r)%Q.
Proof.
  rewrite table_ranked.
  destruct (slice_to_firstn top_n (ranked_rows G)) as [k ->].
  intros Hr Hn Hout.
  assert (Hn' : In n (map entity (ranked_rows G))).
  { eapply Permutation_in; [apply Permutation_sym, ranked_rows_entities | exact Hn]. }
  apply in_map_iff in Hn'. destruct Hn' as [r' [He Hr']].
  assert (Hd : degree r' = score_get (degree_centrality G) n).
  { unfold ranked_rows in Hr'. apply sorted_by_In in Hr'. apply in_map_iff in Hr'.
    destruct Hr' as [n' [<- _]]. simpl in He. now subst n'. }
  rewrite <- Hd.
  pose proof (by_degree_sorted
                (map (fun n => {| entity := n;
                                  degree := score_get (degree_centrality G) n;
                                  betweenness := score_get (betweenness_centrality G) n;
                                  eigenvector :=
                                    score_get (match eigenvector_centrality G 1000 with
                                               | Ok m => m
                                               | Raise _ => map (fun n => (n, 0%Q)) (nodes G)
                                               end) n;
                                  degree_raw := degree_of G n |})
                     (nodes G))) as Hs.
  fold (ranked_rows G) in Hs.
  rewrite <- (firstn_skipn k (ranked_rows G)) in Hs, Hr'.
  apply in_app_or in Hr'. destruct Hr' as [Hr'|Hr'].
  - exfalso. apply Hout, in_map_iff. exists r'. auto.
  - exact (StronglySorted_app_inv _ _ _ Hs _ _ Hr Hr').
Qed.

(** C8. On the graph without nodes the table is empty.  The table is
    returned whether the eigenvector computation raises or not, with
    [min(N, len(G))] records, at most 15 by default; when it raises, the
    eigenvector score of every record is 0, and with [N >= len(G)] every
    node has its record with the score 0.  The records are records of
    nodes, with the scores of their node, in descending order of degree
    centrality; the table begins the table of all the nodes, which has
    one record per node; and no node that is left out has a higher degree
    centrality than a node of the table. *)
Theorem centrality_table :
  forall G : Graph,
    (order G = 0 -> forall top_n, top_centralities_table G top_n = [])
    /\ (forall e top_n,
          eigenvector_centrality G 1000 = Raise e ->
          Forall (fun r => eigenvector r = 0%Q) (top_centralities_table G top_n))
    /\ (forall e (N : nat),
          eigenvector_centrality G 1000 = Raise e ->
          order G <= N ->
          Permutation (map (fun r => (entity r, eigenvector r))
                           (top_centralities_table G (Z.of_nat N)))
                      (map (fun n => (n, 0%Q)) (nodes G)))
    /\ (forall N : nat,
          length (top_centralities_table G (Z.of_nat N)) = Nat.min N (order G))
    /\ length (top_centralities_table G default_top_n) = Nat.min 15 (order G)
    /\ (forall top_n,
          StronglySorted (fun r1 r2 => (degree r2 <= degree r1)%Q)
            (top_centralities_table G top_n))
    /\ (forall top_n r,
          In r (top_centralities_table G top_n) ->
          In (entity r) (nodes G)
          /\ degree r = score_get (degree_centrality G) (entity r)
          /\ betweenness r = score_get (betweenness_centrality G) (entity r)
          /\ (forall m, eigenvector_centrality G 1000 = Ok m ->
                        eigenvector r = score_get m (entity r))
          /\ degree_raw r = degree_of G (entity r))
    /\ (forall N : nat,
          order G <= N ->
          Permutation (map entity (top_centralities_table G (Z.of_nat N))) (nodes G))
    /\ (forall top_n,
          exists rest,
            top_centralities_table G (Z.of_nat (order G))
            = top_centralities_table G top_n ++ rest)
    /\ (forall top_n r n,
          In r (top_centralities_table G top_n) ->
          In n (nodes G) ->
          ~ In n (map entity (top_centralities_table G top_n)) ->
          (score_get (degree_centrality G) n <= degree r)%Q).
Proof.
  intro G.
  assert (Hlen : forall N : nat,
             length (top_centralities_table G (Z.of_nat N)) = Nat.min N (order G)).
  { intro N. now rewrite table_ranked, slice_to_nat_length, ranked_rows_length. }
  assert (Hzero : forall e top_n,
             eigenvector_centrality G 1000 = Raise e ->
             Forall (fun r => eigenvector r = 0%Q) (top_centralities_table G top_n)).
  { intros e top_n He. apply Forall_forall. intros r Hr.
    destruct (table_rows _ _ _ Hr) as [n (_ & _ & _ & _ & Hev & _)].
    rewrite Hev, He. apply score_get_zeros. }
  assert (Hall : forall N : nat,
             order G <= N ->
             Permutation (map entity (top_centralities_table G (Z.of_nat N))) (nodes G)).
  { intros N HN. rewrite table_ranked, slice_to_all.
    - apply ranked_rows_entities.
    - rewrite ranked_rows_length. lia. }
  split; [|split; [|split; [|split; [|split; [|split; [|split; [|split; [|split]]]]]]]].
  - intros H0 top_n. unfold top_centralities_table. now rewrite H0.
  - exact Hzero.
  - intros e N He HN.
    apply perm_trans
      with (map (fun n => (n, 0%Q))
                (map entity (top_centralities_table G (Z.of_nat N))));
      [|apply Permutation_map, (Hall N HN)].
    rewrite map_map. specialize (Hzero e (Z.of_nat N) He).
    induction Hzero as [|r t Hr _ IH]; [apply perm_nil|].
    cbn [map]. rewrite Hr. now apply perm_skip.
  - exact Hlen.
  - exact (Hlen 15).
  - intro top_n. rewrite table_ranked. apply slice_to_sorted, by_degree_sorted.
  - intros top_n r Hr.
    destruct (table_rows _ _ _ Hr) as [n (Hn & <- & Hd & Hb & Hev & Hraw)].
    repeat split; auto. intros m Hm. now rewrite Hev, Hm.
  - exact Hall.
  - apply table_prefix.
  - apply left_out_not_higher.
Qed.

End RankerFacts.

(* ================================================================= *)
(** ** geo_module.py: the location aggregator *)

Section GeoFacts.
Import Pandas GeoModule.

(** The sum of [n_events] over the records. *)
Definition total_events (out : list LocationAggregate) : Z :=
  fold_right (fun a acc => (n_events a + acc)%Z) 0%Z out.

Definition sumZ {A : Type} (f : A -> Z) (l : list A) : Z :=
  fold_right (fun k acc => (f k + acc)%Z) 0%Z l.

Lemma sumZ_add {A : Type} (f g : A -> Z) (l : list A) :
  sumZ (fun k => (f k + g k)%Z) l = (sumZ f l + sumZ g l)%Z.
Proof. induction l as [|h t IH]; simpl; [reflexivity | rewrite IH; lia]. Qed.

Lemma sumZ_indicator (x : string) (l : list string) :
  NoDup l ->
  sumZ (fun k => if String.eqb x k then 1%Z else 0%Z) l
  = if existsb (String.eqb x) l then 1%Z else 0%Z.
Proof.
  induction l as [|h t IH]; simpl; intro Hn; [reflexivity|].
  inversion Hn as [|? ? Hh Ht]; subst. rewrite (IH Ht).
  destruct (String.eqb_spec x h) as [->|Hne]; simpl; [|reflexivity].
  destruct (existsb (String.eqb h) t) eqn:E; [|reflexivity].
  apply existsb_eqb_In in E. contradiction.
Qed.

(** The sizes of the groups of distinct keys add up to the number of rows
    that fall under one of the keys. *)
Lemma group_sizes (keys : list string) (rows : list (Row string)) :
  NoDup keys ->
  sumZ (fun k => Z.of_nat (length
          (filter (fun r => String.eqb (Pandas.event_location r) k) rows))) keys
  = Z.of_nat (length
      (filter (fun r => existsb (String.eqb (Pandas.event_location r)) keys) rows)).
Proof.
  intro Hn. induction rows as [|r t IH]; simpl.
  - induction keys as [|k ks IHk]; simpl; [reflexivity|].
    inversion Hn; subst. now rewrite IHk.
  - transitivity
      (sumZ (fun k => ((if String.eqb (Pandas.event_location r) k then 1 else 0)
                       + Z.of_nat (length (filter
                           (fun r0 => String.eqb (Pandas.event_location r0) k) t)))%Z)
            keys).
    + clear. induction keys as [|k ks IHk]; simpl; [reflexivity|].
      rewrite IHk. destruct (String.eqb _ k); simpl length; lia.
    + rewrite sumZ_add, IH, (sumZ_indicator _ _ Hn).
      destruct (existsb _ keys); simpl length; lia.
Qed.

Lemma group_keys_NoDup (l : list string) : NoDup (group_keys l).
Proof. apply sorted_by_NoDup, unique_NoDup. Qed.

Lemma group_keys_In (l : list string) (x : string) : In x (group_keys l) <-> In x l.
Proof. unfold group_keys, py_sorted. rewrite sorted_by_In. apply unique_In. Qed.

(** The claim as stated: one record per distinct non-empty location, and
    counts that add up to the number of rows with a non-empty location. *)
Definition records_of_nonempty_locations
    (rows : list (Row string)) (out : list LocationAggregate) : Prop :=
  NoDup (map event_location out)
  /\ (forall k, In k (map event_location out) <->
                k <> "" /\ In k (map Pandas.event_location rows))
  /\ total_events out
     = Z.of_nat (length (filter
         (fun r => negb (String.eqb (Pandas.event_location r) "")) rows)).

(** One event, held at an unknown place. *)
Definition nowhere : list (Row string) :=
  [ {| event_title := "talks"; Pandas.event_location := "";
       date := Some {| year := 2021; month := 3; day := 5 |};
       entity_names := []; entity_tags := [];
       sentiment := 0%Q; event_types := []; raw := VNone |} ].

(** C2, as stated, fails on [nowhere]: the empty location has a record of
    its own, which counts the event. *)
Lemma empty_location_has_a_record :
  exists out,
    _aggregate_by_location (Frame Datetime64 nowhere) = Ok out
    /\ map event_location out = [""]
    /\ total_events out = 1%Z
    /\ ~ records_of_nonempty_locations nowhere out.
Proof.
  eexists. split; [reflexivity|]. split; [reflexivity|]. split; [reflexivity|].
  intros (_ & _ & Hsum). vm_compute in Hsum. discriminate.
Qed.

(** C2, amended. The aggregator returns one record per distinct location of
    the rows, the empty text included; each record counts the rows of its
    location, the counts add up to the number of rows, and the counts of
    the records with a non-empty location add up to the number of rows
    with a non-empty location. *)
Theorem one_record_per_location :
  forall (dt : dtype) (rows : list (Row string)),
  exists out,
    _aggregate_by_location (Frame dt rows) = Ok out
    /\ NoDup (map event_location out)
    /\ (forall k, In k (map event_location out) <->
                  In k (map Pandas.event_location rows))
    /\ (forall a, In a out ->
          n_events a = Z.of_nat (length (filter
            (fun r => String.eqb (Pandas.event_location r) (event_location a)) rows)))
    /\ total_events out = Z.of_nat (length rows)
    /\ total_events (filter (fun a => negb (String.eqb (event_location a) "")) out)
       = Z.of_nat (length (filter
           (fun r => negb (String.eqb (Pandas.event_location r) "")) rows)).
Proof.
  intros dt rows. eexists. split; [reflexivity|].
  set (keys := group_keys (map Pandas.event_location rows)).
  assert (Hn : NoDup keys) by apply group_keys_NoDup.
  assert (Hi : forall k, In k keys <-> In k (map Pandas.event_location rows))
    by (intro k; apply group_keys_In).
  rewrite map_map. simpl. rewrite map_id.
  split; [exact Hn|]. split; [exact Hi|]. split; [|split].
  - intros a Ha. apply in_map_iff in Ha. destruct Ha as [k [<- _]]. reflexivity.
  - transitivity (sumZ (fun k => Z.of_nat (length
        (filter (fun r => String.eqb (Pandas.event_location r) k) rows))) keys).
    + generalize keys. intro l. induction l as [|k ks IH]; simpl; [reflexivity|].
      now rewrite IH.
    + rewrite (group_sizes _ _ Hn). do 2 f_equal.
      apply forallb_filter_id. apply forallb_forall. intros r Hr.
      apply existsb_eqb_In, Hi, in_map, Hr.
  - set (keys' := filter (fun k => negb (String.eqb k "")) keys).
    transitivity (sumZ (fun k => Z.of_nat (length
        (filter (fun r => String.eqb (Pandas.event_location r) k) rows))) keys').
    + unfold keys'. generalize keys. intro l.
      induction l as [|k ks IH]; simpl; [reflexivity|].
      destruct (String.eqb k ""); simpl; now rewrite IH.
    + rewrite (group_sizes keys' rows) by (apply NoDup_filter, Hn).
      do 2 f_equal. apply filter_ext_in. intros r Hr.
      unfold keys'.
      destruct (String.eqb_spec (Pandas.event_location r) "") as [E|E]; simpl.
      * apply existsb_false_Forall, Forall_forall. intros k Hk.
        apply filter_In in Hk. destruct Hk as [_ Hk].
        rewrite E. destruct (String.eqb_spec "" k) as [<-|]; [discriminate | reflexivity].
      * apply existsb_eqb_In, filter_In. split.
        -- apply Hi, in_map, Hr.
        -- now apply negb_true_iff, String.eqb_neq.
Qed.

End GeoFacts.

(* ================================================================= *)
(** ** timeline_module.py: local peaks *)

Section PeakFacts.
Import TimelineModule.

Lemma set_nth_length {A : Type} (i : nat) (v : A) (l : list A) :
  length (set_nth i v l) = length l.
Proof.
  revert i. induction l as [|h t IH]; intros [|i]; simpl; auto.
Qed.

Lemma set_nth_nth {A : Type} (i j : nat) (v d : A) (l : list A) :
  nth j (set_nth i v l) d
  = if (i =? j) && (i <? length l) then v else nth j l d.
Proof.
  revert i j. induction l as [|h t IH]; intros [|i] [|j]; simpl; auto;
    try (now rewrite andb_false_r); try (now rewrite IH).
Qed.

(** The loop of [mark_local_peaks], for a test [peak] on the index. *)
Lemma flags_loop (peak : nat -> bool) (indices : list nat) :
  forall (flags : list bool) (j : nat),
    nth j (fold_left (fun fl i => if peak i then set_nth i true fl else fl)
                     indices flags) false
    = (existsb (fun i => (i =? j) && peak i) indices && (j <? length flags))
      || nth j flags false.
Proof.
  induction indices as [|i t IH]; simpl; intros flags j; [reflexivity|].
  rewrite IH. destruct (peak i) eqn:Ep.
  - rewrite set_nth_length, set_nth_nth.
    destruct (Nat.eqb_spec i j) as [->|Hne]; simpl; [|reflexivity].
    destruct (Nat.ltb_spec j (length flags)) as [Hl|Hl]; simpl.
    + apply orb_true_r.
    + now rewrite andb_false_r.
  - now rewrite andb_false_r.
Qed.

Lemma flags_loop_length (peak : nat -> bool) (indices : list nat) :
  forall flags : list bool,
    length (fold_left (fun fl i => if peak i then set_nth i true fl else fl)
                      indices flags) = length flags.
Proof.
  induction indices as [|i t IH]; simpl; intro flags; [reflexivity|].
  rewrite IH. destruct (peak i); [apply set_nth_length | reflexivity].
Qed.

Lemma existsb_seq_at (f : nat -> bool) (j start len : nat) :
  existsb (fun i => (i =? j) && f i) (seq start len)
  = (start <=? j) && (j <? start + len) && f j.
Proof.
  revert start. induction len as [|n IH]; intro start; cbn [seq existsb].
  - destruct (Nat.leb_spec start j), (Nat.ltb_spec j (start + 0));
      cbn [andb]; auto; lia.
  - rewrite IH. destruct (Nat.eqb_spec start j) as [->|Hne]; cbn [andb orb].
    + destruct (Nat.leb_spec j j), (Nat.ltb_spec j (j + S n)); try lia.
      cbn [andb]. destruct (f j); cbn [orb]; [reflexivity|].
      now rewrite andb_false_r.
    + destruct (Nat.leb_spec (S start) j), (Nat.leb_spec start j),
        (Nat.ltb_spec j (S start + n)), (Nat.ltb_spec j (start + S n));
        cbn [andb]; auto; lia.
Qed.

Lemma Qgt_bool_iff (a b : Q) : Qgt_bool a b = true <-> (b < a)%Q.
Proof.
  unfold Qgt_bool. rewrite negb_true_iff. split.
  - intro E. apply Qnot_le_lt. intro C. apply Qle_bool_iff in C. congruence.
  - intro Hlt. destruct (Qle_bool a b) eqn:E; [|reflexivity].
    apply Qle_bool_iff in E. exfalso. exact (Qlt_not_le _ _ Hlt E).
Qed.

(** The column of flags [mark_local_peaks] adds. *)
Definition is_peak_column {A : Type} (df : list A) (y : A -> Q) : list bool :=
  map snd (mark_local_peaks df y).

(** C10. The frame keeps its rows; the point at position [i] is flagged
    exactly when it has a predecessor and a successor and its value is
    strictly greater than both; the first and the last point are not
    flagged; and a series that never decreases has no flagged point. *)
Theorem local_peaks :
  forall (A : Type) (df : list A) (y : A -> Q),
    let col := map y df in
    map fst (mark_local_peaks df y) = df
    /\ length (is_peak_column df y) = length df
    /\ (forall i,
          nth i (is_peak_column df y) false = true <->
          1 <= i /\ i + 1 < length df
          /\ (nth (i - 1) col 0 < nth i col 0)%Q
          /\ (nth (i + 1) col 0 < nth i col 0)%Q)
    /\ nth 0 (is_peak_column df y) false = false
    /\ nth (length df - 1) (is_peak_column df y) false = false
    /\ ((forall i, i + 1 < length df -> (nth i col 0 <= nth (i + 1) col 0)%Q) ->
        Forall (fun flag => flag = false) (is_peak_column df y)).
Proof.
  intros A df y col.
  set (peak := fun i => Qgt_bool (nth i col 0%Q) (nth (i - 1) col 0%Q)
                        && Qgt_bool (nth i col 0%Q) (nth (i + 1) col 0%Q)).
  set (flags := fold_left (fun fl i => if peak i then set_nth i true fl else fl)
                          (seq 1 (length df - 2)) (repeat false (length df))).
  assert (Hlen : length flags = length df).
  { unfold flags. rewrite flags_loop_length. apply repeat_length. }
  assert (Hmark : mark_local_peaks df y = combine df flags) by reflexivity.
  assert (Hcol : is_peak_column df y = flags).
  { unfold is_peak_column. rewrite Hmark.
    clear Hmark. revert Hlen. generalize flags. clear.
    induction df as [|h t IH]; intros [|f fl] Hl; simpl in *; try discriminate; auto.
    f_equal. apply IH. lia. }
  assert (Hiff : forall i,
             nth i flags false = true <->
             1 <= i /\ i + 1 < length df
             /\ (nth (i - 1) col 0 < nth i col 0)%Q
             /\ (nth (i + 1) col 0 < nth i col 0)%Q).
  { intro i. unfold flags. rewrite flags_loop, existsb_seq_at, repeat_length.
    assert (Hd : nth i (repeat false (length df)) false = false).
    { destruct (nth_in_or_default i (repeat false (length df)) false) as [Hin|E];
        [apply repeat_spec in Hin; exact Hin | exact E]. }
    rewrite Hd, orb_false_r. unfold peak.
    rewrite !andb_true_iff, !Qgt_bool_iff, Nat.leb_le, !Nat.ltb_lt.
    split; intros Hp; decompose [and] Hp; repeat split; auto; lia. }
  rewrite Hcol. split; [|split; [exact Hlen | split; [exact Hiff | split; [|split]]]].
  - rewrite Hmark. clear Hmark Hcol Hiff. revert Hlen. generalize flags. clear.
    induction df as [|h t IH]; intros [|f fl] Hl; simpl in *; try discriminate; auto.
    f_equal. apply IH. lia.
  - destruct (nth 0 flags false) eqn:E; [|reflexivity]. apply Hiff in E. lia.
  - destruct (nth (length df - 1) flags false) eqn:E; [|reflexivity].
    apply Hiff in E. lia.
  - intro Hmono. apply Forall_forall. intros flag Hin.
    destruct flag; [|reflexivity]. exfalso.
    apply (In_nth _ _ false) in Hin. destruct Hin as [i [_ E]].
    apply Hiff in E. destruct E as (_ & Hi & _ & Hgt).
    exact (Qlt_not_le _ _ Hgt (Hmono i Hi)).
Qed.

End PeakFacts.

(* ================================================================= *)
(** ** timeline_module.py: the series *)

Section TimelineFacts.
Import Pandas TimelineModule.
Context `{PeriodLib} `{SortValues}.

(** The labels of the rows, with their repetitions. *)
Definition all_labels (rows : list (Row string)) : list string :=
  concat (map event_types rows).

(** The number of occurrences of a label over the whole collection. *)
Definition total_count (rows : list (Row string)) (l : string) : Z :=
  Z.of_nat (count_occ string_dec (all_labels rows) l).

(** The distinct labels of a type series. *)
Definition series_labels (series : list ((datetime * string) * Z)) : list string :=
  unique string_dec (map (fun e => snd (fst e)) series).

Lemma explode_types_labels (f : Row string -> option datetime) (rows : list (Row string)) :
  map snd (explode_types (map (fun r => (r, f r)) rows)) = all_labels rows.
Proof.
  unfold explode_types, all_labels.
  induction rows as [|r t IH]; simpl; [reflexivity|].
  rewrite map_app, map_map, IH. simpl. now rewrite map_id.
Qed.

Lemma explode_types_In (f : Row string -> option datetime) (rows : list (Row string))
    (o : option datetime) (l : string) :
  In (o, l) (explode_types (map (fun r => (r, f r)) rows)) <->
  exists r, In r rows /\ o = f r /\ In l (event_types r).
Proof.
  unfold explode_types. rewrite in_flat_map. split.
  - intros [[r o'] [Hr Hin]]. apply in_map_iff in Hr.
    destruct Hr as [r0 [E Hr0]]. inversion E; subst. simpl in Hin.
    apply in_map_iff in Hin. destruct Hin as [t [E' Ht]]. inversion E'; subst. eauto.
  - intros [r (Hr & -> & Hl)]. exists (r, f r). split.
    + apply in_map_iff. eauto.
    + simpl. apply in_map_iff. eauto.
Qed.

Lemma all_labels_In (rows : list (Row string)) (l : string) :
  In l (all_labels rows) <-> exists r, In r rows /\ In l (event_types r).
Proof.
  unfold all_labels. rewrite in_concat. split.
  - intros [ls [Hls Hl]]. apply in_map_iff in Hls. destruct Hls as [r [<- Hr]]. eauto.
  - intros [r [Hr Hl]]. exists (event_types r). split; [now apply in_map | exact Hl].
Qed.

Lemma value_counts_In (labels : list string) (v : string) (c : Z) :
  In (v, c) (value_counts labels) <->
  In v labels /\ c = Z.of_nat (count_occ string_dec labels v).
Proof.
  unfold value_counts. split.
  - intro Hin. apply (Permutation_in _ (sort_counts_perm _)) in Hin.
    apply in_map_iff in Hin. destruct Hin as [v' [E Hv]]. inversion E; subst.
    split; [now apply (unique_In string_dec) | reflexivity].
  - intros [Hv ->]. apply (Permutation_in _ (Permutation_sym (sort_counts_perm _))).
    apply in_map_iff. exists v. split; [reflexivity | now apply unique_In].
Qed.

Lemma value_counts_keys (labels : list string) :
  Permutation (map fst (value_counts labels)) (unique string_dec labels).
Proof.
  unfold value_counts.
  eapply perm_trans; [apply Permutation_map, sort_counts_perm|].
  rewrite map_map. simpl. rewrite map_id. apply Permutation_refl.
Qed.

Lemma NoDup_firstn {A : Type} (n : nat) (l : list A) : NoDup l -> NoDup (firstn n l).
Proof.
  intro Hn. rewrite <- (firstn_skipn n l) in Hn. now apply NoDup_app_remove_r in Hn.
Qed.

(** With every row dated, the labels of the type series are the labels
    that [value_counts().head(top_k)] keeps. *)
Lemma kept_labels (rows : list (Row string)) (top_k : Z) (g : string) :
  Forall (fun r => has_date r = true) rows ->
  exists series,
    type_frequencies (Frame Datetime64 rows) top_k g = Ok series
    /\ forall l, In l (map (fun e => snd (fst e)) series) <->
                 In l (map fst (slice_to top_k (value_counts (all_labels rows)))).
Proof.
  intro Hd. eexists. split; [reflexivity|]. intro l.
  rewrite map_map. cbn [fst snd].
  rewrite explode_types_labels.
  set (top := map fst (slice_to top_k (value_counts (all_labels rows)))).
  set (ex := explode_types _).
  rewrite in_map_iff. split.
  - intros [[p l'] [E Hin]]. simpl in E. subst l'.
    apply sorted_by_In, unique_In, in_flat_map in Hin.
    destruct Hin as [[o l'] [Hf Hin]]. apply filter_In in Hf.
    destruct Hf as [_ Ht]. simpl in *.
    destruct o as [q|]; [|contradiction].
    destruct Hin as [E|[]]. inversion E; subst. now apply existsb_eqb_In.
  - intro Hl.
    assert (Hlab : In l (all_labels rows)).
    { unfold top in Hl. apply in_map_iff in Hl. destruct Hl as [[v c] [E Hv]].
      simpl in E. subst v. apply slice_to_incl in Hv.
      now apply value_counts_In in Hv. }
    apply all_labels_In in Hlab. destruct Hlab as [r [Hr Hlr]].
    rewrite Forall_forall in Hd. specialize (Hd r Hr). unfold has_date in Hd.
    destruct (date r) as [d|] eqn:Ed; [|discriminate].
    exists (to_period_start g d, l). split; [reflexivity|].
    apply sorted_by_In, unique_In, in_flat_map.
    exists (Some (to_period_start g d), l). split; [|simpl; auto].
    apply filter_In. split.
    + unfold ex. apply explode_types_In. exists r. rewrite Ed. auto.
    + simpl. now apply existsb_eqb_In.
Qed.

(** C9. With every row dated and more than 10 distinct labels, the type
    series has exactly 10 distinct labels; each occurs in the collection,
    and none of the labels left out occurs more often, over the whole
    collection, than one that is kept. *)
Theorem top_ten_types :
  forall (rows : list (Row string)) (g : string),
    Forall (fun r => has_date r = true) rows ->
    10 < length (unique string_dec (all_labels rows)) ->
    exists series,
      type_frequencies (Frame Datetime64 rows) default_top_k g = Ok series
      /\ length (series_labels series) = 10
      /\ (forall l, In l (series_labels series) -> In l (all_labels rows))
      /\ (forall l l',
            In l (series_labels series) ->
            In l' (all_labels rows) ->
            ~ In l' (series_labels series) ->
            (total_count rows l' <= total_count rows l)%Z).
Proof.
  intros rows g Hd Hmany.
  destruct (kept_labels rows default_top_k g Hd) as [series [Hs Hk]].
  exists series. split; [exact Hs|].
  set (vc := value_counts (all_labels rows)) in *.
  assert (Hslice : slice_to default_top_k vc = firstn 10 vc) by reflexivity.
  rewrite Hslice in Hk.
  assert (Hkept : forall l, In l (series_labels series) <-> In l (map fst (firstn 10 vc))).
  { intro l. unfold series_labels. rewrite unique_In. apply Hk. }
  assert (Hkeys : NoDup (map fst vc)).
  { eapply Permutation_NoDup;
      [apply Permutation_sym, value_counts_keys | apply unique_NoDup]. }
  assert (Hlen : length vc = length (unique string_dec (all_labels rows))).
  { rewrite <- (length_map fst vc). apply Permutation_length, value_counts_keys. }
  split; [|split].
  - transitivity (length (map fst (firstn 10 vc))).
    + apply Permutation_length, NoDup_Permutation.
      * apply unique_NoDup.
      * rewrite <- firstn_map. now apply NoDup_firstn.
      * exact Hkept.
    + rewrite length_map, length_firstn. lia.
  - intros l Hl. apply Hkept in Hl. apply in_map_iff in Hl.
    destruct Hl as [[v c] [E Hv]]. simpl in E. subst v.
    apply In_firstn in Hv. now apply value_counts_In in Hv.
  - intros l l' Hl Hl' Hout.
    apply Hkept in Hl. apply in_map_iff in Hl. destruct Hl as [[v c] [E Hv]].
    simpl in E. subst v.
    assert (Hc : c = total_count rows l).
    { apply In_firstn in Hv. now apply value_counts_In in Hv. }
    assert (Hv' : In (l', total_count rows l') vc) by (now apply value_counts_In).
    rewrite <- (firstn_skipn 10 vc) in Hv'. apply in_app_or in Hv'.
    destruct Hv' as [Hv'|Hv'].
    + exfalso. apply Hout, Hkept, in_map_iff. exists (l', total_count rows l'). auto.
    + pose proof (sort_counts_desc
                    (map (fun v => (v, Z.of_nat (count_occ string_dec (all_labels rows) v)))
                         (unique string_dec (all_labels rows)))) as Hsorted.
      change (sort_counts _) with vc in Hsorted.
      rewrite <- (firstn_skipn 10 vc) in Hsorted.
      pose proof (StronglySorted_app_inv _ _ _ Hsorted _ _ Hv Hv') as Hle.
      simpl in Hle. now rewrite <- Hc.
Qed.

(** The series over a frame that has the columns, a [date] column of
    datetimes, and no row, are empty; the frame the normalizer returns
    when no event has a date keeps an [object] column, on which the [.dt]
    accessor raises. *)
Lemma series_of_no_rows (g : string) (k : Z) :
  frequency (Frame Datetime64 []) g = Ok []
  /\ avg_sentiment (Frame Datetime64 []) g = Ok []
  /\ type_frequencies (Frame Datetime64 []) k g = Ok []
  /\ frequency (Frame Object []) g = Raise AttributeError
  /\ frequency NoColumns g = Raise KeyError.
Proof.
  repeat split; reflexivity.
Qed.

End TimelineFacts.

(* ================================================================= *)
(** ** Concrete runs *)

Section Runs.
Import Instances Pandas.

(** *** The normalizer on four events *)

Definition summit : value :=
  VDict [("event_title", VStr "Summit");
         ("event_location", VStr "Paris");
         ("event_date_occured",
          VDict [("kind", VStr "single"); ("date", VStr "05/03/2021")]);
         ("entities", VList [VDict [("name", VStr "A"); ("tag", VStr "ORG")];
                             VDict [("name", VStr "B")]]);
         ("event_classifications",
          VDict [("Treaty", VList [VStr "Signing"; VStr "Unknown"])])].

Definition talks : value :=
  VDict [("event_title", VStr "Talks");
         ("event_date_occurred",
          VDict [("kind", VStr "range"); ("start", VStr "01/01/2020");
                 ("end", VStr "31/12/2020")])].

Definition rumour : value :=
  VDict [("event_title", VStr "Rumour");
         ("event_date_occured",
          VDict [("kind", VStr "approx"); ("date", VStr "05/03/2021")])].

Definition misdated : value :=
  VDict [("event_title", VStr "Misdated");
         ("event_date_occured",
          VDict [("kind", VStr "single"); ("date", VStr "31/02/2021")])].

Definition sample_events : value := VList [VList [summit; talks]; VList [rumour; misdated]].

Definition sample_taxonomy : value :=
  VDict [("Treaty", VDict [("Signing", VDict [("sentiment", VInt 2)]);
                           ("other", VDict [("sentiment", VInt 1)])])].

Definition sample_records : list (Row value) :=
  Eval vm_compute in
    match mapM (UtilsData.row_of_event sample_taxonomy)
               [summit; talks; rumour; misdated] with
    | Ok rows => rows
    | Raise _ => []
    end.

Example sample_dates :
  map date sample_records
  = [Some {| year := 2021; month := 3; day := 5 |};
     Some {| year := 2020; month := 12; day := 31 |};
     None; None].
Proof. reflexivity. Qed.

Example sample_sentiments :
  map sentiment sample_records = [(3 # 2)%Q; 0%Q; 0%Q; 0%Q].
Proof. reflexivity. Qed.

Lemma normalizer_date_resolution_witness :
  UtilsData.flatten_events sample_events = Ok [summit; talks; rumour; misdated]
  /\ mapM (UtilsData.row_of_event sample_taxonomy) [summit; talks; rumour; misdated]
     = Ok sample_records
  /\ sample_records <> []
  /\ exists df,
       UtilsData.build_dataframe sample_events sample_taxonomy = Ok df
       /\ iterrows df = filter has_date sample_records
       /\ len df <= 4
       /\ Forall (fun r => date r <> None) (iterrows df).
Proof.
  assert (H1 : UtilsData.flatten_events sample_events
               = Ok [summit; talks; rumour; misdated]) by reflexivity.
  assert (H2 : mapM (UtilsData.row_of_event sample_taxonomy)
                    [summit; talks; rumour; misdated] = Ok sample_records)
    by reflexivity.
  assert (H3 : sample_records <> []) by discriminate.
  split; [exact H1|]. split; [exact H2|]. split; [exact H3|].
  exact (proj2 (proj2 (proj2
    (normalizer_date_resolution sample_events sample_taxonomy _ _ H1 H2 H3)))).
Defined.

(** *** The graph of three events *)

Definition event (title location : string) (d : Z) (names types : list string)
    (s : Q) : Row string :=
  {| event_title := title; event_location := location;
     date := Some {| year := 2021; month := 3; day := d |};
     entity_names := names; entity_tags := [];
     sentiment := s; event_types := types; raw := VNone |}.

Definition three_events : list (Row string) :=
  [ event "e1" "Paris" 1 ["A"; "B"] ["x"] 1;
    event "e2" "" 2 ["A"; "B"] ["y"; "x"] 2;
    event "e3" "Paris" 9 ["A"; "C"] [] 3 ].

Definition three_graph : GraphModule.Graph :=
  Eval vm_compute in GraphModule.build_cooccurrence_graph (Frame Datetime64 three_events).

Definition edge_AB : GraphModule.EdgeData :=
  Eval vm_compute in
    match GraphModule.edge_lookup (GraphModule.edges three_graph) "A" "B" with
    | Some d => d
    | None => {| GraphModule.weight := 0; GraphModule.sentiments := [];
                 GraphModule.event_types := []; GraphModule.event_titles := [];
                 GraphModule.mean_sentiment := None |}
    end.

Example three_graph_nodes : GraphModule.nodes three_graph = ["A"; "B"; "C"].
Proof. reflexivity. Qed.

Example edge_AB_run :
  GraphModule.weight edge_AB = 2%Z
  /\ GraphModule.sentiments edge_AB = [1%Q; 2%Q]
  /\ GraphModule.event_types edge_AB = ["x"; "y"; "x"]
  /\ GraphModule.event_titles edge_AB = ["e1"; "e2"]
  /\ GraphModule.mean_sentiment edge_AB = Some (3 # 2)%Q.
Proof. repeat split; reflexivity. Qed.

Lemma edge_attributes_consistent_witness :
  In (("A", "B"), edge_AB)
     (GraphModule.edges (GraphModule.build_cooccurrence_graph (Frame Datetime64 three_events)))
  /\ "A" <> "B"
  /\ (1 <= GraphModule.weight edge_AB)%Z
  /\ GraphModule.weight edge_AB = Z.of_nat (length (GraphModule.sentiments edge_AB))
  /\ GraphModule.weight edge_AB = Z.of_nat (length (GraphModule.event_titles edge_AB))
  /\ exists m, GraphModule.mean_sentiment edge_AB = Some m
               /\ (m == arithmetic_mean (GraphModule.sentiments edge_AB))%Q.
Proof.
  assert (Hin : In (("A", "B"), edge_AB)
                   (GraphModule.edges
                      (GraphModule.build_cooccurrence_graph (Frame Datetime64 three_events))))
    by (left; reflexivity).
  split; [exact Hin|].
  exact (edge_attributes_consistent (Frame Datetime64 three_events) ("A", "B") edge_AB Hin).
Defined.

Lemma cooccurrence_weights_witness :
  map entity_names three_events = [["A"; "B"]; ["A"; "B"]; ["A"; "C"]]
  /\ (let G := GraphModule.build_cooccurrence_graph (Frame Datetime64 three_events) in
      NoDup (GraphModule.nodes G)
      /\ (forall n, In n (GraphModule.nodes G) <-> n = "A" \/ n = "B" \/ n = "C")
      /\ (exists d, GraphModule.edge_lookup (GraphModule.edges G) "A" "B" = Some d
                    /\ GraphModule.weight d = 2%Z)
      /\ (exists d, GraphModule.edge_lookup (GraphModule.edges G) "A" "C" = Some d
                    /\ GraphModule.weight d = 1%Z)
      /\ GraphModule.has_edge G "B" "C" = false)
  /\ GraphModule.weight edge_AB = cooccurrences "A" "B" three_events.
Proof.
  split; [reflexivity|]. split.
  - exact (proj2 cooccurrence_weights Datetime64 three_events eq_refl).
  - apply (proj1 cooccurrence_weights (Frame Datetime64 three_events) ("A", "B") edge_AB).
    left. reflexivity.
Defined.

(** *** The ranking of its nodes *)

Example ranking_run :
  map (fun r => (GraphModule.entity r, GraphModule.degree_raw r))
      (GraphModule.top_centralities_table three_graph 2)
  = [("A", 2%Z); ("B", 1%Z)].
Proof. reflexivity. Qed.

Lemma centrality_table_witness :
  GraphModule.order GraphModule.empty_graph = 0
  /\ GraphModule.top_centralities_table GraphModule.empty_graph GraphModule.default_top_n = []
  /\ GraphModule.eigenvector_centrality three_graph 1000 = Raise LibraryError
  /\ Forall (fun r => GraphModule.eigenvector r = 0%Q)
            (GraphModule.top_centralities_table three_graph GraphModule.default_top_n)
  /\ GraphModule.order three_graph <= 15
  /\ Permutation
       (map (fun r => (GraphModule.entity r, GraphModule.eigenvector r))
            (GraphModule.top_centralities_table three_graph (Z.of_nat 15)))
       (map (fun n => (n, 0%Q)) (GraphModule.nodes three_graph))
  /\ length (GraphModule.top_centralities_table three_graph (Z.of_nat 2)) = 2
  /\ In "C" (GraphModule.nodes three_graph)
  /\ ~ In "C" (map GraphModule.entity
                   (GraphModule.top_centralities_table three_graph 2))
  /\ forall r, In r (GraphModule.top_centralities_table three_graph 2) ->
               (GraphModule.score_get (GraphModule.degree_centrality three_graph) "C"
                <= GraphModule.degree r)%Q.
Proof.
  assert (Hraise : GraphModule.eigenvector_centrality three_graph 1000
                   = Raise LibraryError) by reflexivity.
  assert (Hle : GraphModule.order three_graph <= 15) by (vm_compute; lia).
  assert (HC : In "C" (GraphModule.nodes three_graph)) by (vm_compute; tauto).
  assert (Hout : ~ In "C" (map GraphModule.entity
                              (GraphModule.top_centralities_table three_graph 2))).
  { vm_compute. intros [C|[C|[]]]; discriminate. }
  split; [reflexivity|]. split; [|split; [exact Hraise|split; [|split; [exact Hle|]]]].
  - exact (proj1 (centrality_table GraphModule.empty_graph) eq_refl _).
  - exact (proj1 (proj2 (centrality_table three_graph)) LibraryError _ Hraise).
  - split; [|split; [|split; [exact HC|split; [exact Hout|]]]].
    + exact (proj1 (proj2 (proj2 (centrality_table three_graph))) LibraryError 15 Hraise Hle).
    + exact (proj1 (proj2 (proj2 (proj2 (centrality_table three_graph)))) 2).
    + intros r Hr.
      exact (proj2 (proj2 (proj2 (proj2 (proj2 (proj2 (proj2 (proj2 (proj2
               (centrality_table three_graph)))))))))
               2%Z r "C" Hr HC Hout).
Defined.

(** *** Locations *)

Example aggregate_run :
  match GeoModule._aggregate_by_location (Frame Datetime64 three_events) with
  | Ok out => map (fun a => (GeoModule.event_location a, GeoModule.n_events a,
                             GeoModule.top_types a)) out
              = [("", 1%Z, "x, y"); ("Paris", 2%Z, "x")]
  | Raise _ => False
  end.
Proof. reflexivity. Qed.

(** *** Series *)

Definition twelve_labels : list string :=
  ["t01"; "t02"; "t03"; "t04"; "t05"; "t06"; "t07"; "t08"; "t09"; "t10"; "t11"; "t12"].

(** Twelve events; the label at position [i] is carried by the first [i + 1]
    of them, so that ["t12"] occurs once and ["t01"] twelve times. *)
Definition twelve_events : list (Row string) :=
  map (fun i => event "e" "Paris" (Z.of_nat (S i)) [] (skipn i twelve_labels) 0)
      (seq 0 12).

Example type_series_run :
  match TimelineModule.type_frequencies (Frame Datetime64 twelve_events)
          TimelineModule.default_top_k "M" with
  | Ok series => series_labels series
                 = ["t03"; "t04"; "t05"; "t06"; "t07"; "t08"; "t09"; "t10"; "t11"; "t12"]
  | Raise _ => False
  end.
Proof. reflexivity. Qed.

Lemma top_ten_types_witness :
  Forall (fun r => has_date r = true) twelve_events
  /\ 10 < length (unique string_dec (all_labels twelve_events))
  /\ exists series,
       TimelineModule.type_frequencies (Frame Datetime64 twelve_events)
         TimelineModule.default_top_k "M" = Ok series
       /\ length (series_labels series) = 10.
Proof.
  assert (H1 : Forall (fun r => has_date r = true) twelve_events)
    by (repeat constructor).
  assert (H2 : 10 < length (unique string_dec (all_labels twelve_events)))
    by (apply Nat.ltb_lt; reflexivity).
  split; [exact H1|]. split; [exact H2|].
  destruct (top_ten_types twelve_events "M" H1 H2) as [series (Hs & Hl & _)].
  exists series. split; [exact Hs | exact Hl].
Defined.

Example frequency_run :
  TimelineModule.frequency (Frame Datetime64 three_events) "M"
  = Ok [({| year := 2021; month := 3; day := 1 |}, 3%Z)].
Proof. reflexivity. Qed.

Example peaks_run :
  is_peak_column [1; 3; 2; 2; 5; 1]%Q (fun v => v)
  = [false; true; false; false; true; false].
Proof. reflexivity. Qed.

Lemma local_peaks_witness :
  (forall i, i + 1 < length [1; 2; 3]%Q ->
             (nth i [1; 2; 3] 0 <= nth (i + 1) [1; 2; 3] 0)%Q)
  /\ Forall (fun flag => flag = false) (is_peak_column [1; 2; 3]%Q (fun v => v))
  /\ nth 1 (is_peak_column [1; 3; 2]%Q (fun v => v)) false = true.
Proof.
  assert (Hmono : forall i, i + 1 < length [1; 2; 3]%Q ->
                            (nth i [1; 2; 3] 0 <= nth (i + 1) [1; 2; 3] 0)%Q).
  { intros [|[|i]] Hi; simpl in *; try discriminate; lia. }
  split; [exact Hmono|]. split.
  - exact (proj2 (proj2 (proj2 (proj2 (proj2
      (local_peaks Q [1; 2; 3]%Q (fun v => v)))))) Hmono).
  - apply (proj1 (proj2 (proj2 (local_peaks Q [1; 3; 2]%Q (fun v => v))))).
    repeat split; simpl; lia.
Defined.

End Runs.

(* ================================================================= *)
(** ** graph_module.py: more on the graph the builder returns *)

Section BuilderAccumulators.
Import Pandas GraphModule.
Context `{SetOrder}.

(** The rows that list both names, in the order of the frame. *)
Definition rows_with (a b : string) (rows : list (Row string)) : list (Row string) :=
  filter (both_in a b) rows.

(** What the accumulated lists of an edge hold after the rows [done]. *)
Definition accumulated (G : Graph) (done : list (Row string)) : Prop :=
  forall x y, x <> y ->
    match edge_lookup (edges G) x y with
    | Some d =>
        sentiments d = map sentiment (rows_with x y done)
        /\ event_titles d = map event_title (rows_with x y done)
        /\ event_types d = concat (map Pandas.event_types (rows_with x y done))
    | None => True
    end.

Lemma rows_with_snoc (x y : string) (done : list (Row string)) (r : Row string) :
  rows_with x y (done ++ [r])
  = rows_with x y done ++ (if both_in x y r then [r] else []).
Proof.
  unfold rows_with. rewrite filter_app. simpl. now destruct (both_in x y r).
Qed.

Lemma accumulated_step (G : Graph) (done : list (Row string)) (r : Row string) :
  invariant G done -> accumulated G done -> accumulated (add_row G r) (done ++ [r]).
Proof.
  intros (_ & _ & _ & _ & Hw) Ha x y Hne.
  rewrite (add_row_lookup _ _ _ _ Hne), rows_with_snoc.
  specialize (Hw x y Hne). specialize (Ha x y Hne).
  destruct (both_in x y r); destruct (edge_lookup (edges G) x y) as [d|]; simpl.
  - destruct Ha as (Hs & Ht & Hy). rewrite Hs, Ht, Hy.
    rewrite !map_app, concat_app. simpl. now rewrite app_nil_r.
  - unfold cooccurrences in Hw.
    assert (E : rows_with x y done = []).
    { unfold rows_with. destruct (filter (both_in x y) done); [reflexivity|].
      simpl in Hw. lia. }
    rewrite E. simpl. now rewrite app_nil_r.
  - now rewrite !app_nil_r.
  - exact I.
Qed.

Lemma accumulated_fold (rest : list (Row string)) :
  forall (G : Graph) (done : list (Row string)),
    invariant G done -> accumulated G done ->
    accumulated (fold_left add_row rest G) (done ++ rest).
Proof.
  induction rest as [|r t IH]; simpl; intros G done Hi Ha.
  - now rewrite app_nil_r.
  - replace (done ++ r :: t) with ((done ++ [r]) ++ t)
      by (rewrite <- app_assoc; reflexivity).
    apply IH; [now apply invariant_step | now apply accumulated_step].
Qed.

Lemma builder_accumulated (df : DataFrame string) :
  accumulated (fold_left add_row (iterrows df) empty_graph) (iterrows df).
Proof.
  apply (accumulated_fold (iterrows df) empty_graph []); [apply invariant_empty|].
  intros x y _. exact I.
Qed.

(** Each edge carries, in the order of the rows, the sentiments and the
    titles of the rows that list both of its endpoints, and their event
    types one row after the other. *)
Theorem edge_accumulators :
  forall (df : DataFrame string) (uv : string * string) (d : EdgeData),
    In (uv, d) (edges (build_cooccurrence_graph df)) ->
    sentiments d = map sentiment (rows_with (fst uv) (snd uv) (iterrows df))
    /\ event_titles d = map event_title (rows_with (fst uv) (snd uv) (iterrows df))
    /\ event_types d
       = concat (map Pandas.event_types (rows_with (fst uv) (snd uv) (iterrows df))).
Proof.
  intros df uv d Hin.
  destruct (built_edge _ _ _ Hin) as [d0 [Hin0 ->]].
  destruct (builder_invariant df) as (_ & _ & Hk & Hok & _).
  rewrite Forall_forall in Hok. destruct (Hok _ Hin0) as (Hd & _). simpl in Hd.
  pose proof (builder_accumulated df _ _ Hd) as Ha.
  rewrite (keys_unique_lookup _ Hk _ _ Hin0) in Ha. exact Ha.
Qed.

Lemma edge_lookup_Some_In (es : list ((string * string) * EdgeData))
    (x y : string) (d : EdgeData) :
  edge_lookup es x y = Some d ->
  exists uv, In (uv, d) es /\ same_edge x y uv = true.
Proof.
  induction es as [|[uv0 d0] t IH]; simpl; [discriminate|].
  destruct (same_edge x y uv0) eqn:E.
  - intro E'. inversion E'; subst. exists uv0. auto.
  - intro E'. destruct (IH E') as [uv [Hin Hs]]. exists uv. auto.
Qed.

Lemma filter_nonempty {A : Type} (f : A -> bool) (l : list A) :
  (exists x, In x l /\ f x = true) <-> filter f l <> [].
Proof.
  split.
  - intros [x [Hx Hf]] E. assert (Hin : In x (filter f l)) by (now apply filter_In).
    rewrite E in Hin. contradiction.
  - destruct (filter f l) as [|x t] eqn:E; [congruence|]. intros _.
    assert (Hin : In x (filter f l)) by (rewrite E; now left).
    apply filter_In in Hin. eauto.
Qed.

Lemma built_no_self_loop (df : DataFrame string) (x : string) :
  edge_lookup (edges (build_cooccurrence_graph df)) x x = None.
Proof.
  destruct (builder_invariant df) as (_ & _ & _ & Hok & _).
  rewrite built_lookup.
  destruct (edge_lookup _ x x) as [d|] eqn:E; [|reflexivity].
  apply edge_lookup_Some_In in E. destruct E as [uv [Hin Hs]].
  rewrite Forall_forall in Hok. destruct (Hok _ Hin) as (Hd & _). simpl in Hd.
  apply same_edge_iff in Hs. exfalso. destruct Hs as [[-> E]|[-> E]]; congruence.
Qed.

(** Two distinct names are joined exactly when some row lists both; being
    joined does not depend on the order of the two names; and no name is
    joined to itself. *)
Theorem edge_iff_cooccur :
  forall (df : DataFrame string) (x y : string),
    has_edge (build_cooccurrence_graph df) x y
    = has_edge (build_cooccurrence_graph df) y x
    /\ has_edge (build_cooccurrence_graph df) x x = false
    /\ (x <> y ->
        (has_edge (build_cooccurrence_graph df) x y = true <->
         exists r, In r (iterrows df)
                   /\ In x (entity_names r) /\ In y (entity_names r))).
Proof.
  intros df x y.
  destruct (builder_invariant df) as (_ & _ & _ & Hok & Hw).
  unfold has_edge. rewrite !built_lookup.
  split; [|split].
  - rewrite (edge_lookup_congr _ x y y x); [reflexivity|].
    apply same_edge_iff. now right.
  - pose proof (built_no_self_loop df x) as E. rewrite built_lookup in E.
    now rewrite E.
  - intro Hne. specialize (Hw x y Hne).
    assert (Hex : (exists r, In r (iterrows df)
                             /\ In x (entity_names r) /\ In y (entity_names r))
                  <-> filter (both_in x y) (iterrows df) <> []).
    { rewrite <- filter_nonempty. split; intros [r Hr]; exists r.
      - unfold both_in. rewrite andb_true_iff, !existsb_eqb_In. tauto.
      - unfold both_in in Hr. rewrite andb_true_iff, !existsb_eqb_In in Hr. tauto. }
    rewrite Hex. unfold cooccurrences in Hw.
    destruct (edge_lookup _ x y) as [d|]; simpl.
    + split; [|reflexivity]. intros _ E. rewrite E in Hw. simpl in Hw. lia.
    + split; [discriminate|]. intro Hn.
      destruct (filter (both_in x y) (iterrows df)); [congruence | simpl in Hw; lia].
Qed.

Lemma built_wf (df : DataFrame string) :
  let G := build_cooccurrence_graph df in
  NoDup (nodes G)
  /\ keys_unique (edges G)
  /\ forall uv d, In (uv, d) (edges G) ->
                  In (fst uv) (nodes G) /\ In (snd uv) (nodes G).
Proof.
  intros G.
  destruct (builder_invariant df) as (Hn & _ & Hk & Hok & Hw).
  split; [exact Hn|]. split; [now apply keys_unique_map|].
  intros uv d Hin.
  destruct (built_edge _ _ _ Hin) as [d0 [Hin0 _]].
  rewrite Forall_forall in Hok. destruct (Hok _ Hin0) as (Hd & _). simpl in Hd.
  specialize (Hw _ _ Hd). rewrite (keys_unique_lookup _ Hk _ _ Hin0) in Hw.
  destruct Hw as [Hw1 Hw2]. unfold cooccurrences in Hw1.
  destruct (filter (both_in (fst uv) (snd uv)) (iterrows df)) as [|r t] eqn:E;
    [simpl in Hw1; lia|].
  assert (Hr : In r (filter (both_in (fst uv) (snd uv)) (iterrows df)))
    by (rewrite E; now left).
  apply filter_In in Hr. destruct Hr as [Hr Hb].
  pose proof (both_in_long _ _ _ Hd Hb) as Hl.
  unfold both_in in Hb. rewrite andb_true_iff, !existsb_eqb_In in Hb.
  unfold G. rewrite !built_nodes. split; exists r; tauto.
Qed.

(** The returned graph is a simple graph: its nodes are distinct, the two
    endpoints of each edge are nodes, and no two entries of the edge store
    are about the same pair of names. *)
Theorem built_graph_simple :
  forall df : DataFrame string,
    let G := build_cooccurrence_graph df in
    NoDup (nodes G)
    /\ keys_unique (edges G)
    /\ forall uv d, In (uv, d) (edges G) ->
                    In (fst uv) (nodes G) /\ In (snd uv) (nodes G).
Proof. exact built_wf. Qed.

Lemma cooccurrences_perm (x y : string) (rows rows' : list (Row string)) :
  Permutation rows rows' -> cooccurrences x y rows = cooccurrences x y rows'.
Proof.
  intro Hp. unfold cooccurrences. f_equal.
  induction Hp; simpl; try (destruct (both_in x y x0)); simpl; try congruence.
  destruct (both_in x y x0), (both_in x y y0); reflexivity.
Qed.

(** The order of the rows decides neither the nodes nor the weights: two
    frames with the same rows in another order give graphs with the same
    nodes and, between any two names, the same weight. *)
Theorem weights_ignore_row_order :
  forall (dt dt' : dtype) (rows rows' : list (Row string)),
    Permutation rows rows' ->
    let G := build_cooccurrence_graph (Frame dt rows) in
    let G' := build_cooccurrence_graph (Frame dt' rows') in
    (forall n, In n (nodes G) <-> In n (nodes G'))
    /\ forall x y, option_map weight (edge_lookup (edges G) x y)
                   = option_map weight (edge_lookup (edges G') x y).
Proof.
  intros dt dt' rows rows' Hp G G'. split.
  - intro n. unfold G, G'. rewrite !built_nodes. simpl.
    split; intros [r (Hr & Hl)]; exists r; split; auto.
    + eapply Permutation_in; eauto.
    + eapply Permutation_in; [apply Permutation_sym|]; eauto.
  - intros x y. destruct (string_dec x y) as [->|Hne].
    + unfold G, G'. now rewrite !built_no_self_loop.
    + destruct (builder_invariant (Frame dt rows)) as (_ & _ & _ & _ & Hw).
      destruct (builder_invariant (Frame dt' rows')) as (_ & _ & _ & _ & Hw').
      specialize (Hw x y Hne). specialize (Hw' x y Hne). simpl iterrows in *.
      unfold G, G'. rewrite !built_lookup. simpl iterrows.
      rewrite (cooccurrences_perm x y _ _ Hp) in Hw.
      destruct (edge_lookup _ x y) as [d|], (edge_lookup _ x y) as [d'|]; simpl;
        try reflexivity; try (f_equal; lia); lia.
Qed.

End BuilderAccumulators.

Section Degrees.
Import Pandas GraphModule.
Context `{SetOrder}.

Lemma sumZ_ext {A : Type} (f g : A -> Z) (l : list A) :
  (forall x, In x l -> f x = g x) -> sumZ f l = sumZ g l.
Proof.
  induction l as [|h t IH]; simpl; intro Hfg; [reflexivity|].
  rewrite (Hfg h), IH; auto.
Qed.

Lemma sumZ_swap {A B : Type} (f : A -> B -> Z) (la : list A) (lb : list B) :
  sumZ (fun a => sumZ (f a) lb) la = sumZ (fun b => sumZ (fun a => f a b) la) lb.
Proof.
  induction lb as [|b t IH]; simpl.
  - induction la as [|a s IHa]; simpl; [reflexivity | now rewrite IHa].
  - rewrite sumZ_add, IH. reflexivity.
Qed.

Lemma sumZ_const {A : Type} (c : Z) (l : list A) :
  sumZ (fun _ => c) l = (c * Z.of_nat (length l))%Z.
Proof. induction l as [|h t IH]; simpl length; simpl sumZ; [lia | rewrite IH; lia]. Qed.

(** The endpoints of the entries that are [n]. *)
Definition ends_at (n : string) (e : (string * string) * EdgeData) : Z :=
  ((if String.eqb n (fst (fst e)) then 1 else 0)
   + (if String.eqb n (snd (fst e)) then 1 else 0))%Z.

Lemma degree_of_sum (G : Graph) (n : string) :
  degree_of G n = sumZ (ends_at n) (edges G).
Proof.
  unfold degree_of.
  assert (Hgen : forall es acc,
             fold_left (fun acc e =>
                          (acc + (if String.eqb n (fst (fst e)) then 1 else 0)
                               + (if String.eqb n (snd (fst e)) then 1 else 0))%Z)
                       es acc
             = (acc + sumZ (ends_at n) es)%Z).
  { induction es as [|e t IH]; simpl; intro acc; [lia|].
    rewrite IH. unfold ends_at. lia. }
  rewrite Hgen. lia.
Qed.

Lemma sumZ_indicator_flip (x : string) (l : list string) :
  NoDup l -> In x l ->
  sumZ (fun k => if String.eqb k x then 1%Z else 0%Z) l = 1%Z.
Proof.
  intros Hn Hx.
  rewrite (sumZ_ext _ (fun k => if String.eqb x k then 1%Z else 0%Z)).
  - rewrite (sumZ_indicator _ _ Hn).
    apply existsb_eqb_In in Hx. now rewrite Hx.
  - intros k _. now rewrite String.eqb_sym.
Qed.

(** The degrees of the nodes add up to twice the number of edges. *)
Theorem degrees_sum_to_twice_edges :
  forall df : DataFrame string,
    let G := build_cooccurrence_graph df in
    sumZ (degree_of G) (nodes G) = (2 * Z.of_nat (length (edges G)))%Z.
Proof.
  intros df G. destruct (built_wf df) as (Hn & _ & Hends). fold G in Hn, Hends.
  rewrite (sumZ_ext _ (fun n => sumZ (ends_at n) (edges G)))
    by (intros; apply degree_of_sum).
  rewrite sumZ_swap.
  rewrite (sumZ_ext _ (fun _ => 2%Z)); [apply sumZ_const|].
  intros [uv d] He. destruct (Hends _ _ He) as [Hu Hv].
  unfold ends_at. simpl fst. simpl snd. rewrite sumZ_add.
  rewrite (sumZ_indicator_flip _ _ Hn Hu), (sumZ_indicator_flip _ _ Hn Hv).
  reflexivity.
Qed.

End Degrees.

(* ================================================================= *)
(** ** graph_module.py: more on the ranking *)

Section RankerExtras.
Import Pandas GraphModule.
Context `{Networkx}.

(** The table has [min(N, len(G))] records for [N >= 0], and all but the
    last [-N] of the ranking for a negative [N]: it is the beginning, of
    that length, of the table of all the nodes.  Its entities are distinct
    nodes, and with [N >= len(G)] every node has its record. *)
Theorem table_size :
  forall (G : Graph) (top_n : Z),
    length (top_centralities_table G top_n)
    = Z.to_nat (if (top_n <? 0)%Z then Z.max 0 (Z.of_nat (order G) + top_n)
                else Z.min top_n (Z.of_nat (order G)))
    /\ (NoDup (nodes G) -> NoDup (map entity (top_centralities_table G top_n)))
    /\ ((Z.of_nat (order G) <= top_n)%Z ->
        Permutation (map entity (top_centralities_table G top_n)) (nodes G))
    /\ exists rest,
         top_centralities_table G (Z.of_nat (order G))
         = top_centralities_table G top_n ++ rest.
Proof.
  intros G top_n.
  assert (Hpre : exists rest,
             top_centralities_table G (Z.of_nat (order G))
             = top_centralities_table G top_n ++ rest) by apply table_prefix.
  revert Hpre. generalize (top_centralities_table G (Z.of_nat (order G))).
  intros full Hpre. rewrite table_ranked in *.
  assert (Hlen : length (ranked_rows G) = order G).
  { rewrite <- (length_map entity). apply Permutation_length, ranked_rows_entities. }
  split; [|split; [|split; [|exact Hpre]]].
  - rewrite slice_to_length, Hlen. reflexivity.
  - intro Hn.
    assert (Hr : NoDup (map entity (ranked_rows G))).
    { eapply Permutation_NoDup; [apply Permutation_sym, ranked_rows_entities | exact Hn]. }
    unfold slice_to. destruct (top_n <? 0)%Z; rewrite <- firstn_map;
      now apply NoDup_firstn.
  - intro Hall. rewrite slice_to_all by (rewrite Hlen; exact Hall).
    apply ranked_rows_entities.
Qed.

Lemma insert_by_degree_filter (q : Q) (x : CentralityRow) (s : list CentralityRow) :
  filter (fun r => Qeq_bool (degree r) q)
         (insert_sorted (fun x h => Qle_bool (degree h) (degree x)) x s)
  = filter (fun r => Qeq_bool (degree r) q) (x :: s).
Proof.
  induction s as [|h t IH]; [reflexivity|].
  cbn [insert_sorted]. destruct (Qle_bool (degree h) (degree x)) eqn:E; [reflexivity|].
  cbn [filter] in *. rewrite IH.
  destruct (Qeq_bool (degree x) q) eqn:Ex; [|reflexivity].
  destruct (Qeq_bool (degree h) q) eqn:Eh; [|reflexivity].
  apply Qeq_bool_iff in Ex, Eh.
  assert (C : Qle_bool (degree h) (degree x) = true).
  { apply Qle_bool_iff. rewrite Ex, Eh. apply Qle_refl. }
  congruence.
Qed.

Lemma sort_by_degree_stable (q : Q) (l : list CentralityRow) :
  filter (fun r => Qeq_bool (degree r) q)
         (sorted_by (fun x h => Qle_bool (degree h) (degree x)) l)
  = filter (fun r => Qeq_bool (degree r) q) l.
Proof.
  induction l as [|x t IH]; [reflexivity|].
  cbn [sorted_by fold_right]. rewrite insert_by_degree_filter.
  cbn [filter]. fold (sorted_by (fun x h => Qle_bool (degree h) (degree x)) t).
  now rewrite IH.
Qed.

Lemma filter_records (mk : string -> CentralityRow) (f : Q -> bool) (l : list string) :
  (forall n, entity (mk n) = n) ->
  map entity (filter (fun r => f (degree r)) (map mk l))
  = filter (fun n => f (degree (mk n))) l.
Proof.
  intro He. induction l as [|n t IH]; [reflexivity|].
  cbn [map filter]. destruct (f (degree (mk n))); cbn [map];
    now rewrite ?He, IH.
Qed.

(** Ties keep the order of the nodes: for each score, the entities of the
    table with that degree centrality are, in the same order, the first of
    the nodes with that score. *)
Theorem ties_keep_node_order :
  forall (G : Graph) (top_n : Z) (q : Q),
  exists rest,
    filter (fun n => Qeq_bool (score_get (degree_centrality G) n) q) (nodes G)
    = map entity (filter (fun r => Qeq_bool (degree r) q)
                         (top_centralities_table G top_n))
      ++ rest.
Proof.
  intros G top_n q. rewrite table_ranked.
  set (p := fun r => Qeq_bool (degree r) q).
  assert (Hall : map entity (filter p (ranked_rows G))
                 = filter (fun n => Qeq_bool (score_get (degree_centrality G) n) q)
                          (nodes G)).
  { unfold ranked_rows, p. rewrite sort_by_degree_stable.
    match goal with
    | |- map entity (filter _ (map ?mk ?l)) = _ =>
        exact (filter_records mk (fun d => Qeq_bool d q) l (fun n => eq_refl))
    end. }
  rewrite <- Hall.
  assert (Hpre : forall k, exists rest,
             map entity (filter p (ranked_rows G))
             = map entity (filter p (firstn k (ranked_rows G))) ++ rest).
  { intro k. exists (map entity (filter p (skipn k (ranked_rows G)))).
    rewrite <- map_app, <- filter_app, firstn_skipn. reflexivity. }
  unfold slice_to. destruct (top_n <? 0)%Z; apply Hpre.
Qed.

End RankerExtras.

(* ================================================================= *)
(** ** utils_data.py: more on the resolver and the normalizer *)

Section UtilsExtras.
Import Pandas UtilsData.
Context `{Builtins} `{DatetimeLib}.

(** A record whose [sentiment], when it has one, is a number. *)
Definition numeric (rec : list (string * value)) : Prop :=
  match dict_get rec "sentiment" with
  | None | Some (VInt _) | Some (VFloat _) | Some (VBool _) => True
  | Some _ => False
  end.

(** The number [float] makes of the [sentiment] of such a record. *)
Definition sentiment_of (rec : list (string * value)) : Q :=
  match dict_get rec "sentiment" with
  | Some (VInt z) => inject_Z z
  | Some (VFloat q) => q
  | Some (VBool true) => 1%Q
  | _ => 0%Q
  end.

(** The entry the resolver reads for the pair is well formed: the entry of
    the label is a numeric record, or there is none and what stands under
    ["other"], if it is a record, is numeric. *)
Definition entry_ok (T : list (string * value)) (category label : string) : Prop :=
  match dict_get T category with
  | Some (VDict N) =>
      match dict_get N label with
      | Some (VDict R) => numeric R
      | Some _ => False
      | None => match dict_get N "other" with
                | Some (VDict Ot) => numeric Ot
                | _ => True
                end
      end
  | _ => True
  end.

(** The rule of the resolver: the exact entry, else the entry under
    ["other"], else zero. *)
Definition resolved_sentiment (T : list (string * value)) (category label : string) : Q :=
  match dict_get T category with
  | Some (VDict N) =>
      match dict_get N label with
      | Some (VDict R) => sentiment_of R
      | Some _ => 0%Q
      | None => match dict_get N "other" with
                | Some (VDict Ot) => sentiment_of Ot
                | _ => 0%Q
                end
      end
  | _ => 0%Q
  end.

Lemma recorded_sentiment_numeric (R : list (string * value)) :
  numeric R -> recorded_sentiment R = Ok (sentiment_of R).
Proof.
  unfold numeric, recorded_sentiment, sentiment_of.
  destruct (dict_get R "sentiment") as [v|]; [|reflexivity].
  destruct v as [| b | | | | |]; try contradiction; try reflexivity.
  all: try (now destruct b).
Qed.

(** On a well-formed entry the resolver returns, and follows its rule:
    a missing category, a category that is no mapping, a missing label
    without fallback all give zero. *)
Theorem resolver_on_records :
  forall (T : list (string * value)) (category label : string),
    entry_ok T category label ->
    taxonomy_sentiment_lookup (VDict T) category (VStr label)
    = Ok (resolved_sentiment T category label).
Proof.
  intros T category label Hok. unfold entry_ok, resolved_sentiment in *.
  destruct (dict_get T category) as [node|] eqn:ET.
  - destruct node as [| | | | | |N];
      try (apply lookup_no_category; rewrite ET; reflexivity).
    destruct (dict_get N label) as [v|] eqn:EN.
    + destruct v as [| | | | | |R]; try contradiction.
      rewrite (lookup_exact T N R _ _ ET EN). now apply recorded_sentiment_numeric.
    + destruct (dict_get N "other") as [o|] eqn:EO.
      * destruct o as [| | | | | |Ot];
          try (apply (lookup_no_entry T N _ _ ET EN); rewrite EO; reflexivity).
        rewrite (lookup_other T N Ot _ _ ET EN EO). now apply recorded_sentiment_numeric.
      * apply (lookup_no_entry T N _ _ ET EN). now rewrite EO.
  - apply lookup_no_category. now rewrite ET.
Qed.

(** An event whose [event_classifications] is missing or falsy (null, an
    empty mapping) has sentiment zero and no type, whatever the taxonomy
    is: the taxonomy is not looked at. *)
Theorem no_classifications_neutral :
  forall (kv : list (string * value)) (taxonomy : value),
    truthy (match dict_get kv "event_classifications" with
            | Some v => v
            | None => VDict []
            end) = false ->
    event_sentiment (VDict kv) taxonomy = Ok 0%Q
    /\ extract_event_types (VDict kv) = Ok [].
Proof.
  intros kv taxonomy Hf. unfold event_sentiment, extract_event_types, py_or. simpl.
  rewrite Hf. split; reflexivity.
Qed.

Lemma row_of_event_raw (taxonomy ev : value) (r : Row value) :
  row_of_event taxonomy ev = Ok r -> raw r = ev.
Proof.
  unfold row_of_event.
  destruct ev as [| | | | |l|kv]; try discriminate. simpl.
  repeat match goal with
         | |- bind ?c _ = Ok _ -> _ => destruct c; simpl; [|discriminate]
         end.
  intro E. inversion E. reflexivity.
Qed.

(** The event resolves to a date. *)
Definition dated (ev : value) : bool :=
  match parse_event_date (date_descriptor ev) with Some _ => true | None => false end.

(** The rows the normalizer returns stand for the events whose descriptor
    resolves to a date, each once and in the order of the source: their
    [_raw] cells are exactly these events. *)
Theorem normalizer_keeps_dated_events :
  forall (events taxonomy : value) (flat : list value) (rows : list (Row value)),
    flatten_events events = Ok flat ->
    mapM (row_of_event taxonomy) flat = Ok rows ->
    rows <> [] ->
    exists df,
      build_dataframe events taxonomy = Ok df
      /\ map raw (iterrows df) = filter dated flat.
Proof.
  intros events taxonomy flat rows Hflat Hrows Hne.
  unfold build_dataframe. rewrite Hflat. simpl. rewrite Hrows. simpl.
  destruct rows as [|r0 rows']; [congruence|].
  eexists. split; [reflexivity|]. cbn [iterrows].
  apply mapM_Forall2 in Hrows. clear Hflat Hne.
  induction Hrows as [|ev r flat' rest Hr _ IH]; [reflexivity|].
  cbn [filter]. unfold dated at 1, has_date at 1.
  rewrite <- (row_of_event_date _ _ _ Hr).
  destruct (date r); cbn [map]; rewrite ?(row_of_event_raw _ _ _ Hr), IH; reflexivity.
Qed.

Lemma mapM_Raise {A B : Type} (f : A -> result B) (l : list A) (x : A) :
  In x l -> (exists e, f x = Raise e) -> exists e, mapM f l = Raise e.
Proof.
  induction l as [|h t IH]; simpl; intros Hin Hx; [contradiction|].
  destruct (f h) as [y|e] eqn:Eh; simpl; [|eauto].
  destruct Hin as [->|Hin].
  - destruct Hx as [e Hx]. congruence.
  - destruct (IH Hin Hx) as [e He]. rewrite He. simpl. eauto.
Qed.

(** One event that is no object (a null, a text, a list among the events)
    makes the whole normalization raise: no frame is returned for the
    other events. *)
Theorem malformed_event_raises :
  forall (events taxonomy : value) (flat : list value) (ev : value),
    flatten_events events = Ok flat ->
    In ev flat ->
    is_dict ev = false ->
    exists e, build_dataframe events taxonomy = Raise e.
Proof.
  intros events taxonomy flat ev Hflat Hin Hnd.
  unfold build_dataframe. rewrite Hflat. simpl.
  destruct (mapM_Raise (row_of_event taxonomy) flat ev Hin) as [e He].
  - exists AttributeError. destruct ev; try reflexivity. discriminate.
  - rewrite He. simpl. eauto.
Qed.

Lemma mapM_iter_lists (groups : list (list value)) :
  mapM py_iter (map VList groups) = Ok groups.
Proof.
  induction groups as [|g t IH]; simpl; [reflexivity|]. now rewrite IH.
Qed.

(** Groups of events are flattened into one sequence that keeps every
    event and the order of the source; a group that is null makes the
    flattening raise. *)
Theorem flatten_events_concat :
  forall groups : list (list value),
    flatten_events (VList (map VList groups)) = Ok (concat groups)
    /\ length (concat groups) = list_sum (map (@length value) groups)
    /\ forall before after,
         flatten_events (VList (map VList before ++ VNone :: after)) = Raise TypeError.
Proof.
  intro groups. split; [|split].
  - unfold flatten_events. simpl. now rewrite mapM_iter_lists.
  - induction groups as [|g t IH]; simpl; [reflexivity|].
    now rewrite length_app, IH.
  - intros before after. unfold flatten_events. simpl.
    induction before as [|g t IH]; simpl; [reflexivity|].
    destruct (mapM py_iter (map VList t ++ VNone :: after)); simpl in *;
      [discriminate | congruence].
Qed.

End UtilsExtras.

(* ================================================================= *)
(** ** geo_module.py: colours, the geocode cache, the markers *)

Section GeoExtras.
Import Pandas GeoModule.

(** With thresholds in order, the three colours are the three bands of
    the legend: green above the positive threshold, red below the negative
    one, gray on the closed interval between them, and for a missing
    average. *)
Theorem color_by_sentiment_bands :
  forall (a neg_thresh pos_thresh : Q),
    (neg_thresh <= pos_thresh)%Q ->
    (_color_by_sentiment (Some a) neg_thresh pos_thresh = "green" <-> (pos_thresh < a)%Q)
    /\ (_color_by_sentiment (Some a) neg_thresh pos_thresh = "red" <-> (a < neg_thresh)%Q)
    /\ (_color_by_sentiment (Some a) neg_thresh pos_thresh = "gray" <->
        (neg_thresh <= a)%Q /\ (a <= pos_thresh)%Q)
    /\ _color_by_sentiment None neg_thresh pos_thresh = "gray".
Proof.
  intros a neg pos Hle. unfold _color_by_sentiment.
  destruct (Qgt_bool a pos) eqn:Ep.
  - apply Qgt_bool_iff in Ep.
    assert (Hn : ~ (a < neg)%Q).
    { intro C. apply (Qlt_irrefl a). eapply Qlt_le_trans; [exact C|].
      eapply Qle_trans; [exact Hle | now apply Qlt_le_weak]. }
    repeat split; try tauto; try discriminate.
    + intros [_ C]. exfalso. exact (Qlt_not_le _ _ Ep C).
  - assert (Hp : (a <= pos)%Q).
    { apply Qnot_lt_le. intro C. apply Qgt_bool_iff in C. congruence. }
    destruct (Qgt_bool neg a) eqn:En.
    + apply Qgt_bool_iff in En.
      repeat split; try tauto; try discriminate.
      * intro C. exfalso. exact (Qlt_not_le _ _ C Hp).
      * intros [C _]. exfalso. exact (Qlt_not_le _ _ En C).
    + assert (Hn : (neg <= a)%Q).
      { apply Qnot_lt_le. intro C. apply Qgt_bool_iff in C. congruence. }
      repeat split; try tauto; try discriminate.
      * intro C. exfalso. exact (Qlt_not_le _ _ C Hp).
      * intro C. exfalso. exact (Qlt_not_le _ _ C Hn).
Qed.

Section Taxonomy.
Context `{StrMethods}.

(** The label occurs in the text, whatever the case. *)
Definition mentions (top_types label : string) : bool :=
  py_in_str (lower label) (lower top_types).

Lemma first_color_none (items : list (string * string)) (top_types default : string) :
  (forall label color, In (label, color) items -> mentions top_types label = false) ->
  first_color items top_types default = default.
Proof.
  induction items as [|[l c] t IH]; simpl; intro Hno; [reflexivity|].
  unfold mentions in Hno. rewrite (Hno l c (or_introl eq_refl)).
  apply IH. intros; eapply Hno; eauto.
Qed.

Lemma first_color_first (before after : list (string * string))
    (label color top_types default : string) :
  (forall l c, In (l, c) before -> mentions top_types l = false) ->
  mentions top_types label = true ->
  first_color (before ++ (label, color) :: after) top_types default = color.
Proof.
  induction before as [|[l c] t IH]; simpl; intros Hno Hyes.
  - unfold mentions in Hyes. now rewrite Hyes.
  - unfold mentions in Hno. rewrite (Hno l c (or_introl eq_refl)).
    apply IH; [|exact Hyes]. intros; eapply Hno; eauto.
Qed.

(** The colour is that of the first label of the palette that the text
    mentions, in the order of the palette and whatever the place of the
    label in the text; without any, it is the default gray. *)
Theorem color_by_taxonomy_first_match :
  forall top_types : string,
    ((forall label color, In (label, color) palette -> mentions top_types label = false) ->
     _color_by_taxonomy top_types = "#95a5a6")
    /\ (forall before after label color,
          palette = before ++ (label, color) :: after ->
          (forall l c, In (l, c) before -> mentions top_types l = false) ->
          mentions top_types label = true ->
          _color_by_taxonomy top_types = color).
Proof.
  intro top_types. unfold _color_by_taxonomy. split.
  - apply first_color_none.
  - intros before after label color E Hno Hyes. rewrite E.
    now apply first_color_first.
Qed.

End Taxonomy.

(** *** The cache *)

Lemma assoc_get_set_same {V : Type} (d : list (string * V)) (k : string) (v : V) :
  assoc_get (assoc_set d k v) k = Some v.
Proof.
  induction d as [|[k' v'] t IH]; simpl.
  - now rewrite String.eqb_refl.
  - destruct (String.eqb k' k) eqn:E; simpl; rewrite E; [reflexivity | exact IH].
Qed.

Lemma assoc_get_set_other {V : Type} (d : list (string * V)) (k k0 : string) (v : V) :
  k0 <> k -> assoc_get (assoc_set d k v) k0 = assoc_get d k0.
Proof.
  intro Hne. induction d as [|[k' v'] t IH]; simpl.
  - destruct (String.eqb_spec k k0); [congruence | reflexivity].
  - destruct (String.eqb_spec k' k) as [->|Hk]; simpl.
    + destruct (String.eqb_spec k k0); [congruence | reflexivity].
    + destruct (String.eqb k' k0); [reflexivity | exact IH].
Qed.

Lemma geocode_cache_hits :
  forall (geo : string -> result (option (Q * Q))) (loc : string)
         (cache : list (string * (Q * Q))),
    let r := fst (geocode_location_cached geo loc cache) in
    let cache' := snd (geocode_location_cached geo loc cache) in
    (forall k v, assoc_get cache k = Some v -> assoc_get cache' k = Some v)
    /\ (forall c, r = Some c ->
          assoc_get cache' loc = Some c
          /\ forall geo', geocode_location_cached geo' loc cache' = (Some c, cache'))
    /\ (r = None -> cache' = cache)
    /\ (loc = "" -> r = None)
    /\ (forall c, loc <> "" -> assoc_get cache loc = Some c ->
          r = Some c /\ cache' = cache).
Proof.
  intros geo loc cache r cache'. subst r cache'.
  unfold geocode_location_cached.
  destruct (String.eqb_spec loc "") as [E0|E0]; cbn [fst snd].
  - split; [auto|]. split; [intros c Hc; discriminate|].
    split; [reflexivity|]. split; [reflexivity|]. intros c Hne. contradiction.
  - destruct (assoc_get cache loc) as [c0|] eqn:Ec; cbn [fst snd].
    + split; [auto|]. split; [|split; [discriminate|split; [contradiction|]]].
      * intros c Hc. inversion Hc; subst. split; [exact Ec|]. intro geo'.
        destruct (String.eqb_spec loc ""); [contradiction|]. now rewrite Ec.
      * intros c _ Hc. inversion Hc; subst. auto.
    + destruct (geo loc) as [[c|]|e] eqn:Eg; cbn [fst snd].
      * split; [|split; [|split; [discriminate|split; [contradiction|]]]].
        -- intros k v Hk. destruct (string_dec k loc) as [->|Hne]; [congruence|].
           now rewrite assoc_get_set_other.
        -- intros c' Hc. inversion Hc; subst. split; [apply assoc_get_set_same|].
           intro geo'. destruct (String.eqb_spec loc ""); [contradiction|].
           now rewrite assoc_get_set_same.
        -- intros c' _ Hc. discriminate.
      * split; [auto|]. split; [discriminate|]. split; [reflexivity|].
        split; [contradiction | discriminate].
      * split; [auto|]. split; [discriminate|]. split; [reflexivity|].
        split; [contradiction | discriminate].
Qed.

(** One call of the cached geocoder.  The cache only grows: no entry is
    changed or lost.  Coordinates that are returned are in the cache
    afterwards, so that a second call returns them again without asking
    the geocoder; an empty location returns nothing; a cached location is
    answered from the cache.  For a location that is not cached, a failure
    of the geocoder and a place it does not find return nothing and leave
    the cache as it is, and a place it finds is returned with the
    coordinates of the geocoder, which are stored under the location. *)
Theorem geocode_cache :
  forall (geo : string -> result (option (Q * Q))) (loc : string)
         (cache : list (string * (Q * Q))),
    let r := fst (geocode_location_cached geo loc cache) in
    let cache' := snd (geocode_location_cached geo loc cache) in
    (forall k v, assoc_get cache k = Some v -> assoc_get cache' k = Some v)
    /\ (forall c, r = Some c ->
          assoc_get cache' loc = Some c
          /\ forall geo', geocode_location_cached geo' loc cache' = (Some c, cache'))
    /\ (r = None -> cache' = cache)
    /\ (loc = "" -> r = None)
    /\ (forall c, loc <> "" -> assoc_get cache loc = Some c ->
          r = Some c /\ cache' = cache)
    /\ (forall e, assoc_get cache loc = None -> geo loc = Raise e ->
          r = None /\ cache' = cache)
    /\ (assoc_get cache loc = None -> geo loc = Ok None ->
        r = None /\ cache' = cache)
    /\ (forall c, loc <> "" -> assoc_get cache loc = None -> geo loc = Ok (Some c) ->
          r = Some c /\ cache' = assoc_set cache loc c).
Proof.
  intros geo loc cache r cache'.
  destruct (geocode_cache_hits geo loc cache) as (HA & HB & HC & HD & HE).
  fold r in HB, HC, HD, HE. fold cache' in HA, HB, HC, HE.
  split; [exact HA|]. split; [exact HB|]. split; [exact HC|].
  split; [exact HD|]. split; [exact HE|].
  subst r cache'. unfold geocode_location_cached.
  split; [|split].
  - intros e Hc Hg. rewrite Hc, Hg. destruct (String.eqb loc ""); auto.
  - intros Hc Hg. rewrite Hc, Hg. destruct (String.eqb loc ""); auto.
  - intros c Hne Hc Hg. rewrite Hc, Hg.
    destruct (String.eqb_spec loc ""); [contradiction | auto].
Qed.

(** *** The radius *)

Lemma py_int_lower (z : Z) (q : Q) : (inject_Z z <= q)%Q -> (z <= py_int q)%Z.
Proof.
  destruct q as [a p]. unfold Qle, py_int. simpl. intro Hle.
  pose proof (Z.quot_rem' a (Z.pos p)) as Hqr.
  pose proof (Z.rem_bound_pos_neg a (Z.pos p)) as Hneg.
  pose proof (Z.rem_bound_pos_pos a (Z.pos p)) as Hpos.
  destruct (Z.le_gt_cases 0 a) as [Ha|Ha].
  - specialize (Hpos (Pos2Z.is_pos p) Ha). nia.
  - assert (Ha' : (a <= 0)%Z) by lia.
    specialize (Hneg (Pos2Z.is_pos p) Ha'). nia.
Qed.

Lemma py_int_upper (z : Z) (q : Q) : (q <= inject_Z z)%Q -> (py_int q <= z)%Z.
Proof.
  destruct q as [a p]. unfold Qle, py_int. simpl. intro Hle.
  pose proof (Z.quot_rem' a (Z.pos p)) as Hqr.
  pose proof (Z.rem_bound_pos_neg a (Z.pos p)) as Hneg.
  pose proof (Z.rem_bound_pos_pos a (Z.pos p)) as Hpos.
  destruct (Z.le_gt_cases 0 a) as [Ha|Ha].
  - specialize (Hpos (Pos2Z.is_pos p) Ha). nia.
  - assert (Ha' : (a <= 0)%Z) by lia.
    specialize (Hneg (Pos2Z.is_pos p) Ha'). nia.
Qed.

Lemma py_int_inject (z : Z) : py_int (inject_Z z) = z.
Proof. unfold py_int. simpl. apply Z.quot_1_r. Qed.

Lemma inject_Z_pos (c : Z) : (0 < c)%Z -> (0 < inject_Z c)%Q.
Proof. intro Hc. unfold Qlt. simpl. lia. Qed.

Lemma inject_Z_le (a b : Z) : (a <= b)%Z -> (inject_Z a <= inject_Z b)%Q.
Proof. intro Hc. unfold Qle. simpl. lia. Qed.

(** The position of a count between the extremes, as a fraction. *)
Lemma scaled_between (lo hi n_min n_max n : Z) :
  (lo <= hi)%Z -> (n_min <= n <= n_max)%Z -> (n_min < n_max)%Z ->
  (inject_Z lo
   <= inject_Z lo + inject_Z ((n - n_min) * (hi - lo)) / inject_Z (n_max - n_min)
   <= inject_Z hi)%Q.
Proof.
  intros Hr Hn Hlt.
  set (c := (n_max - n_min)%Z). assert (Hc : (0 < c)%Z) by (unfold c; lia).
  assert (Hcq : (0 < inject_Z c)%Q) by (now apply inject_Z_pos).
  assert (Hfrac : (0 <= inject_Z ((n - n_min) * (hi - lo)) / inject_Z c
                   <= inject_Z (hi - lo))%Q).
  { split.
    - apply Qle_shift_div_l; [exact Hcq|]. rewrite Qmult_0_l.
      apply (inject_Z_le 0). nia.
    - apply Qle_shift_div_r; [exact Hcq|].
      rewrite <- inject_Z_mult. apply inject_Z_le. unfold c. nia. }
  destruct Hfrac as [H0 H1]. split.
  - rewrite <- (Qplus_0_r (inject_Z lo)) at 1. now apply Qplus_le_r.
  - assert (Ehi : (inject_Z hi == inject_Z lo + inject_Z (hi - lo))%Q).
    { rewrite <- inject_Z_plus. replace (lo + (hi - lo))%Z with hi by lia. reflexivity. }
    rewrite Ehi. now apply Qplus_le_r.
Qed.

Lemma scale_radius_range (min_radius max_radius n_min n_max n : Z) :
  (min_radius <= max_radius)%Z ->
  (n_min <= n <= n_max)%Z ->
  (min_radius <= _scale_radius min_radius max_radius n_min n_max n <= max_radius)%Z.
Proof.
  intros Hr Hn. unfold _scale_radius.
  destruct (Z.eqb_spec n_max n_min) as [E|E].
  - split; [apply Z.div_le_lower_bound | apply Z.div_le_upper_bound]; lia.
  - assert (Hlt : (n_min < n_max)%Z) by lia.
    destruct (scaled_between min_radius max_radius n_min n_max n Hr Hn Hlt) as [H1 H2].
    split; [now apply py_int_lower | now apply py_int_upper].
Qed.

(** A count between the smallest and the largest gets a radius between the
    two radii; the smallest count gets the smallest radius and the largest
    count the largest; when all counts are equal, the radius is the middle
    one. *)
Theorem scale_radius_bounds :
  forall (min_radius max_radius n_min n_max n : Z),
    (min_radius <= max_radius)%Z ->
    (n_min <= n <= n_max)%Z ->
    (min_radius <= _scale_radius min_radius max_radius n_min n_max n <= max_radius)%Z
    /\ (n_min < n_max ->
        _scale_radius min_radius max_radius n_min n_max n_min = min_radius
        /\ _scale_radius min_radius max_radius n_min n_max n_max = max_radius)%Z
    /\ (n_min = n_max ->
        _scale_radius min_radius max_radius n_min n_max n
        = (min_radius + max_radius) / 2)%Z.
Proof.
  intros lo hi n_min n_max n Hr Hn. split; [|split].
  - now apply scale_radius_range.
  - unfold _scale_radius. intro Hlt. destruct (Z.eqb_spec n_max n_min) as [E|E]; [lia|].
    assert (Hc : (0 < inject_Z (n_max - n_min))%Q)
      by (apply inject_Z_pos; lia).
    split.
    + assert (Hq : (inject_Z lo + inject_Z ((n_min - n_min) * (hi - lo))
                                  / inject_Z (n_max - n_min) == inject_Z lo)%Q).
      { replace ((n_min - n_min) * (hi - lo))%Z with 0%Z by lia.
        unfold Qdiv. rewrite Qmult_0_l. apply Qplus_0_r. }
      apply Z.le_antisymm.
      * apply py_int_upper. rewrite Hq. apply Qle_refl.
      * apply py_int_lower. rewrite Hq. apply Qle_refl.
    + assert (Hq : (inject_Z lo + inject_Z ((n_max - n_min) * (hi - lo))
                                  / inject_Z (n_max - n_min) == inject_Z hi)%Q).
      { rewrite inject_Z_mult, (Qmult_comm (inject_Z (n_max - n_min))).
        rewrite Qdiv_mult_l by (intro C; rewrite C in Hc; exact (Qlt_irrefl _ Hc)).
        rewrite <- inject_Z_plus.
        replace (lo + (hi - lo))%Z with hi by lia. reflexivity. }
      apply Z.le_antisymm.
      * apply py_int_upper. rewrite Hq. apply Qle_refl.
      * apply py_int_lower. rewrite Hq. apply Qle_refl.
  - unfold _scale_radius. intros ->. now rewrite Z.eqb_refl.
Qed.

End GeoExtras.

Section MapFacts.
Import Pandas GeoModule.
Context `{StrMethods} `{Formatting}.

Lemma fold_min_le (l : list Z) (a : Z) :
  (fold_left Z.min l a <= a)%Z /\ forall x, In x l -> (fold_left Z.min l a <= x)%Z.
Proof.
  revert a. induction l as [|h t IH]; simpl; intro a; [split; [lia | tauto]|].
  destruct (IH (Z.min a h)) as [H1 H2]. split; [lia|].
  intros x [<-|Hx]; [lia | auto].
Qed.

Lemma fold_max_ge (l : list Z) (a : Z) :
  (a <= fold_left Z.max l a)%Z /\ forall x, In x l -> (x <= fold_left Z.max l a)%Z.
Proof.
  revert a. induction l as [|h t IH]; simpl; intro a; [split; [lia | tauto]|].
  destruct (IH (Z.max a h)) as [H1 H2]. split; [lia|].
  intros x [<-|Hx]; [lia | auto].
Qed.

Lemma column_bounds (l : list Z) (x : Z) :
  In x l -> (column_min l <= x <= column_max l)%Z.
Proof.
  destruct l as [|h t]; [contradiction|]. simpl.
  destruct (fold_min_le t h) as [H1 H2], (fold_max_ge t h) as [H3 H4].
  intros [<-|Hx]; [lia|]. split; auto.
Qed.

Lemma agg_loc_Some (agg : list LocationAggregate) (loc : string) (a : LocationAggregate) :
  agg_loc agg loc = Some a -> In a agg /\ event_location a = loc.
Proof.
  unfold agg_loc. intro E. apply find_some in E. destruct E as [Hin E].
  apply String.eqb_eq in E. auto.
Qed.

Lemma agg_loc_None (agg : list LocationAggregate) (loc : string) :
  agg_loc agg loc = None -> ~ In loc (map event_location agg).
Proof.
  unfold agg_loc. intros E Hin. apply in_map_iff in Hin. destruct Hin as [a [<- Ha]].
  pose proof (find_none _ _ E a Ha) as C. simpl in C. now rewrite String.eqb_refl in C.
Qed.

Lemma aggregate_locations (dt : dtype) (rows : list (Row string)) :
  exists agg,
    _aggregate_by_location (Frame dt rows) = Ok agg
    /\ forall k, In k (map event_location agg) <-> In k (map Pandas.event_location rows).
Proof.
  eexists. split; [reflexivity|]. intro k.
  rewrite map_map. simpl. rewrite map_id. apply group_keys_In.
Qed.

Lemma aggregate_locations_NoDup (dt : dtype) (rows : list (Row string))
    (agg : list LocationAggregate) :
  _aggregate_by_location (Frame dt rows) = Ok agg ->
  NoDup (map event_location agg).
Proof.
  intro E. injection E as <-. rewrite map_map. simpl. rewrite map_id.
  apply group_keys_NoDup.
Qed.

(** The map of a frame that has its columns.  It carries one marker for
    each of the given coordinates whose location occurs in the frame, at
    these coordinates and in their order.  The marker of a location is
    made from the one record the aggregator has for this location: its
    radius is the count of the record scaled between the smallest and the
    largest count, and lies between the two radii; its line colour is the
    taxonomy colour of the record's top types in the mode ["taxonomy"]
    and the colour of the record's average sentiment in every other mode;
    it is filled with its line colour.  Without coordinates the map is
    centred on (20, 0). *)
Theorem folium_markers :
  forall (dt : dtype) (rows : list (Row string)) (coords : list (string * Q * Q))
         (color_mode : string) (thresholds : Q * Q) (min_radius max_radius : Z)
         (add_legend : bool),
    (min_radius <= max_radius)%Z ->
    exists m agg,
      build_folium_map (Frame dt rows) coords color_mode thresholds
                       min_radius max_radius add_legend = Ok m
      /\ _aggregate_by_location (Frame dt rows) = Ok agg
      /\ map location (markers m)
         = map (fun c => (snd (fst c), snd c))
               (filter (fun c => existsb (String.eqb (fst (fst c)))
                                         (map Pandas.event_location rows))
                       coords)
      /\ Forall (fun mk => (min_radius <= radius mk <= max_radius)%Z
                           /\ fill_color mk = color mk
                           /\ exists a, In a agg
                                /\ color mk
                                   = if String.eqb color_mode "taxonomy"
                                     then _color_by_taxonomy (top_types a)
                                     else _color_by_sentiment (Some (avg_sentiment a))
                                            (fst thresholds) (snd thresholds))
                (markers m)
      /\ (coords = [] -> center m = (20%Q, 0%Q))
      /\ NoDup (map event_location agg)
      /\ Forall2 (fun c mk =>
                    location mk = (snd (fst c), snd c)
                    /\ exists a,
                         In a agg
                         /\ event_location a = fst (fst c)
                         /\ radius mk
                            = _scale_radius min_radius max_radius
                                (column_min (map n_events agg))
                                (column_max (map n_events agg)) (n_events a)
                         /\ color mk
                            = (if String.eqb color_mode "taxonomy"
                               then _color_by_taxonomy (top_types a)
                               else _color_by_sentiment (Some (avg_sentiment a))
                                      (fst thresholds) (snd thresholds))
                         /\ fill_color mk = color mk)
                 (filter (fun c => existsb (String.eqb (fst (fst c)))
                                           (map Pandas.event_location rows))
                         coords)
                 (markers m).
Proof.
  intros dt rows coords color_mode thresholds lo hi add_legend Hr.
  destruct (aggregate_locations dt rows) as [agg [Hagg Hkeys]].
  pose proof (aggregate_locations_NoDup dt rows agg Hagg) as Hnd.
  unfold build_folium_map. rewrite Hagg. cbn [bind].
  eexists. exists agg. split; [reflexivity|]. split; [reflexivity|].
  cbn [markers center].
  assert (Hkeep : forall (c : string * Q * Q) a, agg_loc agg (fst (fst c)) = Some a ->
                    existsb (String.eqb (fst (fst c))) (map Pandas.event_location rows)
                    = true).
  { intros c a Ea. apply agg_loc_Some in Ea. destruct Ea as [Ha Hl].
    apply existsb_eqb_In, Hkeys. rewrite <- Hl. now apply in_map. }
  assert (Hdrop : forall c : string * Q * Q, agg_loc agg (fst (fst c)) = None ->
                    existsb (String.eqb (fst (fst c))) (map Pandas.event_location rows)
                    = false).
  { intros c Ea. apply agg_loc_None in Ea.
    destruct (existsb _ _) eqn:Ex; [|reflexivity].
    apply existsb_eqb_In, Hkeys in Ex. contradiction. }
  split; [|split; [|split; [|split]]].
  - induction coords as [|c t IH]; [reflexivity|].
    cbn [flat_map filter]. rewrite map_app, IH.
    destruct (agg_loc agg (fst (fst c))) as [a|] eqn:Ea.
    + rewrite (Hkeep c a Ea). reflexivity.
    + rewrite (Hdrop c Ea). reflexivity.
  - apply Forall_forall. intros mk Hmk. apply in_flat_map in Hmk.
    destruct Hmk as [c [_ Hmk]].
    destruct (agg_loc agg (fst (fst c))) as [a|] eqn:Ea; [|contradiction].
    destruct Hmk as [<-|[]]. apply agg_loc_Some in Ea. destruct Ea as [Ha _].
    cbn [radius color fill_color]. split; [|split; [reflexivity | eauto]].
    assert (Hb : (column_min (map n_events agg) <= n_events a
                  <= column_max (map n_events agg))%Z)
      by (apply column_bounds; now apply in_map).
    destruct agg as [|a0 agg']; [contradiction|].
    now apply scale_radius_range.
  - intros ->. reflexivity.
  - exact Hnd.
  - induction coords as [|c t IH]; [constructor|].
    cbn [flat_map filter].
    destruct (agg_loc agg (fst (fst c))) as [a|] eqn:Ea.
    + rewrite (Hkeep c a Ea). cbn [app]. constructor; [|exact IH].
      apply agg_loc_Some in Ea. destruct Ea as [Ha Hl].
      cbn [location radius color fill_color]. split; [reflexivity|].
      exists a. split; [exact Ha|]. split; [exact Hl|].
      split; [|split; reflexivity].
      destruct agg as [|a0 agg']; [contradiction | reflexivity].
    + rewrite (Hdrop c Ea). exact IH.
Qed.

(** The legend names the colouring of the markers for the two modes of the
    signature: it is the taxonomy legend exactly in the mode ["taxonomy"],
    and the sentiment legend, with the thresholds in use, in the mode
    ["sentiment"]. *)
Theorem legend_matches_mode :
  forall (thresholds : Q * Q),
    _add_legend_html "taxonomy" thresholds = TaxonomyLegend
    /\ _add_legend_html "sentiment" thresholds
       = SentimentLegend (fst thresholds) (snd thresholds)
    /\ forall color_mode,
         color_mode <> "sentiment" ->
         _add_legend_html color_mode thresholds = TaxonomyLegend.
Proof.
  intro thresholds. split; [reflexivity|]. split; [reflexivity|].
  intros color_mode Hne. unfold _add_legend_html.
  destruct (String.eqb_spec color_mode "sentiment"); [contradiction | reflexivity].
Qed.

End MapFacts.

(* ================================================================= *)
(** ** timeline_module.py: more on the series *)

Section SeriesExtras.
Import Pandas TimelineModule.
Context `{PeriodLib} `{SortValues}.

Ltac order_cases :=
  unfold datetime_leb;
  repeat match goal with
         | |- context [(?a <? ?b)%Z] => destruct (Z.ltb_spec a b)
         | |- context [(?a <=? ?b)%Z] => destruct (Z.leb_spec a b)
         | H : context [(?a <? ?b)%Z] |- _ => destruct (Z.ltb_spec a b)
         | H : context [(?a <=? ?b)%Z] |- _ => destruct (Z.leb_spec a b)
         end;
  try discriminate; try reflexivity; try lia.

Lemma datetime_leb_total (a b : datetime) :
  datetime_leb a b = true \/ datetime_leb b a = true.
Proof. order_cases; auto; try (left; reflexivity); try (right; reflexivity). Qed.

Lemma datetime_leb_trans (a b c : datetime) :
  datetime_leb a b = true -> datetime_leb b c = true -> datetime_leb a c = true.
Proof. intros Hab Hbc. revert Hab Hbc. order_cases; intros; order_cases. Qed.

Lemma sumZ_indicator_dec {A : Type} (eq_dec : forall x y : A, {x = y} + {x <> y})
    (x : A) (l : list A) :
  NoDup l ->
  sumZ (fun k => if eq_dec k x then 1%Z else 0%Z) l
  = if in_dec eq_dec x l then 1%Z else 0%Z.
Proof.
  induction l as [|h t IH]; simpl; intro Hn; [reflexivity|].
  inversion Hn as [|? ? Hh Ht]; subst. rewrite (IH Ht).
  destruct (eq_dec h x) as [->|Hne].
  - destruct (in_dec eq_dec x t); [contradiction | reflexivity].
  - destruct (in_dec eq_dec x t); reflexivity.
Qed.

(** The rows with a period. *)
Definition with_period (dd : list (Row string * option datetime))
  : list (Row string * option datetime) :=
  filter (fun rp => match snd rp with Some _ => true | None => false end) dd.

Lemma periods_NoDup (dd : list (Row string * option datetime)) : NoDup (periods dd).
Proof. apply sorted_by_NoDup, unique_NoDup. Qed.

Lemma periods_In (dd : list (Row string * option datetime)) (p : datetime) :
  In p (periods dd) <-> exists r, In (r, Some p) dd.
Proof.
  unfold periods. rewrite sorted_by_In, unique_In. unfold somes.
  rewrite in_flat_map. split.
  - intros [o [Ho Hp]]. apply in_map_iff in Ho. destruct Ho as [[r o'] [E Hr]].
    simpl in E. subst o'. destruct o as [q|]; [|contradiction].
    destruct Hp as [->|[]]. eauto.
  - intros [r Hr]. exists (Some p). split; [|simpl; auto].
    apply in_map_iff. exists (r, Some p). auto.
Qed.

Lemma bucket_sizes (keys : list datetime) (dd : list (Row string * option datetime)) :
  NoDup keys ->
  (forall r p, In (r, Some p) dd -> In p keys) ->
  sumZ (fun p => Z.of_nat (length (filter (in_period p) dd))) keys
  = Z.of_nat (length (with_period dd)).
Proof.
  intros Hn. induction dd as [|[r o] t IH]; intro Hcov.
  - simpl. clear. induction keys as [|k ks IHk]; simpl; [reflexivity | now rewrite IHk].
  - transitivity
      (sumZ (fun p => ((if in_period p (r, o) then 1 else 0)
                       + Z.of_nat (length (filter (in_period p) t)))%Z) keys).
    + apply sumZ_ext. intros p _. cbn [filter].
      destruct (in_period p (r, o)); simpl length; lia.
    + rewrite sumZ_add, IH by (intros; eapply Hcov; right; eauto).
      unfold with_period. cbn [filter snd]. destruct o as [q|].
      * rewrite (sumZ_ext _ (fun p => if datetime_eq_dec p q then 1%Z else 0%Z))
          by (intros p _; unfold in_period; simpl; now destruct (datetime_eq_dec p q)).
        rewrite (sumZ_indicator_dec datetime_eq_dec q keys Hn).
        destruct (in_dec datetime_eq_dec q keys) as [_|C].
        -- simpl length. lia.
        -- exfalso. apply C. apply (Hcov r q). now left.
      * rewrite (sumZ_ext _ (fun _ => 0%Z)) by (intros; reflexivity).
        rewrite sumZ_const. lia.
Qed.

(** The period of a dated row. *)
Definition period_of (g : string) (r : Row string) : option datetime :=
  option_map (to_period_start g) (date r).

Lemma add_period_rows (rows : list (Row string)) (g : string) :
  _add_period (Frame Datetime64 rows) g = Ok (map (fun r => (r, period_of g r)) rows).
Proof. reflexivity. Qed.

Lemma with_period_dated (rows : list (Row string)) (g : string) :
  length (with_period (map (fun r => (r, period_of g r)) rows))
  = length (filter has_date rows).
Proof.
  unfold with_period, period_of, has_date.
  induction rows as [|r t IH]; simpl; [reflexivity|].
  destruct (date r); simpl; now rewrite IH.
Qed.

(** The frequency series of a frame with a datetime column: one point per
    period that holds a dated row, the periods distinct and in
    chronological order; no point counts zero; and the counts add up to
    the number of dated rows. *)
Theorem frequency_series :
  forall (rows : list (Row string)) (g : string),
  exists series,
    frequency (Frame Datetime64 rows) g = Ok series
    /\ NoDup (map fst series)
    /\ StronglySorted (fun p q => datetime_leb p q = true) (map fst series)
    /\ (forall p, In p (map fst series) <->
                  exists r, In r rows /\ period_of g r = Some p)
    /\ Forall (fun point => (1 <= snd point)%Z) series
    /\ sumZ snd series = Z.of_nat (length (filter has_date rows)).
Proof.
  intros rows g. unfold frequency. rewrite add_period_rows. cbn [bind].
  set (dd := map (fun r => (r, period_of g r)) rows).
  eexists. split; [reflexivity|].
  assert (Hkeys : map fst (map (fun p => (p, Z.of_nat (length (filter (in_period p) dd))))
                               (periods dd)) = periods dd).
  { rewrite map_map. simpl. apply map_id. }
  rewrite Hkeys.
  assert (Hin : forall p, In p (periods dd) <->
                          exists r, In r rows /\ period_of g r = Some p).
  { intro p. rewrite periods_In. unfold dd. split.
    - intros [r Hr]. apply in_map_iff in Hr. destruct Hr as [r' [E Hr']].
      inversion E; subst. eauto.
    - intros [r [Hr Hp]]. exists r. apply in_map_iff. exists r. rewrite Hp. auto. }
  split; [apply periods_NoDup|]. split; [|split; [exact Hin|split]].
  - unfold periods. apply sorted_by_sorted;
      [apply datetime_leb_total | apply datetime_leb_trans].
  - apply Forall_forall. intros [p c] Hpc. apply in_map_iff in Hpc.
    destruct Hpc as [p' [E Hp']]. inversion E; subst. simpl.
    apply periods_In in Hp'. destruct Hp' as [r Hr].
    assert (Hf : In (r, Some p) (filter (in_period p) dd)).
    { apply filter_In. split; [exact Hr|]. unfold in_period. simpl.
      now destruct (datetime_eq_dec p p). }
    destruct (filter (in_period p) dd); [contradiction | simpl; lia].
  - transitivity (sumZ (fun p => Z.of_nat (length (filter (in_period p) dd))) (periods dd)).
    + generalize (periods dd). intro l. induction l as [|k ks IH]; simpl; [reflexivity|].
      now rewrite IH.
    + rewrite bucket_sizes.
      * unfold dd. now rewrite with_period_dated.
      * apply periods_NoDup.
      * intros r p Hr. apply periods_In. eauto.
Qed.

(** The rows whose period is [p]. *)
Definition bucket (g : string) (rows : list (Row string)) (p : datetime)
  : list (Row string) :=
  filter (fun r => match period_of g r with
                   | Some q => if datetime_eq_dec p q then true else false
                   | None => false
                   end) rows.

Lemma bucket_filter (g : string) (rows : list (Row string)) (p : datetime) :
  map fst (filter (in_period p) (map (fun r => (r, period_of g r)) rows))
  = bucket g rows p.
Proof.
  unfold bucket, in_period. induction rows as [|r t IH]; simpl; [reflexivity|].
  destruct (period_of g r) as [q|]; [|exact IH].
  destruct (datetime_eq_dec p q); simpl; now rewrite IH.
Qed.

(** The sentiment series has the points of the frequency series, period by
    period in the same order, and the value at a period is the arithmetic
    mean of the sentiments of the rows of that period, as many as the
    frequency series counts there. *)
Theorem sentiment_series_aligned :
  forall (rows : list (Row string)) (g : string),
  exists freq sent,
    frequency (Frame Datetime64 rows) g = Ok freq
    /\ avg_sentiment (Frame Datetime64 rows) g = Ok sent
    /\ map fst sent = map fst freq
    /\ (forall p c, In (p, c) freq -> c = Z.of_nat (length (bucket g rows p)))
    /\ (forall p v, In (p, v) sent ->
          (v == arithmetic_mean (map sentiment (bucket g rows p)))%Q).
Proof.
  intros rows g. unfold frequency, avg_sentiment. rewrite add_period_rows. cbn [bind].
  set (dd := map (fun r => (r, period_of g r)) rows).
  eexists. eexists. split; [reflexivity|]. split; [reflexivity|].
  split; [|split].
  - rewrite !map_map. reflexivity.
  - intros p c Hpc. apply in_map_iff in Hpc. destruct Hpc as [p' [E _]].
    inversion E; subst. unfold dd. now rewrite <- bucket_filter, length_map.
  - intros p v Hpv. apply in_map_iff in Hpv. destruct Hpv as [p' [E _]].
    inversion E; subst. unfold dd.
    rewrite <- bucket_filter, map_map.
    unfold mean, arithmetic_mean. rewrite py_sum_fold_right. reflexivity.
Qed.

End SeriesExtras.

Section TypeSeriesExtras.
Import Pandas TimelineModule.
Context `{PeriodLib} `{SortValues}.

(** The (period, label) pairs of the dated rows, one per label carried. *)
Definition dated_pairs (g : string) (rows : list (Row string))
  : list (datetime * string) :=
  flat_map (fun r => match period_of g r with
                     | Some p => map (pair p) (event_types r)
                     | None => []
                     end) rows.

Lemma count_occ_filter {A : Type} (eq_dec : forall x y : A, {x = y} + {x <> y})
    (f : A -> bool) (l : list A) (k : A) :
  count_occ eq_dec (filter f l) k = if f k then count_occ eq_dec l k else 0.
Proof.
  induction l as [|h t IH]; simpl; [now destruct (f k)|].
  destruct (f h) eqn:Eh; simpl; destruct (eq_dec h k) as [->|Hne]; rewrite IH.
  - now rewrite Eh.
  - reflexivity.
  - now rewrite Eh.
  - reflexivity.
Qed.

Lemma keyed_pairs (g : string) (rows : list (Row string)) (keep : string -> bool) :
  flat_map (fun pt : option datetime * string =>
              match fst pt with Some p => [(p, snd pt)] | None => [] end)
           (filter (fun pt => keep (snd pt))
                   (explode_types (map (fun r => (r, period_of g r)) rows)))
  = filter (fun k => keep (snd k)) (dated_pairs g rows).
Proof.
  unfold explode_types, dated_pairs.
  induction rows as [|r t IH]; [reflexivity|].
  cbn [map flat_map fst snd]. rewrite !filter_app, flat_map_app, IH. f_equal.
  generalize (event_types r). intro l. destruct (period_of g r) as [p|].
  - induction l as [|x xs IHl]; [reflexivity|]. cbn [map filter fst snd].
    destruct (keep x); cbn [flat_map fst snd app]; now rewrite IHl.
  - induction l as [|x xs IHl]; [reflexivity|]. cbn [map filter fst snd].
    destruct (keep x); cbn [flat_map fst snd app]; exact IHl.
Qed.

(** The type series has one point per (period, label), each once; the
    label of a point is one that [value_counts().head(top_k)] keeps; and
    its count is the number of times dated rows of that period carry the
    label, at least one: leaving labels out does not change the counts of
    the labels kept. *)
Theorem type_series_counts :
  forall (rows : list (Row string)) (top_k : Z) (g : string),
  exists series,
    type_frequencies (Frame Datetime64 rows) top_k g = Ok series
    /\ NoDup (map fst series)
    /\ forall k c, In (k, c) series ->
         In (snd k) (map fst (slice_to top_k (value_counts (all_labels rows))))
         /\ c = Z.of_nat (count_occ key_eq_dec (dated_pairs g rows) k)
         /\ (1 <= c)%Z.
Proof.
  intros rows top_k g. unfold type_frequencies. rewrite add_period_rows. cbn [bind].
  rewrite explode_types_labels.
  set (top := map fst (slice_to top_k (value_counts (all_labels rows)))).
  rewrite (keyed_pairs g rows (fun l => existsb (String.eqb l) top)).
  set (keyed := filter _ (dated_pairs g rows)).
  eexists. split; [reflexivity|]. split.
  - rewrite map_map. simpl. rewrite map_id. apply sorted_by_NoDup, unique_NoDup.
  - intros k c Hkc. apply in_map_iff in Hkc. destruct Hkc as [k' [E Hk]].
    inversion E; subst. clear E.
    apply sorted_by_In, unique_In in Hk.
    assert (Hcount : (count_occ key_eq_dec keyed k > 0)%nat)
      by (now apply count_occ_In).
    unfold keyed in Hk. apply filter_In in Hk. destruct Hk as [_ Hkeep].
    split; [now apply existsb_eqb_In|]. split; [|lia].
    unfold keyed. now rewrite count_occ_filter, Hkeep.
Qed.

End TypeSeriesExtras.

Section RollingExtras.
Import TimelineModule.

Lemma nth_map_seq {B : Type} (f : nat -> B) (n i : nat) (d : B) :
  i < n -> nth i (map f (seq 0 n)) d = f i.
Proof.
  intro Hi. rewrite (nth_indep _ d (f 0)) by (rewrite length_map, length_seq; exact Hi).
  rewrite (map_nth f (seq 0 n) 0 i), seq_nth by exact Hi. reflexivity.
Qed.

Lemma map_fst_combine {A B : Type} (l : list A) (l' : list B) :
  length l = length l' -> map fst (combine l l') = l.
Proof.
  revert l'. induction l as [|h t IH]; intros [|h' t'] Hl; simpl in *;
    try discriminate; [reflexivity|]. f_equal. apply IH. lia.
Qed.

Lemma map_snd_combine {A B : Type} (l : list A) (l' : list B) :
  length l = length l' -> map snd (combine l l') = l'.
Proof.
  revert l'. induction l as [|h t IH]; intros [|h' t'] Hl; simpl in *;
    try discriminate; [reflexivity|]. f_equal. apply IH. lia.
Qed.

(** The window of position [i], for a centred window of [window] values. *)
Definition window_values (window : Z) (col : list Q) (i : nat) : list Q :=
  let (s, e) := window_bounds window (length col) i in
  firstn (e - s) (skipn s col).

Lemma window_holds_point (window : Z) (col : list Q) (i : nat) :
  (1 <= window)%Z -> i < length col ->
  let (s, e) := window_bounds window (length col) i in
  s <= i /\ i < e /\ e <= length col.
Proof.
  intros Hw Hi. unfold window_bounds, clip.
  assert (Hoff : (0 <= (window - 1) / 2 <= window - 1)%Z).
  { split; [apply Z.div_pos; lia|]. apply Z.div_le_upper_bound; lia. }
  lia.
Qed.

(** A window below 1 is refused.  With a window of at least 1 the rows
    are kept and every one of them gets a value, the mean of a window that
    holds the point itself: no point is left without a value at the two
    ends of the series.  With the window of 3 that [make_figs] asks for,
    the window of a point reaches from its predecessor to its successor,
    as far as they exist. *)
Theorem rolling_mean_windows :
  forall (A : Type) (df : list A) (y : A -> Q) (window : Z),
    ((window < 1)%Z -> add_rolling_mean df y window = Raise ValueError)
    /\ ((1 <= window)%Z ->
        exists out,
          add_rolling_mean df y window = Ok out
          /\ map fst out = df
          /\ forall i, i < length df ->
               nth i (map snd out) None
               = Some (Pandas.mean (window_values window (map y df) i))
               /\ In (nth i (map y df) 0%Q) (window_values window (map y df) i))
    /\ forall i, i < length df ->
         window_values 3 (map y df) i
         = firstn (Nat.min (i + 2) (length df) - (i - 1)) (skipn (i - 1) (map y df)).
Proof.
  intros A df y window. unfold add_rolling_mean. split; [|split].
  - intro Hw. destruct (Z.ltb_spec window 1); [reflexivity | lia].
  - intro Hw. destruct (Z.ltb_spec window 1); [lia|].
    eexists. split; [reflexivity|].
    assert (Hlen : length df
                   = length (map (fun i =>
                        let (s, e) := window_bounds window (length df) i in
                        match firstn (e - s) (skipn s (map y df)) with
                        | [] => None
                        | w => Some (Pandas.mean w)
                        end) (seq 0 (length df))))
      by (now rewrite length_map, length_seq).
    split; [now apply map_fst_combine|].
    intros i Hi. rewrite (map_snd_combine _ _ Hlen), (nth_map_seq _ _ _ _ Hi).
    unfold window_values. rewrite length_map.
    pose proof (window_holds_point window (map y df) i Hw) as Hb.
    rewrite length_map in Hb. specialize (Hb Hi).
    destruct (window_bounds window (length df) i) as [s e].
    destruct Hb as (Hs & He & Hn).
    assert (Hin : In (nth i (map y df) 0%Q) (firstn (e - s) (skipn s (map y df)))).
    { assert (E : nth i (map y df) 0%Q
                  = nth (i - s) (firstn (e - s) (skipn s (map y df))) 0%Q).
      { rewrite nth_firstn. destruct (Nat.ltb_spec (i - s) (e - s)); [|lia].
        rewrite nth_skipn. f_equal. lia. }
      rewrite E. apply nth_In. rewrite length_firstn, length_skipn, length_map. lia. }
    split; [|exact Hin].
    destruct (firstn (e - s) (skipn s (map y df))); [contradiction | reflexivity].
  - intros i Hi. unfold window_values, window_bounds, clip. rewrite length_map.
    change ((3 - 1) / 2)%Z with 1%Z.
    replace (Z.to_nat (Z.min (Z.max (Z.of_nat i + 1 + 1 - 3) 0) (Z.of_nat (length df))))
      with (i - 1) by lia.
    replace (Z.to_nat (Z.min (Z.max (Z.of_nat i + 1 + 1) 0) (Z.of_nat (length df))))
      with (Nat.min (i + 2) (length df)) by lia.
    reflexivity.
Qed.

End RollingExtras.

(* ================================================================= *)
(** ** app.py: pruning the graph, the filters, the locations to geocode *)

Section PruneFacts.
Import Pandas GraphModule App.

Lemma remove_edges_nodes (pairs : list (string * string)) :
  forall G, nodes (remove_edges_from G pairs) = nodes G.
Proof.
  unfold remove_edges_from. induction pairs as [|p t IH]; simpl; intro G; [reflexivity|].
  now rewrite IH.
Qed.

Lemma remove_edges_In (pairs : list (string * string)) :
  forall G e,
    In e (edges (remove_edges_from G pairs)) <->
    In e (edges G)
    /\ forall uv, In uv pairs -> same_edge (fst uv) (snd uv) (fst e) = false.
Proof.
  unfold remove_edges_from. induction pairs as [|p t IH]; simpl; intros G e.
  - split; [intro; split; [assumption | intros ? []] | tauto].
  - rewrite IH. unfold remove_edge. simpl. rewrite filter_In, negb_true_iff.
    split.
    + intros [[Hin Hp] Ht]. split; [exact Hin|]. intros uv [<-|Huv]; auto.
    + intros [Hin Hall]. repeat split; auto.
Qed.

Lemma remove_nodes_In (ns : list string) :
  forall G,
    (forall m, In m (nodes (remove_nodes_from G ns)) <-> In m (nodes G) /\ ~ In m ns)
    /\ (forall e, In e (edges (remove_nodes_from G ns)) <->
                  In e (edges G) /\ ~ In (fst (fst e)) ns /\ ~ In (snd (fst e)) ns).
Proof.
  unfold remove_nodes_from. induction ns as [|n t IH]; simpl; intro G.
  - split; intros; tauto.
  - destruct (IH (remove_node G n)) as [IHn IHe]. split.
    + intro m. rewrite IHn. unfold remove_node. simpl.
      rewrite filter_In, negb_true_iff, String.eqb_neq. intuition congruence.
    + intro e. rewrite IHe. unfold remove_node. simpl.
      rewrite filter_In, andb_true_iff, !negb_true_iff, !String.eqb_neq.
      intuition congruence.
Qed.

Lemma ends_at_nonneg (n : string) (e : (string * string) * EdgeData) :
  (0 <= ends_at n e)%Z.
Proof. unfold ends_at. destruct (String.eqb _ _), (String.eqb _ _); lia. Qed.

Lemma sumZ_zero_iff {A : Type} (f : A -> Z) (l : list A) :
  (forall x, 0 <= f x)%Z ->
  (sumZ f l = 0%Z <-> forall x, In x l -> f x = 0%Z).
Proof.
  intro Hf. induction l as [|h t IH]; simpl; [tauto|].
  assert (Ht : (0 <= sumZ f t)%Z).
  { clear IH. induction t as [|a s IHs]; simpl; [lia|]. specialize (Hf a). lia. }
  specialize (Hf h). split.
  - intros E x [<-|Hx]; [lia|]. apply IH; [lia | exact Hx].
  - intro Hall. rewrite (Hall h (or_introl eq_refl)).
    rewrite (proj2 IH); [reflexivity|]. auto.
Qed.

(** No edge is at a node of degree 0. *)
Lemma degree_zero_iff (G : Graph) (n : string) :
  degree_of G n = 0%Z <->
  forall e, In e (edges G) -> n <> fst (fst e) /\ n <> snd (fst e).
Proof.
  rewrite degree_of_sum, (sumZ_zero_iff _ _ (ends_at_nonneg n)).
  split; intros Hall e He; specialize (Hall e He); unfold ends_at in *.
  - destruct (String.eqb_spec n (fst (fst e))), (String.eqb_spec n (snd (fst e)));
      try lia. auto.
  - destruct Hall as [H1 H2].
    destruct (String.eqb_spec n (fst (fst e))), (String.eqb_spec n (snd (fst e)));
      try contradiction. reflexivity.
Qed.

Lemma keys_unique_same (es : list ((string * string) * EdgeData))
    (e e' : (string * string) * EdgeData) :
  keys_unique es -> In e es -> In e' es ->
  same_edge (fst (fst e')) (snd (fst e')) (fst e) = true -> e = e'.
Proof.
  induction es as [|[uv0 d0] t IH]; simpl; [tauto|].
  intros [Hn Hu] [He|He] [He'|He'] Hs.
  - congruence.
  - subst e. destruct e' as [uv' d']. simpl in *.
    pose proof (edge_lookup_None_In _ _ _ Hn uv' d' He') as C.
    destruct uv0 as [a b], uv' as [a' b']. simpl in *.
    rewrite same_edge_flip in C. congruence.
  - subst e'. destruct e as [uv d]. simpl in *.
    pose proof (edge_lookup_None_In _ _ _ Hn uv d He) as C. congruence.
  - now apply IH.
Qed.

Lemma prune_spec :
  forall (G : Graph) (min_edge_w : Z),
    keys_unique (edges G) ->
    (forall e, In e (edges (prune G min_edge_w)) <->
               In e (edges G) /\ (min_edge_w <= weight (snd e))%Z)
    /\ (forall n, In n (nodes (prune G min_edge_w)) <->
                  In n (nodes G)
                  /\ exists e, In e (edges (prune G min_edge_w))
                               /\ (n = fst (fst e) \/ n = snd (fst e))).
Proof.
  intros G w Hk. unfold prune.
  set (to_remove := map fst (filter (fun e => (weight (snd e) <? w)%Z) (edges G))).
  set (G1 := remove_edges_from G to_remove).
  set (isolated := filter (fun n => (degree_of G1 n =? 0)%Z) (nodes G1)).
  assert (HG1 : forall e, In e (edges G1) <->
                          In e (edges G) /\ (w <= weight (snd e))%Z).
  { intro e. unfold G1. rewrite remove_edges_In. split.
    - intros [He Hall]. split; [exact He|].
      destruct (Z.ltb_spec (weight (snd e)) w) as [Hlt|]; [|assumption].
      exfalso. assert (Hin : In (fst e) to_remove).
      { unfold to_remove. apply in_map, filter_In. split; [exact He|].
        now apply Z.ltb_lt. }
      specialize (Hall _ Hin). now rewrite same_edge_self in Hall.
    - intros [He Hw]. split; [exact He|]. intros uv Huv.
      unfold to_remove in Huv. apply in_map_iff in Huv.
      destruct Huv as [e' [<- He']]. apply filter_In in He'.
      destruct He' as [He' Hlt]. apply Z.ltb_lt in Hlt.
      destruct (same_edge _ _ (fst e)) eqn:Es; [|reflexivity].
      rewrite (keys_unique_same _ _ _ Hk He He' Es) in Hw. lia. }
  assert (Hiso : forall n, In n isolated <->
                   In n (nodes G)
                   /\ forall e, In e (edges G1) -> n <> fst (fst e) /\ n <> snd (fst e)).
  { intro n. unfold isolated. rewrite filter_In, Z.eqb_eq, degree_zero_iff.
    unfold G1 at 1. now rewrite remove_edges_nodes. }
  destruct (remove_nodes_In isolated G1) as [Hnodes Hedges].
  assert (Hkept : forall e, In e (edges (remove_nodes_from G1 isolated)) <-> In e (edges G1)).
  { intro e. rewrite Hedges. split; [tauto|]. intro He. split; [exact He|].
    split; intro C; apply Hiso in C; destruct C as [_ C];
      destruct (C e He); congruence. }
  split.
  - intro e. now rewrite Hkept, HG1.
  - intro n. rewrite Hnodes. unfold G1 at 1. rewrite remove_edges_nodes. split.
    + intros [Hn Hni]. split; [exact Hn|].
      destruct (Z.eq_dec (degree_of G1 n) 0) as [E|E].
      * exfalso. apply Hni. unfold isolated. apply filter_In.
        unfold G1 at 1. rewrite remove_edges_nodes. split; [exact Hn | now apply Z.eqb_eq].
      * rewrite degree_zero_iff in E.
        assert (Hex : exists e, In e (edges G1)
                                /\ (n = fst (fst e) \/ n = snd (fst e))).
        { clear -E. induction (edges G1) as [|e t IH].
          - exfalso. apply E. intros e [].
          - destruct (string_dec n (fst (fst e))) as [E1|E1];
              [exists e; simpl; auto|].
            destruct (string_dec n (snd (fst e))) as [E2|E2];
              [exists e; simpl; auto|].
            destruct IH as [e' [He' Hor]].
            + intro C. apply E. intros x [<-|Hx]; auto.
            + exists e'. simpl. auto. }
        destruct Hex as [e [He Hor]]. exists e. split; [now apply Hkept | exact Hor].
    + intros [Hn [e [He Hor]]]. split; [exact Hn|]. intro C.
      apply Hiso in C. destruct C as [_ C]. apply Hkept in He.
      destruct (C e He). destruct Hor; congruence.
Qed.

(** Where no two entries are about the same pair: after the pruning of
    the graph tab, the edges are the edges whose weight reaches the
    threshold, with their attributes; the nodes are the nodes that still
    have such an edge, so that no node is left isolated. *)
Theorem prune_result :
  forall (G : Graph) (min_edge_w : Z),
    keys_unique (edges G) ->
    (forall e, In e (edges (prune G min_edge_w)) <->
               In e (edges G) /\ (min_edge_w <= weight (snd e))%Z)
    /\ (forall n, In n (nodes (prune G min_edge_w)) <->
                  In n (nodes G)
                  /\ exists e, In e (edges (prune G min_edge_w))
                               /\ (n = fst (fst e) \/ n = snd (fst e))).
Proof. exact prune_spec. Qed.

End PruneFacts.

Section PrunedBuilder.
Import Pandas GraphModule App.
Context `{SetOrder}.

Lemma built_edge_cooccur (df : DataFrame string) (uv : string * string) (d : EdgeData) :
  In (uv, d) (edges (build_cooccurrence_graph df)) ->
  fst uv <> snd uv
  /\ (1 <= weight d)%Z
  /\ exists r, In r (iterrows df)
               /\ In (fst uv) (entity_names r) /\ In (snd uv) (entity_names r).
Proof.
  intro Hin. destruct (built_edge _ _ _ Hin) as [d0 [Hin0 ->]].
  destruct (builder_invariant df) as (_ & _ & Hk & Hok & Hw).
  rewrite Forall_forall in Hok. destruct (Hok _ Hin0) as (Hd & Hw1 & _). simpl in Hd, Hw1.
  split; [exact Hd|]. split; [exact Hw1|].
  specialize (Hw _ _ Hd). rewrite (keys_unique_lookup _ Hk _ _ Hin0) in Hw.
  destruct Hw as [Hc _]. unfold cooccurrences in Hc.
  destruct (filter (both_in (fst uv) (snd uv)) (iterrows df)) as [|r t] eqn:E;
    [simpl in Hc; lia|].
  assert (Hr : In r (filter (both_in (fst uv) (snd uv)) (iterrows df)))
    by (rewrite E; now left).
  apply filter_In in Hr. destruct Hr as [Hr Hb].
  unfold both_in in Hb. rewrite andb_true_iff, !existsb_eqb_In in Hb.
  exists r. tauto.
Qed.

Lemma cooccur_built_edge (df : DataFrame string) (x y : string) (r : Row string) :
  x <> y -> In r (iterrows df) ->
  In x (entity_names r) -> In y (entity_names r) ->
  exists uv d, In (uv, d) (edges (build_cooccurrence_graph df))
               /\ same_edge x y uv = true.
Proof.
  intros Hne Hr Hx Hy.
  destruct (builder_invariant df) as (_ & _ & _ & _ & Hw). specialize (Hw x y Hne).
  destruct (edge_lookup (edges (build_cooccurrence_graph df)) x y) as [d|] eqn:E.
  - apply edge_lookup_Some_In in E. destruct E as [uv [Hin Hs]]. eauto.
  - rewrite built_lookup in E.
    destruct (edge_lookup _ x y) as [d|]; [discriminate|].
    unfold cooccurrences in Hw.
    assert (Hf : In r (filter (both_in x y) (iterrows df))).
    { apply filter_In. split; [exact Hr|]. unfold both_in.
      apply andb_true_iff. split; now apply existsb_eqb_In. }
    destruct (filter (both_in x y) (iterrows df)); [contradiction | simpl in Hw; lia].
Qed.

(** At the lowest threshold of the interface, 1, the pruning keeps every
    edge of the built graph, and the nodes it keeps are exactly the names
    that some row lists together with another name: a name that only
    occurs alone, even repeated, is not a node of the graph that is
    ranked and drawn. *)
Theorem pruned_graph_nodes :
  forall (df : DataFrame string) (min_edge_w : Z),
    (min_edge_w <= 1)%Z ->
    let P := prune (build_cooccurrence_graph df) min_edge_w in
    (forall e, In e (edges P) <-> In e (edges (build_cooccurrence_graph df)))
    /\ forall n, In n (nodes P) <->
                 exists r m, In r (iterrows df) /\ m <> n
                             /\ In n (entity_names r) /\ In m (entity_names r).
Proof.
  intros df w Hw P.
  destruct (built_wf df) as (_ & Hk & Hends).
  destruct (prune_spec (build_cooccurrence_graph df) w Hk) as [He Hn]. fold P in He, Hn.
  assert (Hall : forall e, In e (edges P) <-> In e (edges (build_cooccurrence_graph df))).
  { intro e. rewrite He. split; [tauto|]. intro Hin. split; [exact Hin|].
    destruct e as [uv d]. destruct (built_edge_cooccur _ _ _ Hin) as (_ & H1 & _).
    simpl. lia. }
  split; [exact Hall|]. intro n. rewrite Hn. split.
  - intros [_ [[uv d] [Hin Hor]]]. apply Hall in Hin.
    destruct (built_edge_cooccur _ _ _ Hin) as (Hd & _ & r & Hr & Hu & Hv).
    simpl in Hor. destruct Hor as [->| ->].
    + exists r, (snd uv). auto.
    + exists r, (fst uv). auto.
  - intros [r [m (Hr & Hne & Hnr & Hmr)]].
    destruct (cooccur_built_edge df n m r) as [uv [d [Hin Hs]]]; auto.
    split.
    + apply same_edge_iff in Hs. destruct (Hends _ _ Hin) as [Hu Hv].
      destruct Hs as [[-> _]|[-> _]]; assumption.
    + exists (uv, d). split; [now apply Hall|]. simpl.
      apply same_edge_iff in Hs. destruct Hs as [[-> _]|[-> _]]; auto.
Qed.

End PrunedBuilder.

Section FilterFacts.
Import Pandas App.
Context `{StrMethods}.

Lemma filter_idem {A : Type} (f : A -> bool) (l : list A) :
  filter f (filter f l) = filter f l.
Proof.
  induction l as [|h t IH]; simpl; [reflexivity|].
  destruct (f h) eqn:E; simpl; rewrite ?E, IH; reflexivity.
Qed.

(** The row is within the two ranges of the sidebar. *)
Definition in_ranges (date_range : datetime * datetime) (sent_range : Q * Q)
    (r : Row string) : Prop :=
  (exists d, date r = Some d
             /\ datetime_leb (fst date_range) d = true
             /\ datetime_leb d (snd date_range) = true)
  /\ (fst sent_range <= sentiment r)%Q /\ (sentiment r <= snd sent_range)%Q.

Lemma keep_row_ranges (dr : datetime * datetime) (sr : Q * Q)
    (tf : list string) (q : string) (r : Row string) :
  keep_row dr sr tf q r = true ->
  in_ranges dr sr r
  /\ (tf <> [] -> exists t, In t tf /\ In t (Pandas.event_types r)).
Proof.
  unfold keep_row, in_ranges. intro Hk.
  assert (Hbase : (match date r with
                   | Some d => datetime_leb (fst dr) d && datetime_leb d (snd dr)
                   | None => false
                   end
                   && (Qle_bool (fst sr) (sentiment r) && Qle_bool (sentiment r) (snd sr)))
                  = true
                  /\ (tf <> [] -> existsb (fun t => existsb (String.eqb t) (Pandas.event_types r))
                                          tf = true)).
  { destruct (String.eqb (strip q) ""); destruct tf as [|t0 tf'];
      repeat (apply andb_true_iff in Hk; destruct Hk as [Hk ?]);
      repeat split; try congruence; try assumption;
      try (apply andb_true_iff; split; assumption). }
  destruct Hbase as [Hb Ht]. apply andb_true_iff in Hb. destruct Hb as [Hd Hs].
  apply andb_true_iff in Hs. destruct Hs as [Hs1 Hs2].
  apply Qle_bool_iff in Hs1, Hs2. split; [split; [|auto]|].
  - destruct (date r) as [d|]; [|discriminate].
    apply andb_true_iff in Hd. exists d. tauto.
  - intro Hne. specialize (Ht Hne). apply existsb_exists in Ht.
    destruct Ht as [t [Ht1 Ht2]]. exists t. split; [exact Ht1|].
    now apply existsb_eqb_In.
Qed.

(** The row passes the filters of the sidebar: it is within the two
    ranges, carries one of the selected types when types are selected,
    and, when the query is not blank, one of its entity names contains
    the stripped query, letter case apart. *)
Definition passes (date_range : datetime * datetime) (sent_range : Q * Q)
    (type_filter : list string) (entity_query : string) (r : Row string) : Prop :=
  in_ranges date_range sent_range r
  /\ (type_filter <> [] ->
      exists t, In t type_filter /\ In t (Pandas.event_types r))
  /\ (strip entity_query <> "" ->
      exists x, In x (entity_names r)
                /\ py_in_str (lower (strip entity_query)) (lower x) = true).

Lemma keep_row_passes (dr : datetime * datetime) (sr : Q * Q)
    (tf : list string) (q : string) (r : Row string) :
  keep_row dr sr tf q r = true <-> passes dr sr tf q r.
Proof.
  split.
  - intro Hk. destruct (keep_row_ranges dr sr tf q r Hk) as [Hr Ht].
    split; [exact Hr|]. split; [exact Ht|]. intro Hq.
    unfold keep_row in Hk.
    destruct (String.eqb_spec (strip q) ""); [contradiction|].
    apply andb_true_iff in Hk. destruct Hk as [_ He].
    apply existsb_exists in He. exact He.
  - intros (((d & Hd & H1 & H2) & Hs1 & Hs2) & Ht & He).
    apply Qle_bool_iff in Hs1, Hs2.
    assert (Ht' : match tf with
                  | [] => true
                  | _ => existsb (fun t => existsb (String.eqb t) (Pandas.event_types r)) tf
                  end = true).
    { destruct tf as [|t0 tf']; [reflexivity|].
      destruct Ht as [t [Hin Hty]]; [discriminate|].
      apply existsb_exists. exists t. split; [exact Hin|].
      now apply existsb_eqb_In. }
    unfold keep_row. rewrite Hd, H1, H2, Hs1, Hs2. cbn [andb].
    destruct (String.eqb_spec (strip q) "") as [Eq|Eq].
    + destruct tf; [reflexivity | exact Ht'].
    + apply andb_true_iff. split; [destruct tf; [reflexivity | exact Ht']|].
      apply existsb_exists. exact (He Eq).
Qed.

(** The filters keep rows of the frame, in their order, that are dated
    within the date range, have their sentiment within the sentiment
    range and, when types are selected, carry one of them.  Without a
    selected type and with a blank query, every row within the two ranges
    is kept.  Filtering the result again changes nothing.  The rows kept
    are selected by a mask on the rows, so that they come in the order of
    the frame, each as often as it passes; and a row of the frame is kept
    exactly when it passes the filters. *)
Theorem apply_filters_sound :
  forall (date_range : datetime * datetime) (sent_range : Q * Q)
         (type_filter : list string) (entity_query : string)
         (rows : list (Row string)),
  exists kept,
    apply_filters date_range sent_range type_filter entity_query (Frame Datetime64 rows)
    = Ok (Frame Datetime64 kept)
    /\ (forall r, In r kept ->
          In r rows
          /\ in_ranges date_range sent_range r
          /\ (type_filter <> [] ->
              exists t, In t type_filter /\ In t (Pandas.event_types r)))
    /\ (type_filter = [] -> strip entity_query = "" ->
        forall r, In r rows -> in_ranges date_range sent_range r -> In r kept)
    /\ apply_filters date_range sent_range type_filter entity_query (Frame Datetime64 kept)
       = Ok (Frame Datetime64 kept)
    /\ length kept <= length rows
    /\ (exists mask : Row string -> bool,
          kept = filter mask rows
          /\ forall r, mask r = true <->
                       passes date_range sent_range type_filter entity_query r)
    /\ (forall r, In r kept <->
                  In r rows
                  /\ passes date_range sent_range type_filter entity_query r).
Proof.
  intros dr sr tf q rows. eexists. split; [reflexivity|].
  split; [|split; [|split; [|split; [|split]]]].
  - intros r Hr. apply filter_In in Hr. destruct Hr as [Hin Hk].
    split; [exact Hin|]. exact (keep_row_ranges dr sr tf q r Hk).
  - intros -> Hq r Hr ((d & Hd & H1 & H2) & Hs1 & Hs2).
    apply filter_In. split; [exact Hr|]. unfold keep_row.
    rewrite Hq, String.eqb_refl, Hd, H1, H2.
    apply Qle_bool_iff in Hs1, Hs2. now rewrite Hs1, Hs2.
  - unfold apply_filters. now rewrite filter_idem.
  - apply filter_length_le.
  - exists (keep_row dr sr tf q). split; [reflexivity|].
    intro r. apply keep_row_passes.
  - intro r. rewrite filter_In, keep_row_passes. reflexivity.
Qed.

End FilterFacts.

Section LocationFacts.
Import Pandas GeoModule App.
Context `{SetOrder}.

(** The locations sent to the geocoder are distinct and never empty: they
    are the locations of the records of the aggregator, but for the record
    of the empty location. *)
Theorem unique_locations_nonempty_keys :
  forall (dt : dtype) (rows : list (Row string)),
    NoDup (unique_locations (Frame dt rows))
    /\ exists agg,
         _aggregate_by_location (Frame dt rows) = Ok agg
         /\ forall loc, In loc (unique_locations (Frame dt rows)) <->
                        loc <> "" /\ In loc (map event_location agg).
Proof.
  intros dt rows. split.
  - unfold unique_locations. apply sorted_set_NoDup.
  - destruct (aggregate_locations dt rows) as [agg [Hagg Hkeys]].
    exists agg. split; [exact Hagg|]. intro loc.
    unfold unique_locations. rewrite sorted_set_In, filter_In, Hkeys.
    rewrite negb_true_iff, String.eqb_neq. simpl. tauto.
Qed.

End LocationFacts.

Section AggregateContent.
Import Pandas GeoModule.

(** The rows of a location. *)
Definition rows_at (rows : list (Row string)) (loc : string) : list (Row string) :=
  filter (fun r => String.eqb (Pandas.event_location r) loc) rows.

(** The number of times the rows carry the label. *)
Definition label_count (rows : list (Row string)) (l : string) : Z :=
  Z.of_nat (count_occ string_dec (concat (map event_types rows)) l).

Lemma ranked_types (types : list string) :
  exists labels,
    top_types_of types = join ", " labels
    /\ length labels <= 3
    /\ NoDup labels
    /\ (forall l, In l labels -> In l types)
    /\ (forall l l', In l labels -> In l' types -> ~ In l' labels ->
          (Z.of_nat (count_occ string_dec types l')
           <= Z.of_nat (count_occ string_dec types l))%Z).
Proof.
  unfold top_types_of.
  set (counts := map (fun t => (t, Z.of_nat (count_occ string_dec types t)))
                     (group_keys types)).
  set (ranked := sorted_by (fun x h => (snd h <=? snd x)%Z) counts).
  assert (Hperm : Permutation ranked counts) by apply sorted_by_perm.
  assert (Hsorted : StronglySorted (fun x y => (snd y <= snd x)%Z) ranked).
  { apply StronglySorted_impl with
      (R := fun a b => (fun x h : string * Z => (snd h <=? snd x)%Z) a b = true).
    - intros x y. apply Z.leb_le.
    - apply sorted_by_sorted.
      + intros x y. rewrite !Z.leb_le. lia.
      + intros x y z. rewrite !Z.leb_le. lia. }
  assert (Hin : forall v c, In (v, c) ranked <->
                            In v types /\ c = Z.of_nat (count_occ string_dec types v)).
  { intros v c. split.
    - intro Hvc. apply (Permutation_in _ Hperm) in Hvc. apply in_map_iff in Hvc.
      destruct Hvc as [v' [E Hv']]. inversion E; subst.
      split; [now apply group_keys_In | reflexivity].
    - intros [Hv ->]. apply (Permutation_in _ (Permutation_sym Hperm)).
      apply in_map_iff. exists v. split; [reflexivity | now apply group_keys_In]. }
  assert (Hkeys : NoDup (map fst ranked)).
  { eapply Permutation_NoDup; [apply Permutation_sym, Permutation_map, Hperm|].
    unfold counts. rewrite map_map. simpl. rewrite map_id. apply group_keys_NoDup. }
  exists (map fst (firstn 3 ranked)). split; [reflexivity|].
  split; [rewrite length_map, length_firstn; lia|].
  split; [rewrite <- firstn_map; now apply NoDup_firstn|]. split.
  - intros l Hl. apply in_map_iff in Hl. destruct Hl as [[v c] [E Hv]].
    simpl in E. subst v. apply In_firstn in Hv. now apply Hin in Hv.
  - intros l l' Hl Hl' Hout. apply in_map_iff in Hl.
    destruct Hl as [[v c] [E Hv]]. simpl in E. subst v.
    assert (Hc : c = Z.of_nat (count_occ string_dec types l)).
    { apply In_firstn in Hv. now apply Hin in Hv. }
    assert (Hv' : In (l', Z.of_nat (count_occ string_dec types l')) ranked)
      by (now apply Hin).
    rewrite <- (firstn_skipn 3 ranked) in Hv'. apply in_app_or in Hv'.
    destruct Hv' as [Hv'|Hv'].
    + exfalso. apply Hout, in_map_iff.
      exists (l', Z.of_nat (count_occ string_dec types l')). auto.
    + rewrite <- (firstn_skipn 3 ranked) in Hsorted.
      pose proof (StronglySorted_app_inv _ _ _ Hsorted _ _ Hv Hv') as Hle.
      simpl in Hle. now rewrite <- Hc.
Qed.

(** Each record of the aggregator stands for a location that has rows; its
    average is the arithmetic mean of their sentiments; its preview joins
    their first twelve titles; and its top types are at most three distinct
    labels that these rows carry, none of the labels left out being carried
    more often at this location than one that is listed. *)
Theorem aggregate_record_content :
  forall (dt : dtype) (rows : list (Row string)),
  exists agg,
    _aggregate_by_location (Frame dt rows) = Ok agg
    /\ forall a, In a agg ->
         let here := rows_at rows (event_location a) in
         here <> []
         /\ (avg_sentiment a == arithmetic_mean (map sentiment here))%Q
         /\ titles_preview a = join "<br>" (firstn 12 (map event_title here))
         /\ exists labels,
              top_types a = join ", " labels
              /\ length labels <= 3
              /\ NoDup labels
              /\ (forall l, In l labels -> (1 <= label_count here l)%Z)
              /\ (forall l l', In l labels -> ~ In l' labels ->
                    (label_count here l' <= label_count here l)%Z).
Proof.
  intros dt rows. eexists. split; [reflexivity|].
  intros a Ha. apply in_map_iff in Ha. destruct Ha as [k [<- Hk]].
  cbn [event_location avg_sentiment titles_preview top_types]. fold (rows_at rows k).
  split; [|split; [|split]].
  - apply group_keys_In, in_map_iff in Hk. destruct Hk as [r [E Hr]].
    assert (Hin : In r (rows_at rows k)).
    { apply filter_In. split; [exact Hr|]. now apply String.eqb_eq. }
    intro C. rewrite C in Hin. contradiction.
  - unfold mean, arithmetic_mean. rewrite py_sum_fold_right. reflexivity.
  - reflexivity.
  - destruct (ranked_types (concat (map event_types (rows_at rows k))))
      as [labels (E & Hl & Hn & Hin & Hdom)].
    exists labels. split; [exact E|]. split; [exact Hl|]. split; [exact Hn|]. split.
    + intros l Hlab. apply Hin in Hlab. unfold label_count.
      apply (count_occ_In string_dec) in Hlab. lia.
    + intros l l' Hlab Hout. unfold label_count.
      destruct (in_dec string_dec l' (concat (map event_types (rows_at rows k))))
        as [Hl'|Hl'].
      * now apply Hdom.
      * apply (count_occ_not_In string_dec) in Hl'. rewrite Hl'. lia.
Qed.

End AggregateContent.

(* ================================================================= *)
(** ** app.py: the coordinates of the map tab *)

Section GeocodingFacts.
Import Pandas GeoModule App.
Context `{SetOrder}.

Definition place (c : string * Q * Q) : string := fst (fst c).

Lemma geocode_grows (geo : string -> result (option (Q * Q))) (loc : string)
    (cache : list (string * (Q * Q))) (k : string) (v : Q * Q) :
  assoc_get cache k = Some v ->
  assoc_get (snd (geocode_location_cached geo loc cache)) k = Some v.
Proof.
  intro Hk. unfold geocode_location_cached.
  destruct (String.eqb loc ""); [exact Hk|].
  destruct (assoc_get cache loc) as [c0|] eqn:Ec; [exact Hk|].
  destruct (geo loc) as [[c|]|e]; cbn [snd]; try exact Hk.
  destruct (string_dec k loc) as [->|Hne]; [congruence|].
  now rewrite assoc_get_set_other.
Qed.

Lemma geocode_found (geo : string -> result (option (Q * Q))) (loc : string)
    (cache : list (string * (Q * Q))) (c : Q * Q) :
  fst (geocode_location_cached geo loc cache) = Some c ->
  assoc_get (snd (geocode_location_cached geo loc cache)) loc = Some c.
Proof.
  unfold geocode_location_cached.
  destruct (String.eqb loc ""); [discriminate|].
  destruct (assoc_get cache loc) as [c0|] eqn:Ec; cbn [fst snd].
  - intro E. now rewrite Ec.
  - destruct (geo loc) as [[c1|]|e]; cbn [fst snd]; try discriminate.
    intro E. inversion E; subst. apply assoc_get_set_same.
Qed.

Lemma cached_coords_In (cache : list (string * (Q * Q))) (locs : list string)
    (loc : string) (lat lon : Q) :
  In (loc, lat, lon) (cached_coords cache locs) <->
  In loc locs /\ assoc_get cache loc = Some (lat, lon).
Proof.
  unfold cached_coords. rewrite in_flat_map. split.
  - intros [l [Hl Hin]]. destruct (assoc_get cache l) as [[la lo]|] eqn:E; [|contradiction].
    destruct Hin as [Heq|[]]. inversion Heq; subst. auto.
  - intros [Hl E]. exists loc. split; [exact Hl|]. rewrite E. now left.
Qed.

Lemma cached_coords_places (cache : list (string * (Q * Q))) (locs : list string) :
  map place (cached_coords cache locs)
  = filter (fun loc => match assoc_get cache loc with
                       | Some _ => true
                       | None => false
                       end) locs.
Proof.
  unfold cached_coords. induction locs as [|l t IH]; [reflexivity|].
  cbn [flat_map filter]. rewrite map_app, IH.
  destruct (assoc_get cache l) as [[la lo]|]; reflexivity.
Qed.

(** The loop keeps the places distinct when it runs over distinct
    locations that have no coordinates yet. *)
Lemma geocode_fold (geo : string -> result (option (Q * Q))) (new_locs : list string) :
  forall (coords : list (string * Q * Q)) (cache : list (string * (Q * Q))),
    NoDup new_locs ->
    (forall loc, In loc new_locs -> ~ In loc (map place coords)) ->
    NoDup (map place coords) ->
    (forall loc lat lon, In (loc, lat, lon) coords ->
                         assoc_get cache loc = Some (lat, lon)) ->
    let out := fold_left (geocode_step geo) new_locs (coords, cache) in
    NoDup (map place (fst out))
    /\ (forall loc lat lon, In (loc, lat, lon) (fst out) ->
           (In (loc, lat, lon) coords \/ In loc new_locs)
           /\ assoc_get (snd out) loc = Some (lat, lon))
    /\ (forall k v, assoc_get cache k = Some v -> assoc_get (snd out) k = Some v)
    /\ (forall c, In c coords -> In c (fst out)).
Proof.
  induction new_locs as [|loc rest IH]; intros coords cache Hn Hnew Hc Hin; cbn [fold_left].
  - cbn [fst snd]. repeat split; auto.
  - inversion Hn as [|? ? Hloc Hrest]; subst.
    pose proof (geocode_grows geo loc cache) as Hgrow.
    pose proof (geocode_found geo loc cache) as Hfound.
    remember (geocode_step geo (coords, cache) loc) as st eqn:Est.
    unfold geocode_step in Est. cbn [fst snd] in Est.
    destruct (geocode_location_cached geo loc cache) as [[[lat lon]|] cache'];
      subst st; cbn [fst snd] in *.
    + destruct (IH (coords ++ [(loc, lat, lon)]) cache' Hrest) as (H1 & H2 & H3 & H4).
      * intros l Hl. rewrite map_app, in_app_iff. cbn [map place fst In].
        intros [C|[C|[]]]; [apply (Hnew l); [now right | exact C]|].
        subst l. contradiction.
      * rewrite map_app. cbn [map place fst].
        apply NoDup_app; [exact Hc | repeat constructor; intros [] | ].
        intros a Ha [<-|[]]. apply (Hnew loc); [now left | exact Ha].
      * intros l la lo Hl. apply in_app_or in Hl. destruct Hl as [Hl|[Hl|[]]].
        -- apply Hgrow. now apply Hin.
        -- inversion Hl; subst. now apply Hfound.
      * split; [exact H1|]. split; [|split].
        -- intros l la lo Hl. destruct (H2 _ _ _ Hl) as [Hor Hget].
           split; [|exact Hget]. destruct Hor as [Hor|Hor]; [|right; now right].
           apply in_app_or in Hor. destruct Hor as [Hor|[Hor|[]]]; [now left|].
           inversion Hor; subst. right. now left.
        -- intros k v Hk. apply H3. now apply Hgrow.
        -- intros c Hcin. apply H4. apply in_or_app. now left.
    + destruct (IH coords cache' Hrest) as (H1 & H2 & H3 & H4).
      * intros l Hl. apply Hnew. now right.
      * exact Hc.
      * intros l la lo Hl. apply Hgrow. now apply Hin.
      * split; [exact H1|]. split; [|split].
        -- intros l la lo Hl. destruct (H2 _ _ _ Hl) as [Hor Hget].
           split; [|exact Hget]. destruct Hor as [Hor|Hor]; [now left | right; now right].
        -- intros k v Hk. apply H3. now apply Hgrow.
        -- exact H4.
Qed.

(** The coordinates handed to the map name every location at most once, so
    that no location gets two markers; each is a non-empty location of the
    frame, with the coordinates the cache holds for it afterwards; every
    location of the frame that was cached has its coordinates; the cache
    only grows, and is left as it is when the button was not pressed. *)
Theorem map_coords_distinct :
  forall (geo : string -> result (option (Q * Q))) (dt : dtype)
         (rows : list (Row string)) (cache : list (string * (Q * Q)))
         (run_geo : bool) (max_new : Z),
    let out := geocode_tab geo (Frame dt rows) cache run_geo max_new in
    NoDup (map place (fst out))
    /\ (forall loc lat lon, In (loc, lat, lon) (fst out) ->
           loc <> "" /\ In loc (map Pandas.event_location rows)
           /\ assoc_get (snd out) loc = Some (lat, lon))
    /\ (forall loc lat lon,
           loc <> "" -> In loc (map Pandas.event_location rows) ->
           assoc_get cache loc = Some (lat, lon) ->
           In (loc, lat, lon) (fst out))
    /\ (forall k v, assoc_get cache k = Some v -> assoc_get (snd out) k = Some v)
    /\ (run_geo = false -> snd out = cache).
Proof.
  intros geo dt rows cache run_geo max_new out.
  set (locs := unique_locations (Frame dt rows)).
  assert (Hlocs : forall loc, In loc locs <->
                              loc <> "" /\ In loc (map Pandas.event_location rows)).
  { intro loc. unfold locs, unique_locations.
    rewrite sorted_set_In, filter_In, negb_true_iff, String.eqb_neq. simpl. tauto. }
  assert (Hnd : NoDup locs) by (unfold locs, unique_locations; apply sorted_set_NoDup).
  assert (Hc0 : NoDup (map place (cached_coords cache locs)))
    by (rewrite cached_coords_places; now apply NoDup_filter).
  unfold geocode_tab in out. fold locs in out.
  destruct run_geo.
  - set (new_locs := slice_to max_new
                       (filter (fun loc => match assoc_get cache loc with
                                           | Some _ => false
                                           | None => true
                                           end) locs)) in *.
    assert (Hnew : forall loc, In loc new_locs ->
                               In loc locs /\ assoc_get cache loc = None).
    { intros loc Hl. apply slice_to_incl in Hl. apply filter_In in Hl.
      destruct Hl as [Hl Hf]. split; [exact Hl|].
      destruct (assoc_get cache loc); [discriminate | reflexivity]. }
    destruct (geocode_fold geo new_locs (cached_coords cache locs) cache)
      as (H1 & H2 & H3 & H4).
    + unfold new_locs, slice_to. destruct (max_new <? 0)%Z;
        apply NoDup_firstn; now apply NoDup_filter.
    + intros loc Hl. destruct (Hnew _ Hl) as [_ Hn].
      rewrite cached_coords_places, filter_In, Hn. intros [_ C]. discriminate.
    + exact Hc0.
    + intros loc lat lon Hl. now apply cached_coords_In in Hl.
    + fold out in H1, H2, H3, H4. split; [exact H1|]. split; [|split; [|split]].
      * intros loc lat lon Hl. destruct (H2 _ _ _ Hl) as [Hor Hget].
        assert (Hin : In loc locs).
        { destruct Hor as [Hor|Hor]; [now apply cached_coords_In in Hor|].
          now apply Hnew. }
        apply Hlocs in Hin. tauto.
      * intros loc lat lon Hne Hl Hget. apply H4, cached_coords_In.
        split; [|exact Hget]. apply Hlocs. auto.
      * exact H3.
      * discriminate.
  - subst out. cbn [fst snd]. split; [exact Hc0|]. split; [|split; [|split]].
    + intros loc lat lon Hl. apply cached_coords_In in Hl. destruct Hl as [Hl Hget].
      apply Hlocs in Hl. tauto.
    + intros loc lat lon Hne Hl Hget. apply cached_coords_In.
      split; [|exact Hget]. apply Hlocs. auto.
    + auto.
    + reflexivity.
Qed.

End GeocodingFacts.

(* ================================================================= *)
(** ** More concrete runs *)

Section MoreRuns.
Import Instances Pandas.

(** *** The graph of the three events *)

Lemma edge_accumulators_witness :
  In (("A", "B"), edge_AB)
     (GraphModule.edges (GraphModule.build_cooccurrence_graph (Frame Datetime64 three_events)))
  /\ GraphModule.sentiments edge_AB
     = map sentiment (rows_with "A" "B" three_events)
  /\ GraphModule.event_titles edge_AB
     = map event_title (rows_with "A" "B" three_events)
  /\ GraphModule.event_types edge_AB
     = concat (map event_types (rows_with "A" "B" three_events)).
Proof.
  assert (Hin : In (("A", "B"), edge_AB)
                   (GraphModule.edges
                      (GraphModule.build_cooccurrence_graph (Frame Datetime64 three_events))))
    by (left; reflexivity).
  split; [exact Hin|].
  exact (edge_accumulators (Frame Datetime64 three_events) ("A", "B") edge_AB Hin).
Defined.

Lemma edge_iff_cooccur_witness :
  "B" <> "C"
  /\ (GraphModule.has_edge
        (GraphModule.build_cooccurrence_graph (Frame Datetime64 three_events)) "B" "C" = true
      <-> exists r, In r three_events /\ In "B" (entity_names r) /\ In "C" (entity_names r)).
Proof.
  assert (Hne : "B" <> "C") by discriminate.
  split; [exact Hne|].
  exact (proj2 (proj2 (edge_iff_cooccur (Frame Datetime64 three_events) "B" "C")) Hne).
Defined.

Lemma weights_ignore_row_order_witness :
  Permutation three_events (rev three_events)
  /\ forall x y,
       option_map GraphModule.weight
         (GraphModule.edge_lookup
            (GraphModule.edges
               (GraphModule.build_cooccurrence_graph (Frame Datetime64 three_events))) x y)
       = option_map GraphModule.weight
           (GraphModule.edge_lookup
              (GraphModule.edges
                 (GraphModule.build_cooccurrence_graph (Frame Object (rev three_events)))) x y).
Proof.
  assert (Hp : Permutation three_events (rev three_events)) by apply Permutation_rev.
  split; [exact Hp|].
  exact (proj2 (weights_ignore_row_order Datetime64 Object _ _ Hp)).
Defined.

Example degrees_run :
  map (GraphModule.degree_of three_graph) (GraphModule.nodes three_graph)
  = [2%Z; 1%Z; 1%Z].
Proof. reflexivity. Qed.

Lemma table_size_witness :
  NoDup (GraphModule.nodes three_graph)
  /\ (Z.of_nat (GraphModule.order three_graph) <= 15)%Z
  /\ NoDup (map GraphModule.entity (GraphModule.top_centralities_table three_graph 15))
  /\ Permutation (map GraphModule.entity (GraphModule.top_centralities_table three_graph 15))
                 (GraphModule.nodes three_graph)
  /\ length (GraphModule.top_centralities_table three_graph (-1)) = 2.
Proof.
  assert (Hn : NoDup (GraphModule.nodes three_graph)).
  { apply (NoDup_count_occ' string_dec). intros x Hx. simpl in Hx.
    destruct Hx as [<-|[<-|[<-|[]]]]; reflexivity. }
  assert (Hle : (Z.of_nat (GraphModule.order three_graph) <= 15)%Z)
    by (apply Z.leb_le; reflexivity).
  split; [exact Hn|]. split; [exact Hle|].
  split; [exact (proj1 (proj2 (table_size three_graph 15)) Hn)|].
  split; [exact (proj1 (proj2 (proj2 (table_size three_graph 15))) Hle)|].
  exact (proj1 (table_size three_graph (-1))).
Defined.

(** *** The resolver and the normalizer *)

Definition sample_categories : list (string * value) :=
  [("Treaty", VDict [("Signing", VDict [("sentiment", VInt 2)]);
                     ("other", VDict [("sentiment", VInt 1)])])].

Lemma resolver_on_records_witness :
  entry_ok sample_categories "Treaty" "Unknown"
  /\ UtilsData.taxonomy_sentiment_lookup (VDict sample_categories) "Treaty" (VStr "Unknown")
     = Ok 1%Q.
Proof.
  assert (Hok : entry_ok sample_categories "Treaty" "Unknown") by exact I.
  split; [exact Hok|].
  exact (resolver_on_records sample_categories "Treaty" "Unknown" Hok).
Defined.

Definition talks_items : list (string * value) :=
  [("event_title", VStr "Talks");
   ("event_date_occurred",
    VDict [("kind", VStr "range"); ("start", VStr "01/01/2020");
           ("end", VStr "31/12/2020")])].

Lemma no_classifications_neutral_witness :
  truthy (match dict_get talks_items "event_classifications" with
          | Some v => v
          | None => VDict []
          end) = false
  /\ UtilsData.event_sentiment (VDict talks_items) VNone = Ok 0%Q
  /\ UtilsData.extract_event_types (VDict talks_items) = Ok [].
Proof.
  split; [reflexivity|].
  exact (no_classifications_neutral talks_items VNone eq_refl).
Defined.

Lemma normalizer_keeps_dated_events_witness :
  UtilsData.flatten_events sample_events = Ok [summit; talks; rumour; misdated]
  /\ mapM (UtilsData.row_of_event sample_taxonomy) [summit; talks; rumour; misdated]
     = Ok sample_records
  /\ sample_records <> []
  /\ exists df,
       UtilsData.build_dataframe sample_events sample_taxonomy = Ok df
       /\ map raw (iterrows df) = [summit; talks].
Proof.
  assert (H1 : UtilsData.flatten_events sample_events
               = Ok [summit; talks; rumour; misdated]) by reflexivity.
  assert (H2 : mapM (UtilsData.row_of_event sample_taxonomy)
                    [summit; talks; rumour; misdated] = Ok sample_records)
    by reflexivity.
  assert (H3 : sample_records <> []) by discriminate.
  split; [exact H1|]. split; [exact H2|]. split; [exact H3|].
  exact (normalizer_keeps_dated_events sample_events sample_taxonomy _ _ H1 H2 H3).
Defined.

Lemma malformed_event_raises_witness :
  UtilsData.flatten_events (VList [VList [summit; VNone]]) = Ok [summit; VNone]
  /\ In VNone [summit; VNone]
  /\ is_dict VNone = false
  /\ exists e, UtilsData.build_dataframe (VList [VList [summit; VNone]]) sample_taxonomy
               = Raise e.
Proof.
  assert (H1 : UtilsData.flatten_events (VList [VList [summit; VNone]])
               = Ok [summit; VNone]) by reflexivity.
  assert (H2 : In VNone [summit; VNone]) by (right; left; reflexivity).
  split; [exact H1|]. split; [exact H2|]. split; [reflexivity|].
  exact (malformed_event_raises _ sample_taxonomy _ VNone H1 H2 eq_refl).
Defined.

(** *** Colours, cache and markers *)

Lemma color_by_sentiment_bands_witness :
  (-1 <= 1)%Q
  /\ (GeoModule._color_by_sentiment (Some (3 # 2)) (-1) 1 = "green" <-> (1 < 3 # 2)%Q).
Proof.
  assert (Hle : (-1 <= 1)%Q) by (unfold Qle; simpl; lia).
  split; [exact Hle|].
  exact (proj1 (color_by_sentiment_bands (3 # 2) (-1) 1 Hle)).
Defined.

Example taxonomy_color_run :
  GeoModule._color_by_taxonomy "Sanctions, TREATY talks" = "#2ecc71"
  /\ GeoModule._color_by_taxonomy "Traders" = "#9b59b6"
  /\ GeoModule._color_by_taxonomy "x, y" = "#95a5a6".
Proof. repeat split; reflexivity. Qed.

Lemma color_by_taxonomy_first_match_witness :
  GeoModule.palette = [] ++ ("Treaty", "#2ecc71") :: tl GeoModule.palette
  /\ mentions "Sanctions, TREATY talks" "Treaty" = true
  /\ GeoModule._color_by_taxonomy "Sanctions, TREATY talks" = "#2ecc71".
Proof.
  assert (Hp : GeoModule.palette = [] ++ ("Treaty", "#2ecc71") :: tl GeoModule.palette)
    by reflexivity.
  assert (Hm : mentions "Sanctions, TREATY talks" "Treaty" = true) by reflexivity.
  split; [exact Hp|]. split; [exact Hm|].
  refine (proj2 (color_by_taxonomy_first_match "Sanctions, TREATY talks")
                [] (tl GeoModule.palette) "Treaty" "#2ecc71" Hp _ Hm).
  intros l c [].
Defined.

(** A geocoder that knows Paris, has no answer for Atlantis and fails on
    everything else. *)
Definition small_geocoder (loc : string) : result (option (Q * Q)) :=
  if String.eqb loc "Paris" then Ok (Some (4886 # 100, 235 # 100)%Q)
  else if String.eqb loc "Atlantis" then Ok None
  else Raise LibraryError.

Example geocode_run :
  GeoModule.geocode_location_cached small_geocoder "Paris" []
  = (Some (4886 # 100, 235 # 100)%Q, [("Paris", (4886 # 100, 235 # 100)%Q)])
  /\ GeoModule.geocode_location_cached small_geocoder "Atlantis" [] = (None, [])
  /\ GeoModule.geocode_location_cached small_geocoder "Rome" [] = (None, []).
Proof. repeat split; reflexivity. Qed.

Lemma geocode_cache_witness :
  fst (GeoModule.geocode_location_cached small_geocoder "Paris" [])
  = Some (4886 # 100, 235 # 100)%Q
  /\ (forall geo',
        GeoModule.geocode_location_cached geo' "Paris"
          (snd (GeoModule.geocode_location_cached small_geocoder "Paris" []))
        = (Some (4886 # 100, 235 # 100)%Q,
           snd (GeoModule.geocode_location_cached small_geocoder "Paris" [])))
  /\ small_geocoder "Rome" = Raise LibraryError
  /\ GeoModule.geocode_location_cached small_geocoder "Rome" [] = (None, [])
  /\ small_geocoder "Atlantis" = Ok None
  /\ GeoModule.geocode_location_cached small_geocoder "Atlantis" [] = (None, []).
Proof.
  assert (Hr : fst (GeoModule.geocode_location_cached small_geocoder "Paris" [])
               = Some (4886 # 100, 235 # 100)%Q) by reflexivity.
  assert (Hrome : small_geocoder "Rome" = Raise LibraryError) by reflexivity.
  assert (Hatl : small_geocoder "Atlantis" = Ok None) by reflexivity.
  assert (Hmiss : forall loc, @assoc_get (Q * Q) [] loc = None) by reflexivity.
  split; [exact Hr|].
  split; [exact (proj2 (proj1 (proj2 (geocode_cache small_geocoder "Paris" [])) _ Hr))|].
  split; [exact Hrome|]. split.
  - apply injective_projections.
    + exact (proj1 (proj1 (proj2 (proj2 (proj2 (proj2 (proj2
               (geocode_cache small_geocoder "Rome" []))))))
               LibraryError (Hmiss _) Hrome)).
    + exact (proj2 (proj1 (proj2 (proj2 (proj2 (proj2 (proj2
               (geocode_cache small_geocoder "Rome" []))))))
               LibraryError (Hmiss _) Hrome)).
  - split; [exact Hatl|]. apply injective_projections.
    + exact (proj1 (proj1 (proj2 (proj2 (proj2 (proj2 (proj2 (proj2
               (geocode_cache small_geocoder "Atlantis" [])))))))
               (Hmiss _) Hatl)).
    + exact (proj2 (proj1 (proj2 (proj2 (proj2 (proj2 (proj2 (proj2
               (geocode_cache small_geocoder "Atlantis" [])))))))
               (Hmiss _) Hatl)).
Defined.

Lemma scale_radius_bounds_witness :
  (4 <= 10)%Z /\ (1 <= 2 <= 3)%Z
  /\ (4 <= GeoModule._scale_radius 4 10 1 3 2 <= 10)%Z.
Proof.
  assert (H1 : (4 <= 10)%Z) by lia.
  assert (H2 : (1 <= 2 <= 3)%Z) by lia.
  split; [exact H1|]. split; [exact H2|].
  exact (proj1 (scale_radius_bounds 4 10 1 3 2 H1 H2)).
Defined.

Definition sample_coords : list (string * Q * Q) :=
  [("Paris", 48%Q, 2%Q); ("Rome", 41%Q, 12%Q); ("", 0%Q, 0%Q)].

Example folium_run :
  match GeoModule.build_folium_map (Frame Datetime64 three_events) sample_coords
          "sentiment" (-1, 1)%Q 4 10 true with
  | Ok m => map (fun mk => (GeoModule.location mk, GeoModule.radius mk, GeoModule.color mk))
                (GeoModule.markers m)
            = [((48%Q, 2%Q), 10%Z, "green"); ((0%Q, 0%Q), 4%Z, "green")]
  | Raise _ => False
  end.
Proof. reflexivity. Qed.

Lemma folium_markers_witness :
  (4 <= 10)%Z
  /\ exists m,
       GeoModule.build_folium_map (Frame Datetime64 three_events) sample_coords
         "sentiment" (-1, 1)%Q 4 10 true = Ok m
       /\ map GeoModule.location (GeoModule.markers m)
          = map (fun c => (snd (fst c), snd c))
                (filter (fun c => existsb (String.eqb (fst (fst c)))
                                          (map event_location three_events))
                        sample_coords)
       /\ length (GeoModule.markers m) = 2.
Proof.
  assert (H1 : (4 <= 10)%Z) by lia.
  split; [exact H1|].
  destruct (folium_markers Datetime64 three_events sample_coords "sentiment"
              (-1, 1)%Q 4 10 true H1) as [m [agg (Hm & _ & Hloc & _ & _ & _ & Hall)]].
  exists m. split; [exact Hm|]. split; [exact Hloc|].
  rewrite <- (Forall2_length Hall). reflexivity.
Defined.

(** *** Rolling mean *)

Example rolling_run :
  TimelineModule.add_rolling_mean [1; 2; 3]%Q (fun v => v) 3
  = Ok [(1%Q, Some (3 # 2)%Q); (2%Q, Some (6 # 3)%Q); (3%Q, Some (5 # 2)%Q)].
Proof. reflexivity. Qed.

Lemma rolling_mean_windows_witness :
  (0 < 1)%Z
  /\ TimelineModule.add_rolling_mean [1; 2; 3]%Q (fun v => v) 0 = Raise ValueError
  /\ (1 <= 3)%Z
  /\ exists out,
       TimelineModule.add_rolling_mean [1; 2; 3]%Q (fun v => v) 3 = Ok out
       /\ map fst out = [1; 2; 3]%Q.
Proof.
  assert (H0 : (0 < 1)%Z) by lia.
  assert (H3 : (1 <= 3)%Z) by lia.
  split; [exact H0|].
  split; [exact (proj1 (rolling_mean_windows Q [1; 2; 3]%Q (fun v => v) 0) H0)|].
  split; [exact H3|].
  destruct (proj1 (proj2 (rolling_mean_windows Q [1; 2; 3]%Q (fun v => v) 3)) H3)
    as [out (Ho & Hf & _)].
  exists out. split; [exact Ho | exact Hf].
Defined.

(** *** Pruning *)

Example prune_run :
  GraphModule.nodes (App.prune three_graph 2) = ["A"; "B"]
  /\ map fst (GraphModule.edges (App.prune three_graph 2)) = [("A", "B")]
  /\ App.prune (GraphModule.build_cooccurrence_graph twice_A) 1 = GraphModule.empty_graph.
Proof. repeat split; reflexivity. Qed.

Lemma prune_result_witness :
  keys_unique (GraphModule.edges three_graph)
  /\ forall e, In e (GraphModule.edges (App.prune three_graph 2)) <->
               In e (GraphModule.edges three_graph)
               /\ (2 <= GraphModule.weight (snd e))%Z.
Proof.
  assert (Hk : keys_unique (GraphModule.edges three_graph))
    by (repeat split; reflexivity).
  split; [exact Hk|].
  exact (proj1 (prune_result three_graph 2 Hk)).
Defined.

Lemma pruned_graph_nodes_witness :
  (1 <= 1)%Z
  /\ forall n,
       In n (GraphModule.nodes
               (App.prune (GraphModule.build_cooccurrence_graph twice_A) 1)) <->
       exists r m, In r (iterrows twice_A) /\ m <> n
                   /\ In n (entity_names r) /\ In m (entity_names r).
Proof.
  assert (H1 : (1 <= 1)%Z) by lia.
  split; [exact H1|].
  exact (proj2 (pruned_graph_nodes twice_A 1 H1)).
Defined.

Example filters_run :
  match App.apply_filters
          ({| year := 2021; month := 3; day := 1 |},
           {| year := 2021; month := 3; day := 5 |})
          (-10, 10)%Q [] "  " (Frame Datetime64 three_events) with
  | Ok df => map event_title (iterrows df) = ["e1"; "e2"]
  | Raise _ => False
  end.
Proof. reflexivity. Qed.

Example locations_run :
  App.unique_locations (Frame Datetime64 three_events) = ["Paris"].
Proof. reflexivity. Qed.

Example geocode_tab_run :
  App.geocode_tab small_geocoder (Frame Datetime64 three_events) [] true 80
  = ([("Paris", 4886 # 100, 235 # 100)%Q], [("Paris", (4886 # 100, 235 # 100)%Q)])
  /\ App.geocode_tab small_geocoder (Frame Datetime64 three_events) [] true 0 = ([], [])
  /\ App.geocode_tab small_geocoder (Frame Datetime64 three_events)
        [("Paris", (1, 2)%Q); ("Oslo", (3, 4)%Q)] false 80
      = ([("Paris", 1, 2)%Q], [("Paris", (1, 2)%Q); ("Oslo", (3, 4)%Q)]).
Proof. repeat split; reflexivity. Qed.

End MoreRuns.
